(** * Honey-token attribution system: the detection engine, the store and
      the alert dispatch, embedded from the Python sources.

    Source files embedded here:
    - [src/analysis/cloudwatch_analyzer.py]  (module [CloudWatchAnalyzer])
    - [lambda_function.py]                   (module [LambdaFunction])
    - [src/analysis/pattern_detector.py]     (module [PatternDetector])
    - [src/analysis/log_analyzer.py]         (module [LogAnalyzer])
    - [src/alerts/email_alert.py], [src/alerts/slack_alert.py], [src/main.py]
      (modules [EmailAlertSystem], [SlackAlertSystem], [Main]).

    Conventions of the embedding.
    - A [datetime] is the integer number of microseconds since the epoch
      (type [Z]); all datetimes of one batch share one UTC offset, so that
      comparison, subtraction and [.hour] are the integer ones.
    - A float is represented by a rational ([Q]).  The quotient of two
      integers and [timedelta.total_seconds()] are exact here and stand for
      the float nearest to them, which is what CPython computes; the two
      agree on every comparison against an integer number of seconds and on
      whether a quantity is zero.  Where the sources compute further with a
      float, round it or compare it with a float literal, the arithmetic is
      that of binary64 floats, one rounding per operation ([double]).
    - Python exceptions are values of [PyExn]; a function that may raise
      returns [Res].  Reading the wall clock, writing the DynamoDB table and
      handing a message to a transport are effects on an explicit [World].
    - [print] is not modelled. *)

From stdpp Require Import base list strings gmap pretty sorting.
From Stdlib Require Import Ascii ZArith QArith Qabs Qround Lia.

#[local] Set Warnings "-register-all,-clear-no-such-hyp".
Local Open Scope string_scope.
Local Open Scope list_scope.
Local Open Scope Z_scope.

(** ** The fragment of the Python runtime the sources rely on *)

(** Exceptions the embedded code can raise. *)
Inductive PyExn : Type :=
| TypeError
| AttributeError
| ZeroDivisionError
| IndexError
| ValueError
| ClientError.

(** The outcome of an expression that may raise. *)
Inductive Res (A : Type) : Type :=
| Ok (a : A)
| Raise (e : PyExn).
Arguments Ok {A} a.
Arguments Raise {A} e.

#[global] Instance Res_ret : MRet Res := fun A a => Ok a.
#[global] Instance Res_bind : MBind Res := fun A B f r =>
  match r with
  | Ok a => f a
  | Raise e => Raise e
  end.
#[global] Instance Res_fmap : FMap Res := fun A B f r =>
  match r with
  | Ok a => Ok (f a)
  | Raise e => Raise e
  end.

(** Python values, as far as the events, their [details] and the keyword
    arguments of the constructors need them. *)
Inductive Value : Type :=
| VNone
| VBool (b : bool)
| VInt (n : Z)
| VFloat (q : Q)
| VStr (s : string)
| VDatetime (t : Z)
| VList (l : list Value)
| VDict (d : list (string * Value)).

Definition of_opt (o : option string) : Value :=
  match o with
  | Some s => VStr s
  | None => VNone
  end.

(** [a == b] on the values compared in the sources (strings, [None],
    integers); containers are never compared there. *)
Definition py_eq (a b : Value) : bool :=
  match a, b with
  | VNone, VNone => true
  | VBool x, VBool y => Bool.eqb x y
  | VInt x, VInt y => x =? y
  | VFloat x, VFloat y => Qeq_bool x y
  | VInt x, VFloat y => Qeq_bool (inject_Z x) y
  | VFloat x, VInt y => Qeq_bool x (inject_Z y)
  | VStr x, VStr y => String.eqb x y
  | VDatetime x, VDatetime y => x =? y
  | _, _ => false
  end.

(** [x in xs] for a list literal [xs]. *)
Definition py_in (x : Value) (xs : list Value) : bool :=
  existsb (py_eq x) xs.

(** [str.lower()], on the ASCII letters. *)
Definition ascii_lower (c : ascii) : ascii :=
  let n := N_of_ascii c in
  if ((65 <=? n) && (n <=? 90))%N then ascii_of_N (n + 32) else c.

Fixpoint lower (s : string) : string :=
  match s with
  | EmptyString => EmptyString
  | String c r => String (ascii_lower c) (lower r)
  end.

(** [pat in s] for strings: [pat] occurs in [s] as a substring. *)
Fixpoint contains (pat s : string) : bool :=
  String.prefix pat s ||
  match s with
  | EmptyString => false
  | String _ r => contains pat r
  end.

(** [l[i]], with Python's negative indices and [IndexError]. *)
Definition py_index {A : Type} (l : list A) (i : Z) : Res A :=
  let n := Z.of_nat (length l) in
  let j := if i <? 0 then i + n else i in
  if (0 <=? j) && (j <? n) then
    match l !! Z.to_nat j with
    | Some x => Ok x
    | None => Raise IndexError
    end
  else Raise IndexError.

(** [range(n)] as the list [0, 1, ..., n-1] (empty when [n <= 0]). *)
Definition py_range (n : Z) : list Z :=
  map Z.of_nat (seq 0 (Z.to_nat n)).

(** [d[k].append(v)] on a [defaultdict(list)]: dictionaries keep their keys
    in insertion order, so a dictionary is the list of its items. *)
Fixpoint setdefault_append {K V : Type} `{EqDecision K}
    (k : K) (v : V) (d : list (K * list V)) : list (K * list V) :=
  match d with
  | [] => [(k, [v])]
  | (k', vs) :: d' =>
      if decide (k = k') then (k', vs ++ [v]) :: d'
      else (k', vs) :: setdefault_append k v d'
  end.

(** [d[k].add(v)] on a [defaultdict(set)]; the set keeps its distinct
    elements in the order of their first insertion. *)
Fixpoint setdefault_add {K V : Type} `{EqDecision K} `{EqDecision V}
    (k : K) (v : V) (d : list (K * list V)) : list (K * list V) :=
  match d with
  | [] => [(k, [v])]
  | (k', vs) :: d' =>
      if decide (k = k') then
        (k', if decide (v ∈ vs) then vs else vs ++ [v]) :: d'
      else (k', vs) :: setdefault_add k v d'
  end.

(** [list.sort(key=...)]: Python's sort is stable, and so is this insertion
    sort; a stable sort has one result. *)
Fixpoint insert_by {A : Type} (key : A -> Z) (x : A) (l : list A) : list A :=
  match l with
  | [] => [x]
  | y :: l' => if key x <? key y then x :: l else y :: insert_by key x l'
  end.

Definition sort_by {A : Type} (key : A -> Z) (l : list A) : list A :=
  fold_left (fun acc x => insert_by key x acc) l [].

(** [min(l)] and [max(l)] of a list of integers; [ValueError] when empty. *)
Definition py_min (l : list Z) : Res Z :=
  match l with
  | [] => Raise ValueError
  | x :: r => Ok (fold_left Z.min r x)
  end.

Definition py_max (l : list Z) : Res Z :=
  match l with
  | [] => Raise ValueError
  | x :: r => Ok (fold_left Z.max r x)
  end.

(** The distinct elements of a list, in order of first occurrence: what
    [set(l)] holds. *)
Fixpoint distinct {A : Type} `{EqDecision A} (l : list A) : list A :=
  match l with
  | [] => []
  | x :: r => x :: filter (fun y => y ≠ x) (distinct r)
  end.

(** An update of [d[k]] on a [defaultdict] whose factory returns [default]. *)
Fixpoint dict_update {K V : Type} `{EqDecision K}
    (k : K) (default : V) (f : V -> V) (d : list (K * V)) : list (K * V) :=
  match d with
  | [] => [(k, f default)]
  | (k', v) :: d' =>
      if decide (k = k') then (k', f v) :: d'
      else (k', v) :: dict_update k default f d'
  end.

(** Reading [d[k]] on a [defaultdict] while iterating over the keys of
    another one (the read inserts nothing that is looked at again). *)
Fixpoint dict_get {K V : Type} `{EqDecision K}
    (k : K) (default : V) (d : list (K * V)) : V :=
  match d with
  | [] => default
  | (k', v) :: d' => if decide (k = k') then v else dict_get k default d'
  end.

(** [a / b] (true division): the exact quotient of the operands, which
    stands for the float nearest to it. *)
Definition py_div (a b : Q) : Res Q :=
  if Qeq_bool b 0 then Raise ZeroDivisionError else Ok (a / b)%Q.

(** [a < b] on numbers. *)
Definition Qlt_bool (a b : Q) : bool := negb (Qle_bool b a).

(** [max(a, b)] on numbers: the first of the largest. *)
Definition py_max2 (a b : Q) : Q :=
  if Qle_bool b a then a else b.

(** The integer nearest to a rational, ties to the even one. *)
Definition round_half_even (y : Q) : Z :=
  let n := Qfloor y in
  let frac := (y - inject_Z n)%Q in
  let up := if Qeq_bool frac (1 # 2) then Z.odd n else Qle_bool (1 # 2) frac in
  if up then n + 1 else n.

(** [2 ** k] for an integer [k] of either sign. *)
Definition pow2 (k : Z) : Q :=
  if 0 <=? k then inject_Z (2 ^ k) else (1 # Z.to_pos (2 ^ (- k))).

(** The binary float (IEEE 754 binary64, as CPython's [float]) nearest to a
    rational, ties to the even significand: 53 bits of significand, and
    multiples of [2 ** -1074] below the normal range.  No quantity of the
    sources comes near the largest float, so overflow is left out.

    An exact quotient ([total_seconds], [py_div] of two integers) stands
    for the float nearest to it, which is what CPython computes there;
    where the sources compute further with such a float, or round it, the
    operands are read through [double]. *)
Definition double (q : Q) : Q :=
  if Qeq_bool q 0 then 0%Q
  else
    let a := Qabs q in
    let e0 := Z.log2 (Qnum a) - Z.log2 (Z.pos (Qden a)) in
    let e := if Qle_bool (pow2 e0) a then e0 else e0 - 1 in
    let shift := Z.max (e - 52) (-1074) in
    let m := round_half_even (a / pow2 shift) in
    let r := (inject_Z m * pow2 shift)%Q in
    Qred (if Qle_bool 0 q then r else - r)%Q.

(** [sum(l)] of floats: one rounded addition per element, from the left
    (the loop of CPython up to 3.11). *)
Definition float_sum (l : list Q) : Q :=
  fold_left (fun acc x => double (acc + x)) l 0%Q.

(** [round(x, 2)] of a float: the float is printed exactly and rounded to
    the nearest hundredth, ties to the even one; the result stands for the
    float nearest to that decimal. *)
Definition py_round2 (x : Q) : Q :=
  (round_half_even (double x * 100) # 100).

(** [sep.join(l)]; an element that is not text is a [TypeError]. *)
Fixpoint py_join (sep : string) (l : list Value) : Res string :=
  match l with
  | [] => Ok ""
  | [VStr s] => Ok s
  | VStr s :: r => rest ← py_join sep r; Ok (s +:+ sep +:+ rest)
  | _ => Raise TypeError
  end.

(** Renderings to text that the sources use and that no decision depends
    on. *)
Class PyText : Type := {
  (** [f"{dt.timestamp()}"]: the text of the float of epoch seconds *)
  timestamp_str : Z -> string;
  (** [dt.isoformat()] *)
  isoformat : Z -> string;
  (** [dt.strftime(fmt)] *)
  strftime : string -> Z -> string;
  (** [json.dumps(v)] *)
  json_dumps : Value -> string;
  (** [str(v)] of a float, a datetime or a container *)
  str_other : Value -> string
}.

(** The order in which a process iterates over a set of strings follows
    the hash seed the interpreter draws when it starts, so it changes from
    one run to the next, as the clock does.  [set_order l] is [list(s)] in
    one process, for the set [s] whose distinct elements were inserted in
    the order [l]: some arrangement of these elements. *)
Class PyHash : Type := {
  set_order : list Value -> list Value;
  set_order_permutation : forall l, set_order l ≡ₚ l
}.

(** [str(v)], as an f-string interpolates a value. *)
Definition py_str {text : PyText} (v : Value) : string :=
  match v with
  | VNone => "None"
  | VBool true => "True"
  | VBool false => "False"
  | VInt n => pretty n
  | VStr s => s
  | _ => str_other v
  end.

(** Seconds of a [timedelta] of [us] microseconds. *)
Definition total_seconds (us : Z) : Q := us # 1000000.

(** [dt.hour]. *)
Definition hour (t : Z) : Z := (t / 3600000000) mod 24.

(** ** Dataclass instances and keyword construction *)

(** [@dataclass SecurityEvent] of [cloudwatch_analyzer.py]; the dataclass of
    [lambda_function.py] has the same seven fields in the same order.
    Python checks no field type, so every field holds a [Value]. *)
Record SecurityEvent : Type := {
  event_type : Value;
  severity : Value;
  timestamp : Value;
  ip_address : Value;
  resource : Value;
  details : Value;
  region : Value
}.

(** A call [C(k1=v1, ..., kn=vn)]: the keyword arguments in order. *)
Definition Kwargs : Type := list (string * Value).

Fixpoint kwarg (kw : Kwargs) (name : string) : option Value :=
  match kw with
  | [] => None
  | (k, v) :: r => if String.eqb k name then Some v else kwarg r name
  end.

(** The [__init__] a dataclass generates, given its fields with their
    defaults: an unexpected keyword and a missing field without default are
    both [TypeError].  The result lists the field values in field order. *)
Definition dataclass_init (fields : list (string * option Value))
    (kw : Kwargs) : Res (list Value) :=
  if forallb (fun a => existsb (String.eqb a.1) fields.*1) kw then
    mapM (M := Res) (fun fd =>
      match kwarg kw fd.1 with
      | Some v => Ok v
      | None =>
          match fd.2 with
          | Some v => Ok v
          | None => Raise TypeError
          end
      end) fields
  else Raise TypeError.

Definition SecurityEvent_fields : list (string * option Value) :=
  [("event_type", None); ("severity", None); ("timestamp", None);
   ("ip_address", None); ("resource", None); ("details", None);
   ("region", None)].

(** A keyword call of [SecurityEvent], the dataclass of
    [cloudwatch_analyzer.py]. *)
Definition SecurityEvent_init (kw : Kwargs) : Res SecurityEvent :=
  vs ← dataclass_init SecurityEvent_fields kw;
  match vs with
  | [a; b; c; d; e; f; g] =>
      Ok {| event_type := a; severity := b; timestamp := c; ip_address := d;
            resource := e; details := f; region := g |}
  | _ => Raise TypeError
  end.

(** Objects whose attributes are read by name (the alert formatters are
    written against whatever event object they are handed). *)
Class PyObject (E : Type) : Type :=
  getattr : E -> string -> Res Value.

#[global] Instance SecurityEvent_object : PyObject SecurityEvent := fun e name =>
  if String.eqb name "event_type" then Ok (event_type e)
  else if String.eqb name "severity" then Ok (severity e)
  else if String.eqb name "timestamp" then Ok (timestamp e)
  else if String.eqb name "ip_address" then Ok (ip_address e)
  else if String.eqb name "resource" then Ok (resource e)
  else if String.eqb name "details" then Ok (details e)
  else if String.eqb name "region" then Ok (region e)
  else Raise AttributeError.

(** ** The world outside the interpreter *)

(** One item of the DynamoDB table, as [store_event_in_dynamodb] builds it. *)
Record Item : Type := {
  item_event_id : string;
  item_timestamp : string;
  item_event_type : Value;
  item_severity : Value;
  item_ip_address : Value;
  item_resource : Value;
  item_region : Value;
  item_details : string
}.

(** What a transport was handed: a SendGrid mail (subject and the values
    interpolated into the HTML body, in order) or a Slack webhook post (the
    values of the payload, in order). *)
Inductive Delivery : Type :=
| Mail (subject : string) (body : list Value)
| SlackPost (payload : list Value).

Record World : Type := {
  (** [clock k] is what the [k]-th call of [datetime.now] returns *)
  clock : nat -> Z;
  reads : nat;
  (** the DynamoDB table, by [event_id] *)
  table : gmap string Item;
  (** [put_item] raises [ClientError] when the table is unreachable *)
  table_up : bool;
  (** deliveries in the order they were handed over *)
  outbox : list Delivery;
  (** the HTTP status SendGrid and the Slack webhook answer with, or the
      exception their client raises *)
  sendgrid_reply : Res Z;
  slack_reply : Res Z
}.

(** Effectful code: it can raise and it changes the world. *)
Definition M (A : Type) : Type := World -> Res A * World.

#[global] Instance M_ret : MRet M := fun A a w => (Ok a, w).
#[global] Instance M_bind : MBind M := fun A B f m w =>
  match m w with
  | (Ok a, w') => f a w'
  | (Raise e, w') => (Raise e, w')
  end.

(** A pure expression inside effectful code. *)
Definition lift {A : Type} (r : Res A) : M A := fun w => (r, w).

(** [try: body except Exception: handler]. *)
Definition try_except {A : Type} (body : M A) (handler : PyExn -> M A) : M A :=
  fun w =>
    match body w with
    | (Ok a, w') => (Ok a, w')
    | (Raise e, w') => handler e w'
    end.

(** [datetime.now()]. *)
Definition datetime_now : M Z := fun w =>
  (Ok (clock w (reads w)),
   {| clock := clock w; reads := S (reads w); table := table w;
      table_up := table_up w; outbox := outbox w;
      sendgrid_reply := sendgrid_reply w; slack_reply := slack_reply w |}).

(** [table.put_item(Item=item)]: an unconditional write under the item's
    [event_id]. *)
Definition put_item (item : Item) : M unit := fun w =>
  if table_up w then
    (Ok tt,
     {| clock := clock w; reads := reads w;
        table := <[item_event_id item := item]> (table w);
        table_up := table_up w; outbox := outbox w;
        sendgrid_reply := sendgrid_reply w; slack_reply := slack_reply w |})
  else (Raise ClientError, w).

(** Handing a delivery to its transport; the answer is the transport's. *)
Definition deliver (d : Delivery) (reply : World -> Res Z) : M Z := fun w =>
  (reply w,
   {| clock := clock w; reads := reads w; table := table w;
      table_up := table_up w; outbox := outbox w ++ [d];
      sendgrid_reply := sendgrid_reply w; slack_reply := slack_reply w |}).

(** [for x in xs: body], threading the variables the body assigns. *)
Fixpoint for_each {A S : Type} (xs : list A) (body : S -> A -> M S) (s : S)
    : M S :=
  match xs with
  | [] => mret s
  | x :: r => s' ← body s x; for_each r body s'
  end.

(** The same loop for code that touches no world. *)
Fixpoint for_each_pure {A S : Type} (xs : list A) (body : S -> A -> Res S)
    (s : S) : Res S :=
  match xs with
  | [] => Ok s
  | x :: r => s' ← body s x; for_each_pure r body s'
  end.

(** ** [src/analysis/cloudwatch_analyzer.py] *)

Module CloudWatchAnalyzer.

(** A log entry as [_parse_log_results] builds it: every key is present, and
    a field the query result lacks holds [None].  [l_timestamp] is what
    [datetime.fromisoformat(log['timestamp'].replace('Z', '+00:00'))]
    evaluates to: [Some t], or [None] when that expression raises (the value
    is [None] or its text does not parse); both detectors that read it do so
    inside a [try] whose handler skips the entry. *)
Record LogEntry : Type := {
  l_timestamp : option Z;
  l_bucket_name : option string;
  l_object_name : option string;
  l_remote_ip : option string;
  l_user_agent : option string;
  l_operation : option string;
  l_http_status : option string;
  l_region : string
}.

(** The attributes [__init__] sets on [self] (the boto3 clients apart). *)
Record Self : Type := {
  self_region : string;
  self_table_name : string;
  self_bulk_download_threshold : Z;
  self_rapid_access_threshold : Z;
  self_rapid_access_window : Z
}.

(** [__init__] with no environment variable set. *)
Definition defaults : Self :=
  {| self_region := "us-east-1";
     self_table_name := "honeypot_logs";
     self_bulk_download_threshold := 10;
     self_rapid_access_threshold := 5;
     self_rapid_access_window := 60 |}.

Section detectors.
Context {text : PyText} {hash : PyHash}.
Variable self : Self.

Definition bulk_download_event (ip : option string)
    (downloads : list LogEntry) (first : LogEntry) (now : Z) : SecurityEvent :=
  {| event_type := VStr "bulk_download";
     severity := VStr "high";
     timestamp := VDatetime now;
     ip_address := of_opt ip;
     resource := of_opt (l_bucket_name first);
     details := VDict [
       ("download_count", VInt (Z.of_nat (length downloads)));
       ("files", VList (map (fun d => of_opt (l_object_name d))
                            (take 10 downloads)));
       ("user_agent", of_opt (l_user_agent first))];
     region := VStr (self_region self) |}.

Definition detect_bulk_downloads (logs : list LogEntry)
    : M (list SecurityEvent) :=
  let ip_downloads :=
    fold_left (fun d log =>
      if bool_decide (l_operation log = Some "REST.GET.OBJECT")
      then setdefault_append (l_remote_ip log) log d
      else d) logs [] in
  for_each ip_downloads (fun events '(ip, downloads) =>
    if Z.of_nat (length downloads) >=? self_bulk_download_threshold self then
      now ← datetime_now;
      first ← lift (py_index downloads 0);
      mret (events ++ [bulk_download_event ip downloads first now])
    else mret events) [].

Definition rapid_access_event (ip : option string)
    (window_start window_end now : Z) : SecurityEvent :=
  {| event_type := VStr "rapid_access";
     severity := VStr "medium";
     timestamp := VDatetime now;
     ip_address := of_opt ip;
     resource := VStr "multiple";
     details := VDict [
       ("access_count", VInt (self_rapid_access_threshold self));
       ("time_window",
        VStr (pretty (self_rapid_access_window self) +:+ " seconds"));
       ("first_access", VStr (isoformat window_start));
       ("last_access", VStr (isoformat window_end))];
     region := VStr (self_region self) |}.

(** The inner loop [for i in range(...)] of [detect_rapid_access], over the
    indices still to visit; it stops at its [break]. *)
Fixpoint scan_windows (ip : option string) (times : list Z) (indices : list Z)
    (events : list SecurityEvent) : M (list SecurityEvent) :=
  match indices with
  | [] => mret events
  | i :: rest =>
      window_start ← lift (py_index times i);
      window_end ←
        lift (py_index times (i + self_rapid_access_threshold self - 1));
      if Qle_bool (total_seconds (window_end - window_start))
                  (inject_Z (self_rapid_access_window self)) then
        now ← datetime_now;
        mret (events ++ [rapid_access_event ip window_start window_end now])
      else scan_windows ip times rest events
  end.

Definition detect_rapid_access (logs : list LogEntry)
    : M (list SecurityEvent) :=
  let ip_access_times :=
    fold_left (fun d log =>
      match l_timestamp log with
      | Some t => setdefault_append (l_remote_ip log) t d
      | None => d
      end) logs [] in
  for_each ip_access_times (fun events '(ip, times) =>
    let times := sort_by id times in
    scan_windows ip times
      (py_range (Z.of_nat (length times)
                 - self_rapid_access_threshold self + 1))
      events) [].

Definition abnormal_hours_event (log : LogEntry) (t : Z) : SecurityEvent :=
  {| event_type := VStr "abnormal_hours_access";
     severity := VStr "medium";
     timestamp := VDatetime t;
     ip_address := of_opt (l_remote_ip log);
     resource := of_opt (l_object_name log);
     details := VDict [
       ("access_time", VStr (strftime "%Y-%m-%d %H:%M:%S UTC" t));
       ("operation", of_opt (l_operation log))];
     region := VStr (self_region self) |}.

Definition detect_abnormal_hours_access (logs : list LogEntry)
    : M (list SecurityEvent) :=
  for_each logs (fun events log =>
    match l_timestamp log with
    | Some t =>
        if (0 <=? hour t) && (hour t <? 6)
        then mret (events ++ [abnormal_hours_event log t])
        else mret events
    | None => mret events
    end) [].

Definition suspicious_patterns : list string :=
  ["curl"; "wget"; "python"; "bot"; "crawler"; "scanner"].

Definition suspicious_user_agent_event (log : LogEntry) (now : Z)
    : SecurityEvent :=
  {| event_type := VStr "suspicious_user_agent";
     severity := VStr "medium";
     timestamp := VDatetime now;
     ip_address := of_opt (l_remote_ip log);
     resource := of_opt (l_object_name log);
     details := VDict [
       ("user_agent", of_opt (l_user_agent log));
       ("reason", VStr "Automated tool detected")];
     region := VStr (self_region self) |}.

(** [log.get('user_agent', '')] finds the key and returns its value;
    [.lower()] on [None] raises [AttributeError]. *)
Definition detect_geolocation_anomaly (logs : list LogEntry)
    : M (list SecurityEvent) :=
  for_each logs (fun events log =>
    user_agent ← lift (match l_user_agent log with
                       | Some s => Ok (lower s)
                       | None => Raise AttributeError
                       end);
    if existsb (fun pattern => contains pattern user_agent) suspicious_patterns
    then
      now ← datetime_now;
      mret (events ++ [suspicious_user_agent_event log now])
    else mret events) [].

(** The item [store_event_in_dynamodb] builds; [event.timestamp.timestamp()]
    needs a datetime.  [json.dumps] is taken to succeed: the details the
    detectors build hold text, integers and lists of them. *)
Definition make_item (event : SecurityEvent) : Res Item :=
  match timestamp event with
  | VDatetime t =>
      Ok {| item_event_id :=
              py_str (event_type event) +:+ "_" +:+ timestamp_str t
              +:+ "_" +:+ py_str (ip_address event);
            item_timestamp := isoformat t;
            item_event_type := event_type event;
            item_severity := severity event;
            item_ip_address := ip_address event;
            item_resource := resource event;
            item_region := region event;
            item_details := json_dumps (details event) |}
  | _ => Raise AttributeError
  end.

(** Returns [None] on every path. *)
Definition store_event_in_dynamodb (event : SecurityEvent) : M unit :=
  try_except
    (item ← lift (make_item event); put_item item)
    (fun _ => mret tt).

(** [analyze_logs(hours)], with [logs] what [query_s3_access_logs(hours)]
    returned.  The result is the dictionary [all_events] in key order. *)
Definition analyze_logs (logs : list LogEntry)
    : M (list (string * list SecurityEvent)) :=
  match logs with
  | [] => mret []
  | _ =>
      bulk ← detect_bulk_downloads logs;
      rapid ← detect_rapid_access logs;
      abnormal ← detect_abnormal_hours_access logs;
      agents ← detect_geolocation_anomaly logs;
      let all_events :=
        [("bulk_downloads", bulk); ("rapid_access", rapid);
         ("abnormal_hours", abnormal); ("suspicious_agents", agents)] in
      for_each all_events (fun _ '(_, events) =>
        for_each events (fun _ event => store_event_in_dynamodb event) tt) tt;;
      mret all_events
  end.

End detectors.

End CloudWatchAnalyzer.

(** ** [lambda_function.py] *)

Module LambdaFunction.

(** A log entry as [query_s3_access_logs] builds it: six keys, each holding
    text.  [l_timestamp] is [Some t] when the text under ['timestamp'] is not
    empty and [datetime.fromisoformat] reads it as [t], and [None] otherwise
    (the detectors then skip the entry). *)
Record LogEntry : Type := {
  l_timestamp : option Z;
  l_remote_ip : string;
  l_object_name : string;
  l_user_agent : string;
  l_http_status : string;
  l_operation : string
}.

Record Self : Type := {
  self_region : string;
  self_table_name : string;
  self_bucket_name : string
}.

Definition defaults : Self :=
  {| self_region := "us-east-1";
     self_table_name := "honeypot_logs";
     self_bucket_name := "honey-tokens-storage-us-east-1" |}.

Section detectors.
Context {text : PyText} {hash : PyHash}.
Variable self : Self.

Definition bulk_download_event (ip : string) (files : list string) (now : Z)
    : SecurityEvent :=
  {| event_type := VStr "bulk_download";
     severity := VStr "critical";
     timestamp := VDatetime now;
     ip_address := VStr ip;
     resource := VStr (pretty (length files) +:+ " files");
     details := VDict [
       ("files", VList (take 10 (set_order (map VStr files))));
       ("total", VInt (Z.of_nat (length files)))];
     region := VStr (self_region self) |}.

Definition detect_bulk_downloads (logs : list LogEntry)
    : M (list SecurityEvent) :=
  let ip_downloads :=
    fold_left (fun d log =>
      setdefault_add (l_remote_ip log) (l_object_name log) d) logs [] in
  for_each ip_downloads (fun events '(ip, files) =>
    if Z.of_nat (length files) >=? 5 then
      now ← datetime_now;
      mret (events ++ [bulk_download_event ip files now])
    else mret events) [].

Definition rapid_access_event (ip : string) (window_start window_end now : Z)
    : SecurityEvent :=
  {| event_type := VStr "rapid_access";
     severity := VStr "high";
     timestamp := VDatetime now;
     ip_address := VStr ip;
     resource := VStr "multiple";
     details := VDict [
       ("access_count", VInt 10);
       ("time_window", VStr "5 minutes");
       ("first_access", VStr (isoformat window_start));
       ("last_access", VStr (isoformat window_end))];
     region := VStr (self_region self) |}.

Fixpoint scan_windows (ip : string) (times : list Z) (indices : list Z)
    (events : list SecurityEvent) : M (list SecurityEvent) :=
  match indices with
  | [] => mret events
  | i :: rest =>
      window_start ← lift (py_index times i);
      window_end ← lift (py_index times (i + 9));
      if Qle_bool (total_seconds (window_end - window_start)) (inject_Z 300)
      then
        now ← datetime_now;
        mret (events ++ [rapid_access_event ip window_start window_end now])
      else scan_windows ip times rest events
  end.

Definition detect_rapid_access (logs : list LogEntry)
    : M (list SecurityEvent) :=
  let ip_access_times :=
    fold_left (fun d log =>
      match l_timestamp log with
      | Some t => setdefault_append (l_remote_ip log) t d
      | None => d
      end) logs [] in
  for_each ip_access_times (fun events '(ip, times) =>
    let times := sort_by id times in
    scan_windows ip times (py_range (Z.of_nat (length times) - 9)) events) [].

Definition abnormal_hours_event (ip : string) (access_logs : list LogEntry)
    (now : Z) : SecurityEvent :=
  {| event_type := VStr "abnormal_hours_access";
     severity := VStr "medium";
     timestamp := VDatetime now;
     ip_address := VStr ip;
     resource := VStr "multiple";
     details := VDict [
       ("access_count", VInt (Z.of_nat (length access_logs)));
       ("time_range", VStr "00:00-06:00 UTC");
       ("files_accessed",
        VList (map (fun log => VStr (l_object_name log))
                   (take 5 access_logs)))];
     region := VStr (self_region self) |}.

Definition detect_abnormal_hours (logs : list LogEntry)
    : M (list SecurityEvent) :=
  let ip_abnormal_access :=
    fold_left (fun d log =>
      match l_timestamp log with
      | Some t =>
          if (0 <=? hour t) && (hour t <? 6)
          then setdefault_append (l_remote_ip log) log d
          else d
      | None => d
      end) logs [] in
  for_each ip_abnormal_access (fun events '(ip, access_logs) =>
    if Z.of_nat (length access_logs) >=? 3 then
      now ← datetime_now;
      mret (events ++ [abnormal_hours_event ip access_logs now])
    else mret events) [].

Definition suspicious_patterns : list string :=
  ["curl"; "wget"; "python"; "bot"; "crawler"; "scanner"; "script"].

Definition suspicious_user_agent_event (ip : string)
    (sus_logs : list LogEntry) (first : LogEntry) (now : Z) : SecurityEvent :=
  {| event_type := VStr "suspicious_user_agent";
     severity := VStr "medium";
     timestamp := VDatetime now;
     ip_address := VStr ip;
     resource := VStr (pretty (length sus_logs) +:+ " requests");
     details := VDict [
       ("user_agent", VStr (l_user_agent first));
       ("request_count", VInt (Z.of_nat (length sus_logs)));
       ("reason", VStr "Automated tool detected")];
     region := VStr (self_region self) |}.

Definition detect_suspicious_user_agents (logs : list LogEntry)
    : M (list SecurityEvent) :=
  let ip_suspicious :=
    fold_left (fun d log =>
      if existsb (fun pattern => contains pattern (lower (l_user_agent log)))
                 suspicious_patterns
      then setdefault_append (l_remote_ip log) log d
      else d) logs [] in
  for_each ip_suspicious (fun events '(ip, sus_logs) =>
    now ← datetime_now;
    first ← lift (py_index sus_logs 0);
    mret (events ++ [suspicious_user_agent_event ip sus_logs first now])) [].

Definition failed_access_event (ip : string) (failure_logs : list LogEntry)
    (now : Z) : SecurityEvent :=
  {| event_type := VStr "failed_access_attempts";
     severity := VStr "high";
     timestamp := VDatetime now;
     ip_address := VStr ip;
     resource := VStr "multiple";
     details := VDict [
       ("failure_count", VInt (Z.of_nat (length failure_logs)));
       ("status_codes",
        VList (map (fun log => VStr (l_http_status log))
                   (take 10 failure_logs)));
       ("attempted_resources",
        VList (map (fun log => VStr (l_object_name log))
                   (take 5 failure_logs)))];
     region := VStr (self_region self) |}.

Definition detect_failed_access_attempts (logs : list LogEntry)
    : M (list SecurityEvent) :=
  let ip_failures :=
    fold_left (fun d log =>
      if existsb (String.eqb (l_http_status log)) ["403"; "404"; "401"]
      then setdefault_append (l_remote_ip log) log d
      else d) logs [] in
  for_each ip_failures (fun events '(ip, failure_logs) =>
    if Z.of_nat (length failure_logs) >=? 5 then
      now ← datetime_now;
      mret (events ++ [failed_access_event ip failure_logs now])
    else mret events) [].

(** The item is keyed by the wall clock at the time of the call
    ([datetime.now().timestamp()]), not by anything of the event. *)
Definition make_item (event : SecurityEvent) (now : Z) : Res Item :=
  match timestamp event with
  | VDatetime t =>
      Ok {| item_event_id :=
              py_str (event_type event) +:+ "_" +:+ timestamp_str now
              +:+ "_" +:+ py_str (ip_address event);
            item_timestamp := isoformat t;
            item_event_type := event_type event;
            item_severity := severity event;
            item_ip_address := ip_address event;
            item_resource := resource event;
            item_region := region event;
            item_details := json_dumps (details event) |}
  | _ => Raise AttributeError
  end.

(** Returns [True] once [put_item] returned, [False] from the handler. *)
Definition store_event_in_dynamodb (event : SecurityEvent) : M bool :=
  try_except
    (now ← datetime_now;
     item ← lift (make_item event now);
     put_item item;;
     mret true)
    (fun _ => mret false).

(** [analyze_logs(hours)], with [logs] what [query_s3_access_logs(hours)]
    returned; the count [total_stored] is only printed. *)
Definition analyze_logs (logs : list LogEntry)
    : M (list (string * list SecurityEvent)) :=
  match logs with
  | [] => mret []
  | _ =>
      bulk ← detect_bulk_downloads logs;
      rapid ← detect_rapid_access logs;
      abnormal ← detect_abnormal_hours logs;
      agents ← detect_suspicious_user_agents logs;
      failed ← detect_failed_access_attempts logs;
      let all_events :=
        [("bulk_download", bulk); ("rapid_access", rapid);
         ("abnormal_hours", abnormal); ("suspicious_user_agent", agents);
         ("failed_access_attempts", failed)] in
      for_each all_events (fun total_stored '(_, events) =>
        for_each events (fun total_stored event =>
          stored ← store_event_in_dynamodb event;
          mret (if stored : bool then total_stored + 1 else total_stored))
          total_stored) 0;;
      mret all_events
  end.

End detectors.

End LambdaFunction.

(** ** [src/analysis/log_analyzer.py] *)

Module LogAnalyzer.

(** [@dataclass SecurityEvent] of [log_analyzer.py]: eight fields, the last
    with a default. *)
Record SecurityEvent : Type := {
  timestamp : Value;
  event_type : Value;
  severity : Value;
  source_ip : Value;
  user_agent : Value;
  resource : Value;
  details : Value;
  region : Value
}.

Definition SecurityEvent_fields : list (string * option Value) :=
  [("timestamp", None); ("event_type", None); ("severity", None);
   ("source_ip", None); ("user_agent", None); ("resource", None);
   ("details", None); ("region", Some (VStr "unknown"))].

Definition SecurityEvent_init (kw : Kwargs) : Res SecurityEvent :=
  vs ← dataclass_init SecurityEvent_fields kw;
  match vs with
  | [a; b; c; d; e; f; g; h] =>
      Ok {| timestamp := a; event_type := b; severity := c; source_ip := d;
            user_agent := e; resource := f; details := g; region := h |}
  | _ => Raise TypeError
  end.

#[global] Instance SecurityEvent_object : PyObject SecurityEvent := fun e name =>
  if String.eqb name "timestamp" then Ok (timestamp e)
  else if String.eqb name "event_type" then Ok (event_type e)
  else if String.eqb name "severity" then Ok (severity e)
  else if String.eqb name "source_ip" then Ok (source_ip e)
  else if String.eqb name "user_agent" then Ok (user_agent e)
  else if String.eqb name "resource" then Ok (resource e)
  else if String.eqb name "details" then Ok (details e)
  else if String.eqb name "region" then Ok (region e)
  else Raise AttributeError.

(** A log entry as [get_recent_access_logs] builds it from a BigQuery row:
    every key is present, the timestamp is a datetime, a column that is NULL
    holds [None]. *)
Record LogEntry : Type := {
  l_timestamp : Z;
  l_bucket : option string;
  l_object : option string;
  l_method : option string;
  l_status : option Z;
  l_user_agent : option string;
  l_ip : option string;
  l_url : option string;
  l_region : option string
}.

Record Self : Type := {
  self_bulk_download_threshold : Z;
  self_rapid_access_threshold : Z;
  self_rapid_access_window : Z;
  self_abnormal_hours_start : Z;
  self_abnormal_hours_end : Z;
  self_suspicious_countries : list string;
  self_suspicious_user_agents : list string
}.

Definition defaults : Self :=
  {| self_bulk_download_threshold := 1000;
     self_rapid_access_threshold := 10;
     self_rapid_access_window := 300;
     self_abnormal_hours_start := 0;
     self_abnormal_hours_end := 6;
     self_suspicious_countries := ["RU"; "CN"; "KP"; "IR"; "SY"];
     self_suspicious_user_agents :=
       ["curl"; "wget"; "python-requests"; "scrapy"; "bot"] |}.

(** [f"{n:02d}"]. *)
Definition pad2 (n : Z) : string :=
  if (0 <=? n) && (n <? 10) then "0" +:+ pretty n else pretty n.

Section detectors.
Context {text : PyText} {hash : PyHash}.
Variable self : Self.

Definition is_download (log : LogEntry) : bool :=
  bool_decide (l_method log = Some "GET") && bool_decide (l_status log = Some 200).

Definition detect_bulk_downloads (logs : list LogEntry)
    : Res (list SecurityEvent) :=
  let '(ip_downloads, ip_resources, ip_timestamps) :=
    fold_left (fun '(downloads, resources, timestamps) log =>
      let ip := l_ip log in
      if is_download log then
        (dict_update ip 0 Z.succ downloads,
         setdefault_add ip (l_object log) resources,
         setdefault_append ip (l_timestamp log) timestamps)
      else (downloads, resources, timestamps)) logs ([], [], []) in
  for_each_pure ip_downloads (fun events '(ip, count) =>
    if count >=? self_bulk_download_threshold self then
      last ← py_max (dict_get ip [] ip_timestamps);
      first_log ← py_index logs 0;
      joined ← py_join ", "
        (take 5 (set_order (map of_opt (dict_get ip [] ip_resources))));
      first ← py_min (dict_get ip [] ip_timestamps);
      event ← SecurityEvent_init [
        ("timestamp", VDatetime last);
        ("event_type", VStr "bulk_download");
        ("severity", VStr "high");
        ("source_ip", of_opt ip);
        ("user_agent", of_opt (l_user_agent first_log));
        ("resource", VStr joined);
        ("details", VDict [
           ("download_count", VInt count);
           ("unique_resources",
            VInt (Z.of_nat (length (dict_get ip [] ip_resources))));
           ("time_span", VFloat (total_seconds (last - first)))])];
      Ok (events ++ [event])
    else Ok events) [].

(** The inner loop of [detect_rapid_access], over the indices still to
    visit; it stops at its [break]. *)
Fixpoint scan_windows (ip : option string) (accesses : list LogEntry)
    (indices : list Z) (events : list SecurityEvent)
    : Res (list SecurityEvent) :=
  match indices with
  | [] => Ok events
  | i :: rest =>
      start ← py_index accesses i;
      let window_end :=
        l_timestamp start + self_rapid_access_window self * 1000000 in
      let window_accesses :=
        filter (fun a => l_timestamp a <= window_end)
               (drop (Z.to_nat i) accesses) in
      if Z.of_nat (length window_accesses) >=? self_rapid_access_threshold self
      then
        first ← py_index window_accesses 0;
        rate ← py_div (inject_Z (Z.of_nat (length window_accesses)))
                      (inject_Z (self_rapid_access_window self));
        event ← SecurityEvent_init [
          ("timestamp", VDatetime (l_timestamp start));
          ("event_type", VStr "rapid_access");
          ("severity", VStr "medium");
          ("source_ip", of_opt ip);
          ("user_agent", of_opt (l_user_agent first));
          ("resource", of_opt (l_object first));
          ("details", VDict [
             ("access_count", VInt (Z.of_nat (length window_accesses)));
             ("time_window", VInt (self_rapid_access_window self));
             ("requests_per_second", VFloat rate)])];
        Ok (events ++ [event])
      else scan_windows ip accesses rest events
  end.

Definition detect_rapid_access (logs : list LogEntry)
    : Res (list SecurityEvent) :=
  let ip_accesses :=
    fold_left (fun d log => setdefault_append (l_ip log) log d) logs [] in
  for_each_pure ip_accesses (fun events '(ip, accesses) =>
    let accesses := sort_by l_timestamp accesses in
    scan_windows ip accesses (py_range (Z.of_nat (length accesses))) events) [].

Definition detect_abnormal_hours_access (logs : list LogEntry)
    : Res (list SecurityEvent) :=
  let ip_abnormal_accesses :=
    fold_left (fun d log =>
      if (self_abnormal_hours_start self <=? hour (l_timestamp log))
         && (hour (l_timestamp log) <? self_abnormal_hours_end self)
      then setdefault_append (l_ip log) log d
      else d) logs [] in
  for_each_pure ip_abnormal_accesses (fun events '(ip, accesses) =>
    if Z.of_nat (length accesses) >=? 5 then
      last ← py_max (map l_timestamp accesses);
      first ← py_index accesses 0;
      event ← SecurityEvent_init [
        ("timestamp", VDatetime last);
        ("event_type", VStr "abnormal_hours_access");
        ("severity", VStr "medium");
        ("source_ip", of_opt ip);
        ("user_agent", of_opt (l_user_agent first));
        ("resource", of_opt (l_object first));
        ("details", VDict [
           ("access_count", VInt (Z.of_nat (length accesses)));
           ("time_range",
            VStr (pad2 (self_abnormal_hours_start self) +:+ ":00 - "
                  +:+ pad2 (self_abnormal_hours_end self) +:+ ":00"));
           ("unique_resources",
            VInt (Z.of_nat (length (distinct (map l_object accesses)))))])];
      Ok (events ++ [event])
    else Ok events) [].

Definition detect_geolocation_anomaly (logs : list LogEntry)
    : Res (list SecurityEvent) :=
  for_each_pure logs (fun events log =>
    let ip := l_ip log in
    if existsb (fun country => contains country (py_str (of_opt ip)))
               (self_suspicious_countries self)
    then
      event ← SecurityEvent_init [
        ("timestamp", VDatetime (l_timestamp log));
        ("event_type", VStr "geolocation_anomaly");
        ("severity", VStr "high");
        ("source_ip", of_opt ip);
        ("user_agent", of_opt (l_user_agent log));
        ("resource", of_opt (l_object log));
        ("details", VDict [
           ("reason", VStr "Access from suspicious country");
           ("ip_address", of_opt ip)])];
      Ok (events ++ [event])
    else Ok events) [].

Definition detect_user_agent_anomaly (logs : list LogEntry)
    : Res (list SecurityEvent) :=
  for_each_pure logs (fun events log =>
    user_agent ← match l_user_agent log with
                 | Some s => Ok (lower s)
                 | None => Raise AttributeError
                 end;
    if existsb (fun suspicious => contains suspicious user_agent)
               (self_suspicious_user_agents self)
    then
      event ← SecurityEvent_init [
        ("timestamp", VDatetime (l_timestamp log));
        ("event_type", VStr "user_agent_anomaly");
        ("severity", VStr "medium");
        ("source_ip", of_opt (l_ip log));
        ("user_agent", of_opt (l_user_agent log));
        ("resource", of_opt (l_object log));
        ("details", VDict [
           ("reason", VStr "Automated tool detected");
           ("user_agent", of_opt (l_user_agent log))])];
      Ok (events ++ [event])
    else Ok events) [].

(** [analyze_logs(hours)], with [logs] what [get_recent_access_logs(hours)]
    returned. *)
Definition analyze_logs (logs : list LogEntry)
    : Res (list (string * list SecurityEvent)) :=
  match logs with
  | [] => Ok []
  | _ =>
      bulk ← detect_bulk_downloads logs;
      rapid ← detect_rapid_access logs;
      abnormal ← detect_abnormal_hours_access logs;
      geo ← detect_geolocation_anomaly logs;
      agents ← detect_user_agent_anomaly logs;
      Ok [("bulk_download", bulk); ("rapid_access", rapid);
          ("abnormal_hours", abnormal); ("geolocation_anomaly", geo);
          ("user_agent_anomaly", agents)]
  end.

End detectors.

End LogAnalyzer.

(** ** [src/analysis/pattern_detector.py] *)

Module PatternDetector.

(** The entries these static methods read have the keys of
    [LogAnalyzer.LogEntry] (['ip'], ['object'], ['status'], ['method'],
    ['timestamp'], ['user_agent']); their timestamps are datetimes. *)
Definition LogEntry : Type := LogAnalyzer.LogEntry.
Import LogAnalyzer (l_timestamp, l_object, l_method, l_status, l_user_agent, l_ip).

(** What each group of [detect_data_exfiltration] accumulates. *)
Record Transfer : Type := {
  t_bytes : Z;
  t_files : Z;
  t_timestamps : list Z
}.

(** The intervals between neighbours of a sorted list of datetimes, in
    seconds. *)
Fixpoint intervals_from (previous : Z) (timestamps : list Z) : list Q :=
  match timestamps with
  | [] => []
  | t :: rest => total_seconds (t - previous) :: intervals_from t rest
  end.

Definition intervals_of (timestamps : list Z) : list Q :=
  match timestamps with
  | [] => []
  | t :: rest => intervals_from t rest
  end.

(** The static methods, with the module's name [SecurityEvent] bound to
    [new_event]. *)
Section detectors.
Context {E : Type}.
Variable new_event : Kwargs -> Res E.

(** The groups hold dictionaries with three fields of the entry; the entry
    stands for them. *)
Definition detect_credential_stuffing_with (logs : list LogEntry)
    : Res (list E) :=
  let ip_failed_auth :=
    fold_left (fun d log =>
      if bool_decide (l_status log = Some 401)
         || bool_decide (l_status log = Some 403)
      then setdefault_append (l_ip log) log d
      else d) logs [] in
  for_each_pure ip_failed_auth (fun events '(ip, failures) =>
    if Z.of_nat (length failures) >=? 5 then
      let failures := sort_by l_timestamp failures in
      first_failure ← py_index failures 0;
      last_failure ← py_index failures (-1);
      let first := l_timestamp first_failure in
      let last := l_timestamp last_failure in
      if Qle_bool (total_seconds (last - first)) (inject_Z 60) then
        attack_rate ← py_div (inject_Z (Z.of_nat (length failures)))
                             (py_max2 (double (total_seconds (last - first)))
                                      1);
        event ← new_event [
          ("timestamp", VDatetime last);
          ("event_type", VStr "credential_stuffing");
          ("severity", VStr "high");
          ("source_ip", of_opt ip);
          ("user_agent", of_opt (l_user_agent first_failure));
          ("resource", of_opt (l_object first_failure));
          ("details", VDict [
             ("failed_attempts", VInt (Z.of_nat (length failures)));
             ("time_span", VFloat (total_seconds (last - first)));
             ("attack_rate", VFloat attack_rate)])];
        Ok (events ++ [event])
      else Ok events
    else Ok events) [].

Definition detect_data_exfiltration_with (logs : list LogEntry) : Res (list E) :=
  let ip_data_transfer :=
    fold_left (fun d log =>
      if bool_decide (l_method log = Some "GET")
         && bool_decide (l_status log = Some 200)
      then
        let estimated_size := 1024 * 1024 in
        dict_update (l_ip log)
          {| t_bytes := 0; t_files := 0; t_timestamps := [] |}
          (fun data =>
             {| t_bytes := t_bytes data + estimated_size;
                t_files := t_files data + 1;
                t_timestamps := t_timestamps data ++ [l_timestamp log] |}) d
      else d) logs [] in
  let threshold_mb := 100 in
  for_each_pure ip_data_transfer (fun events '(ip, data) =>
    size_mb ← py_div (inject_Z (t_bytes data)) (inject_Z (1024 * 1024));
    if Qle_bool (inject_Z threshold_mb) size_mb then
      first ← py_min (t_timestamps data);
      last ← py_max (t_timestamps data);
      rate ← py_div size_mb
                    (py_max2 (double (total_seconds (last - first))) 1);
      event ← new_event [
        ("timestamp", VDatetime last);
        ("event_type", VStr "data_exfiltration");
        ("severity", VStr "critical");
        ("source_ip", of_opt ip);
        ("user_agent", VStr "");
        ("resource", VStr (pretty (t_files data) +:+ " files"));
        ("details", VDict [
           ("total_size_mb", VFloat (py_round2 size_mb));
           ("file_count", VInt (t_files data));
           ("duration_seconds", VFloat (total_seconds (last - first)));
           ("transfer_rate_mbps", VFloat (py_round2 rate))])];
      Ok (events ++ [event])
    else Ok events) [].

Definition detect_port_scanning_with (logs : list LogEntry) : Res (list E) :=
  let ip_resources :=
    fold_left (fun d log => setdefault_append (l_ip log) log d) logs [] in
  for_each_pure ip_resources (fun events '(ip, accesses) =>
    let accesses := sort_by l_timestamp accesses in
    let unique_resources := distinct (map l_object accesses) in
    if Z.of_nat (length unique_resources) >=? 20 then
      first_access ← py_index accesses 0;
      last_access ← py_index accesses (-1);
      let first := l_timestamp first_access in
      let last := l_timestamp last_access in
      if Qle_bool (total_seconds (last - first)) (inject_Z 120) then
        scan_rate ← py_div (inject_Z (Z.of_nat (length accesses)))
                           (py_max2 (double (total_seconds (last - first)))
                                    1);
        event ← new_event [
          ("timestamp", VDatetime last);
          ("event_type", VStr "port_scanning");
          ("severity", VStr "medium");
          ("source_ip", of_opt ip);
          ("user_agent", VStr "");
          ("resource",
           VStr (pretty (length unique_resources) +:+ " resources"));
          ("details", VDict [
             ("unique_resources", VInt (Z.of_nat (length unique_resources)));
             ("total_requests", VInt (Z.of_nat (length accesses)));
             ("time_span", VFloat (total_seconds (last - first)));
             ("scan_rate", VFloat scan_rate)])];
        Ok (events ++ [event])
      else Ok events
    else Ok events) [].

(** The intervals are floats, and so are their mean, the mean deviation
    and the ratio tested: every sum, difference and quotient is rounded
    ([double]), and the literal [0.1] is the float nearest to 1/10. *)
Definition detect_time_based_pattern_with (logs : list LogEntry) : Res (list E) :=
  let ip_intervals :=
    fold_left (fun d log =>
      setdefault_append (l_ip log) (l_timestamp log) d) logs [] in
  for_each_pure ip_intervals (fun events '(ip, timestamps) =>
    if Z.of_nat (length timestamps) <? 5 then Ok events
    else
      let timestamps := sort_by id timestamps in
      let intervals := map double (intervals_of timestamps) in
      match intervals with
      | [] => Ok events
      | _ =>
          avg_interval ←
            double <$> py_div (float_sum intervals)
                              (inject_Z (Z.of_nat (length intervals)));
          variance ←
            double <$>
              py_div (float_sum (map (fun i => Qabs (double (i - avg_interval)))
                                     intervals))
                     (inject_Z (Z.of_nat (length intervals)));
          ratio ← double <$> py_div variance avg_interval;
          if Qlt_bool ratio (double (1 # 10)) then
            last ← py_index timestamps (-1);
            event ← new_event [
              ("timestamp", VDatetime last);
              ("event_type", VStr "time_based_pattern");
              ("severity", VStr "medium");
              ("source_ip", of_opt ip);
              ("user_agent", VStr "");
              ("resource", VStr "");
              ("details", VDict [
                 ("average_interval_seconds",
                  VFloat (py_round2 avg_interval));
                 ("interval_variance", VFloat (py_round2 variance));
                 ("request_count", VInt (Z.of_nat (length timestamps)));
                 ("pattern_type", VStr "automated_scheduled")])];
            Ok (events ++ [event])
          else Ok events
      end) [].

Definition detect_impossible_travel_with (logs : list LogEntry) : Res (list E) :=
  Ok [].

End detectors.

(** [from .cloudwatch_analyzer import SecurityEvent]: the name the methods
    call is the dataclass of [cloudwatch_analyzer.py]. *)
Definition detect_credential_stuffing
    : list LogEntry -> Res (list SecurityEvent) :=
  detect_credential_stuffing_with SecurityEvent_init.

Definition detect_data_exfiltration
    : list LogEntry -> Res (list SecurityEvent) :=
  detect_data_exfiltration_with SecurityEvent_init.

Definition detect_port_scanning
    : list LogEntry -> Res (list SecurityEvent) :=
  detect_port_scanning_with SecurityEvent_init.

Definition detect_time_based_pattern
    : list LogEntry -> Res (list SecurityEvent) :=
  detect_time_based_pattern_with SecurityEvent_init.

Definition detect_impossible_travel
    : list LogEntry -> Res (list SecurityEvent) :=
  detect_impossible_travel_with (E := SecurityEvent).

End PatternDetector.

(** ** [src/alerts/email_alert.py] and [src/alerts/slack_alert.py] *)

(** [str.upper()], [str.replace('_', ' ')] and [str.title()] on ASCII. *)
Definition ascii_upper (c : ascii) : ascii :=
  let n := N_of_ascii c in
  if ((97 <=? n) && (n <=? 122))%N then ascii_of_N (n - 32) else c.

Definition is_letter (c : ascii) : bool :=
  let n := N_of_ascii c in
  (((65 <=? n) && (n <=? 90)) || ((97 <=? n) && (n <=? 122)))%N.

Fixpoint upper (s : string) : string :=
  match s with
  | EmptyString => EmptyString
  | String c r => String (ascii_upper c) (upper r)
  end.

Fixpoint underscores_to_spaces (s : string) : string :=
  match s with
  | EmptyString => EmptyString
  | String c r =>
      String (if Ascii.eqb c "_"%char then " "%char else c)
             (underscores_to_spaces r)
  end.

Fixpoint title_from (inside_word : bool) (s : string) : string :=
  match s with
  | EmptyString => EmptyString
  | String c r =>
      String (if inside_word then ascii_lower c else ascii_upper c)
             (title_from (is_letter c) r)
  end.

Definition title (s : string) : string := title_from false s.

(** A method of [str] called on a value: any other value has no such
    attribute. *)
Definition str_method (f : string -> string) (v : Value) : Res Value :=
  match v with
  | VStr s => Ok (VStr (f s))
  | _ => Raise AttributeError
  end.

(** [v.strftime(fmt)]. *)
Definition strftime_method {text : PyText} (fmt : string) (v : Value) : Res Value :=
  match v with
  | VDatetime t => Ok (VStr (strftime fmt t))
  | _ => Raise AttributeError
  end.

(** [v.items()], in key order. *)
Definition items_method (v : Value) : Res (list (string * Value)) :=
  match v with
  | VDict d => Ok d
  | _ => Raise AttributeError
  end.

(** [len(v)] of a text. *)
Definition py_len (v : Value) : Res Z :=
  match v with
  | VStr s => Ok (Z.of_nat (String.length s))
  | VList l => Ok (Z.of_nat (length l))
  | VDict d => Ok (Z.of_nat (length d))
  | _ => Raise TypeError
  end.

(** [event.event_type.replace('_', ' ').title()]. *)
Definition event_title {E : Type} {object : PyObject E} (event : E) : Res Value :=
  ty ← getattr event "event_type";
  spaced ← str_method underscores_to_spaces ty;
  str_method title spaced.

Module EmailAlertSystem.

Record Self : Type := {
  self_api_key : option string;
  self_from_email : string;
  self_to_email : option string;
  self_enabled : bool
}.

(** [__init__()] with no argument, given the environment variables
    [SENDGRID_API_KEY] and [ALERT_EMAIL]; an empty key counts as none. *)
Definition init (sendgrid_api_key alert_email : option string) : Self :=
  {| self_api_key := sendgrid_api_key;
     self_from_email := default "security@company.com" alert_email;
     self_to_email := alert_email;
     self_enabled :=
       match sendgrid_api_key with
       | Some key => negb (String.eqb key "")
       | None => false
       end |}.

Section methods.
Context {text : PyText} {hash : PyHash} {E : Type} {object : PyObject E}.
Variable self : Self.

(** The HTML of one event: the values the f-strings interpolate, in order
    (the markup between them is constant text).  The closing block is a
    plain string, not an f-string: its [{datetime.now()...}] is text, and
    the clock is not read. *)
Definition format_event_html (event : E) : M (list Value) :=
  sev ← lift (getattr event "severity");
  head ← lift (
    ttl ← event_title event;
    sev' ← getattr event "severity";
    ts ← getattr event "timestamp";
    ip ← getattr event "source_ip";
    ua ← getattr event "user_agent";
    res ← getattr event "resource";
    reg ← getattr event "region";
    Ok [sev; ttl; sev'; ts; ip; ua; res; reg]);
  det ← lift (d ← getattr event "details"; items_method d);
  mret (head ++ flat_map (fun kv => [VStr (title (underscores_to_spaces kv.1));
                                     kv.2]) det).

Definition send_alert (event : E) : M bool :=
  if negb (self_enabled self) then
    (* the message printed names [event.event_type] *)
    lift (getattr event "event_type");;
    mret false
  else
    try_except
      (subject ← lift (
         sev ← getattr event "severity";
         up ← str_method upper sev;
         ttl ← event_title event;
         Ok (" [" +:+ py_str up +:+ "] Security Alert: " +:+ py_str ttl));
       html ← format_event_html event;
       status ← deliver (Mail subject html) sendgrid_reply;
       if status =? 202 then
         (* the message printed names [event.source_ip] *)
         lift (getattr event "event_type");;
         lift (getattr event "source_ip");;
         mret true
       else mret false)
      (fun _ => mret false).

Definition send_batch_alert (events : list E) : M bool :=
  if negb (self_enabled self) || bool_decide (length events = 0%nat)
  then mret false
  else
    by_severity ← lift (for_each_pure events (fun d event =>
      sev ← getattr event "severity";
      Ok (dict_update (py_str sev) 0 Z.succ d)) []);
    let counts :=
      flat_map (fun severity =>
        match kwarg (map (fun kv => (kv.1, VInt kv.2)) by_severity) severity with
        | Some n => [VStr (upper severity); n]
        | None => []
        end) ["critical"; "high"; "medium"; "low"] in
    lines ← lift (for_each_pure (take 10 events) (fun acc event =>
      ttl ← event_title event;
      ip ← getattr event "source_ip";
      ts ← getattr event "timestamp";
      Ok (acc ++ [ttl; ip; ts])) []);
    let more :=
      if Z.of_nat (length events) >? 10
      then [VInt (Z.of_nat (length events) - 10)] else [] in
    now ← datetime_now;
    let summary_html :=
      [VInt (Z.of_nat (length events))] ++ counts ++ lines ++ more
      ++ [VStr (strftime "%Y-%m-%d %H:%M:%S UTC" now)] in
    try_except
      (status ← deliver
         (Mail (" Security Alert Summary: " +:+ pretty (length events)
                +:+ " Events Detected") summary_html) sendgrid_reply;
       mret (status =? 202))
      (fun _ => mret false).

End methods.

End EmailAlertSystem.

Module SlackAlertSystem.

Record Self : Type := {
  self_webhook_url : option string;
  self_enabled : bool
}.

(** [__init__()] with no argument, given the environment variable
    [SLACK_WEBHOOK_URL]; an empty URL counts as none. *)
Definition init (slack_webhook_url : option string) : Self :=
  {| self_webhook_url := slack_webhook_url;
     self_enabled :=
       match slack_webhook_url with
       | Some url => negb (String.eqb url "")
       | None => false
       end |}.

Section methods.
Context {text : PyText} {hash : PyHash} {E : Type} {object : PyObject E}.
Variable self : Self.

(** The payload of one event: the values it holds, in order. *)
Definition format_event_slack (event : E) : M (list Value) :=
  fields ← lift (
    sev ← getattr event "severity";
    sev' ← getattr event "severity";
    sev'' ← getattr event "severity";
    up ← str_method upper sev'';
    ttl ← event_title event;
    ip ← getattr event "source_ip";
    reg ← getattr event "region";
    ts ← getattr event "timestamp";
    when ← strftime_method "%Y-%m-%d %H:%M:%S UTC" ts;
    res ← getattr event "resource";
    ua ← getattr event "user_agent";
    n ← py_len ua;
    shown ← (if n >? 100
             then str_method (fun s => String.substring 0 100 s +:+ "...") ua
             else Ok ua);
    Ok [sev; sev'; up; ttl; ip; reg; when; res; shown]);
  det ← lift (d ← getattr event "details"; items_method d);
  ttl ← lift (event_title event);
  now ← datetime_now;
  mret (fields
        ++ flat_map (fun kv => [VStr (title (underscores_to_spaces kv.1));
                                VStr (py_str kv.2)]) det
        ++ [ttl; VInt (now / 1000000)]).

Definition send_alert (event : E) : M bool :=
  if negb (self_enabled self) then
    (* the message printed names [event.event_type] *)
    lift (getattr event "event_type");;
    mret false
  else
    try_except
      (payload ← format_event_slack event;
       status ← deliver (SlackPost payload) slack_reply;
       if status =? 200 then
         (* the message printed names [event.source_ip] *)
         lift (getattr event "event_type");;
         lift (getattr event "source_ip");;
         mret true
       else mret false)
      (fun _ => mret false).

Definition send_batch_alert (events : list E) : M bool :=
  if negb (self_enabled self) || bool_decide (length events = 0%nat)
  then mret false
  else
    severity_counts ← lift (for_each_pure events (fun d event =>
      sev ← getattr event "severity";
      sev' ← getattr event "severity";
      Ok (dict_update (py_str sev) 0 Z.succ d)) []);
    let counts :=
      flat_map (fun severity =>
        match kwarg (map (fun kv => (kv.1, VInt kv.2)) severity_counts)
                    severity with
        | Some n => [VStr (upper severity); n]
        | None => []
        end) ["critical"; "high"; "medium"; "low"] in
    attachments ← lift (for_each_pure (take 10 events) (fun acc event =>
      sev ← getattr event "severity";
      ttl ← event_title event;
      ip ← getattr event "source_ip";
      ts ← getattr event "timestamp";
      when ← strftime_method "%H:%M:%S" ts;
      Ok (acc ++ [sev; ttl; ip; when])) []);
    let more :=
      if Z.of_nat (length events) >? 10
      then [VInt (Z.of_nat (length events) - 10)] else [] in
    let payload :=
      [VInt (Z.of_nat (length events))] ++ counts ++ more ++ attachments in
    try_except
      (status ← deliver (SlackPost payload) slack_reply;
       mret (status =? 200))
      (fun _ => mret false).

End methods.

End SlackAlertSystem.

(** ** [src/main.py] *)

Module Main.

Section analyze_logs.
Context {text : PyText} {hash : PyHash}.

(** The block under [if send_alerts:] of [analyze_logs]: the two alert
    systems as constructed from the environment, and the events of the
    pass. *)
Definition dispatch {E : Type} {object : PyObject E}
    (email_system : EmailAlertSystem.Self)
    (slack_system : SlackAlertSystem.Self)
    (all_events : list E) : M unit :=
  immediate_alerts ← lift (for_each_pure all_events (fun acc e =>
    sev ← getattr e "severity";
    Ok (if py_in sev [VStr "critical"; VStr "high"] then acc ++ [e] else acc))
    []);
  for_each immediate_alerts (fun _ event =>
    EmailAlertSystem.send_alert email_system event;;
    SlackAlertSystem.send_alert slack_system event;;
    mret tt) tt;;
  if Z.of_nat (length all_events) >? 1 then
    EmailAlertSystem.send_batch_alert email_system all_events;;
    SlackAlertSystem.send_batch_alert slack_system all_events;;
    mret tt
  else mret tt.

(** [analyze_logs(hours, send_alerts)]: [analyzer] is the
    [CloudWatchAnalyzer] it constructs and [logs] what the analyzer's query
    returns; the counts per severity are only printed. *)
Definition analyze_logs (analyzer : CloudWatchAnalyzer.Self)
    (email_system : EmailAlertSystem.Self)
    (slack_system : SlackAlertSystem.Self)
    (logs : list CloudWatchAnalyzer.LogEntry) (send_alerts : bool) : M unit :=
  events ← CloudWatchAnalyzer.analyze_logs analyzer logs;
  let all_events := flat_map snd events in
  match all_events with
  | [] => mret tt
  | _ =>
      if send_alerts then dispatch email_system slack_system all_events
      else mret tt
  end.

End analyze_logs.

End Main.

(** ** Observations the statements below are phrased with *)

(** The events of a list that name the source IP [ip] ([None] is the IP
    of the entries that carry none). *)
Definition events_of (ip : option string) (events : list SecurityEvent)
    : list SecurityEvent :=
  List.filter (fun e => py_eq (ip_address e) (of_opt ip)) events.

(** An entry of the CloudWatch analyzer whose lower-cased user agent
    contains one of the strings of [suspicious_patterns]. *)
Definition suspicious_entry (log : CloudWatchAnalyzer.LogEntry) : bool :=
  match CloudWatchAnalyzer.l_user_agent log with
  | Some s =>
      existsb (fun pattern => contains pattern (lower s))
              CloudWatchAnalyzer.suspicious_patterns
  | None => false
  end.

(** The values a grouping loop appends under the key [k]: [f x] is the key
    and the value the iteration for [x] appends, if it appends. *)
Definition appended {K V X : Type} `{EqDecision K}
    (f : X -> option (K * V)) (k : K) (l : list X) : list V :=
  omap (fun x =>
    match f x with
    | Some (k', v) => if decide (k' = k) then Some v else None
    | None => None
    end) l.

(** The entries of a batch of the CloudWatch analyzer that come from [ip]
    and whose operation is a GET of an object (whatever their status). *)
Definition get_object_entries (ip : option string)
    (logs : list CloudWatchAnalyzer.LogEntry)
    : list CloudWatchAnalyzer.LogEntry :=
  List.filter (fun log =>
    bool_decide (CloudWatchAnalyzer.l_operation log = Some "REST.GET.OBJECT")
    && bool_decide (CloudWatchAnalyzer.l_remote_ip log = ip)) logs.

(** [s.add(v)] on a set kept as the list of its distinct elements. *)
Definition set_add {V : Type} `{EqDecision V} (v : V) (s : list V) : list V :=
  if decide (v ∈ s) then s else s ++ [v].

(** What the updates a loop makes under the key [k] do to the value there:
    [g x] is the key and the update of the iteration for [x], if any. *)
Definition updates_under {K V X : Type} `{EqDecision K}
    (g : X -> option (K * (V -> V))) (k : K) (v : V) (x : X) : V :=
  match g x with
  | Some (k', u) => if decide (k' = k) then u v else v
  | None => v
  end.

(** What the first loop of [CloudWatchAnalyzer.detect_bulk_downloads]
    appends for an entry. *)
Definition bulk_key (log : CloudWatchAnalyzer.LogEntry)
    : option (option string * CloudWatchAnalyzer.LogEntry) :=
  if bool_decide (CloudWatchAnalyzer.l_operation log = Some "REST.GET.OBJECT")
  then Some (CloudWatchAnalyzer.l_remote_ip log, log) else None.

(** The object names of the entries of a batch of the Lambda function that
    come from [ip]. *)
Definition object_names_of (ip : string)
    (logs : list LambdaFunction.LogEntry) : list string :=
  map LambdaFunction.l_object_name
      (List.filter (fun log => String.eqb (LambdaFunction.l_remote_ip log) ip)
                   logs).

(** What the first loop of [LambdaFunction.detect_bulk_downloads] does for
    an entry. *)
Definition lambda_bulk_key (log : LambdaFunction.LogEntry)
    : option (string * (list string -> list string)) :=
  Some (LambdaFunction.l_remote_ip log,
        set_add (LambdaFunction.l_object_name log)).

(** A successful GET of the CloudWatch analyzer's batch, in the words of the
    specification: the operation is a GET of an object and the status 200. *)
Definition successful_get (log : CloudWatchAnalyzer.LogEntry) : bool :=
  bool_decide (CloudWatchAnalyzer.l_operation log = Some "REST.GET.OBJECT")
  && bool_decide (CloudWatchAnalyzer.l_http_status log = Some "200").

(** ** Concrete inputs for the examples *)

(** Renderings to run examples with: a datetime prints as its number of
    microseconds. *)
Definition plain_text : PyText :=
  {| timestamp_str := fun t => pretty t;
     isoformat := fun t => pretty t;
     strftime := fun _ t => pretty t;
     json_dumps := fun _ => "{}";
     str_other := fun _ => "?" |}.

(** A process that lists a set in the order of insertion, and one that
    lists it in the opposite order. *)
Definition insertion_order : PyHash :=
  {| set_order := fun l => l;
     set_order_permutation := fun l => Permutation_refl l |}.


(** A world whose clock advances by one microsecond per reading, with an
    empty reachable table and transports that accept. *)
Definition fresh_world : World :=
  {| clock := fun k => Z.of_nat k;
     reads := 0;
     table := ∅;
     table_up := true;
     outbox := [];
     sendgrid_reply := Ok 202;
     slack_reply := Ok 200 |}.

(** An entry of the CloudWatch analyzer from 10.0.0.1 at second [s]. *)
Definition cw_entry (s : Z) (operation status agent : string)
    : CloudWatchAnalyzer.LogEntry :=
  {| CloudWatchAnalyzer.l_timestamp := Some (s * 1000000);
     CloudWatchAnalyzer.l_bucket_name := Some "honey-tokens";
     CloudWatchAnalyzer.l_object_name := Some "credentials.csv";
     CloudWatchAnalyzer.l_remote_ip := Some "10.0.0.1";
     CloudWatchAnalyzer.l_user_agent := Some agent;
     CloudWatchAnalyzer.l_operation := Some operation;
     CloudWatchAnalyzer.l_http_status := Some status;
     CloudWatchAnalyzer.l_region := "us-east-1" |}.

(** Nine successful GETs and one refused GET from one IP. *)
Definition nine_and_a_refusal : list CloudWatchAnalyzer.LogEntry :=
  map (fun k => cw_entry (Z.of_nat k) "REST.GET.OBJECT" "200" "Mozilla/5.0")
      (seq 0 9)
  ++ [cw_entry 9 "REST.GET.OBJECT" "403" "Mozilla/5.0"].

(** An entry of the Lambda function from 10.0.0.1. *)
Definition lambda_entry (t : option Z) (object status agent : string)
    : LambdaFunction.LogEntry :=
  {| LambdaFunction.l_timestamp := t;
     LambdaFunction.l_remote_ip := "10.0.0.1";
     LambdaFunction.l_object_name := object;
     LambdaFunction.l_user_agent := agent;
     LambdaFunction.l_http_status := status;
     LambdaFunction.l_operation := "REST.GET.OBJECT" |}.

(** Five entries for five different objects. *)
Definition five_objects : list LambdaFunction.LogEntry :=
  map (fun name => lambda_entry None name "200" "Mozilla/5.0")
      ["a"; "b"; "c"; "d"; "e"].

(** An entry in the schema [PatternDetector] reads, from 10.0.0.1 at
    microsecond [t]. *)
Definition gcp_entry (t : Z) (object : string) (status : Z)
    : LogAnalyzer.LogEntry :=
  {| LogAnalyzer.l_timestamp := t;
     LogAnalyzer.l_bucket := Some "honey-tokens";
     LogAnalyzer.l_object := Some object;
     LogAnalyzer.l_method := Some "GET";
     LogAnalyzer.l_status := Some status;
     LogAnalyzer.l_user_agent := Some "Mozilla/5.0";
     LogAnalyzer.l_ip := Some "10.0.0.1";
     LogAnalyzer.l_url := None;
     LogAnalyzer.l_region := Some "us-east-1" |}.

(** An event as [CloudWatchAnalyzer] emits them, of a given severity. *)
Definition cw_event (sev : string) (t : Z) : SecurityEvent :=
  {| event_type := VStr "suspicious_user_agent";
     severity := VStr sev;
     timestamp := VDatetime t;
     ip_address := VStr "10.0.0.1";
     resource := VStr "credentials.csv";
     details := VDict [("user_agent", VStr "curl/7.68");
                       ("reason", VStr "Automated tool detected")];
     region := VStr "us-east-1" |}.

(** The same event as an instance of [LogAnalyzer.SecurityEvent]. *)
Definition gcp_event (sev : string) (t : Z) : LogAnalyzer.SecurityEvent :=
  {| LogAnalyzer.timestamp := VDatetime t;
     LogAnalyzer.event_type := VStr "user_agent_anomaly";
     LogAnalyzer.severity := VStr sev;
     LogAnalyzer.source_ip := VStr "10.0.0.1";
     LogAnalyzer.user_agent := VStr "curl/7.68";
     LogAnalyzer.resource := VStr "credentials.csv";
     LogAnalyzer.details := VDict [("reason", VStr "Automated tool detected")];
     LogAnalyzer.region := VStr "us-east-1" |}.

(** Both alert systems configured. *)
Definition email_on : EmailAlertSystem.Self :=
  EmailAlertSystem.init (Some "SG.key") (Some "soc@example.org").

Definition slack_on : SlackAlertSystem.Self :=
  SlackAlertSystem.init (Some "https://hooks.slack.example/T0").

(** A world whose clock stands still (two readings within the clock's
    resolution). *)
Definition frozen_world : World :=
  {| clock := fun _ => 7;
     reads := 0;
     table := ∅;
     table_up := true;
     outbox := [];
     sendgrid_reply := Ok 202;
     slack_reply := Ok 200 |}.










(** The scenario of the specification: twelve GETs of one object from
    10.0.0.1 within twelve seconds at noon, user agent curl/7.68. *)
Definition twelve_gets : list CloudWatchAnalyzer.LogEntry :=
  map (fun k => cw_entry (43200 + Z.of_nat k) "REST.GET.OBJECT" "200"
                         "curl/7.68") (seq 0 12).

(** The windows of [k + 1] consecutive elements of a list of times, each
    given by its first and its last element, in order. *)
Definition windows (k : nat) (times : list Z) : list (Z * Z) :=
  zip times (drop k times).

(** A window that spans at most [win] seconds. *)
Definition within (win : Z) (ab : Z * Z) : bool :=
  ab.2 - ab.1 <=? win * 1000000.

(** The first window of [thr] consecutive times that spans at most [win]
    seconds. *)
Definition first_window (thr win : Z) (times : list Z) : option (Z * Z) :=
  List.find (within win) (windows (Z.to_nat (thr - 1)) times).

(** The time-sorted accesses of [ip] in a batch of the CloudWatch analyzer:
    the timestamps that parse, of the entries from [ip]. *)
Definition access_times (ip : option string)
    (logs : list CloudWatchAnalyzer.LogEntry) : list Z :=
  sort_by id
    (omap CloudWatchAnalyzer.l_timestamp
       (List.filter
          (fun log => bool_decide (CloudWatchAnalyzer.l_remote_ip log = ip))
          logs)).

(** What the first loop of [CloudWatchAnalyzer.detect_rapid_access] appends
    for an entry. *)
Definition rapid_key (log : CloudWatchAnalyzer.LogEntry)
    : option (option string * Z) :=
  match CloudWatchAnalyzer.l_timestamp log with
  | Some t => Some (CloudWatchAnalyzer.l_remote_ip log, t)
  | None => None
  end.

(** The world after one reading of the clock. *)
Definition ticked (w : World) : World := (datetime_now w).2.

(** The time from the earliest to the latest of a list of datetimes, in
    microseconds. *)
Definition span (ts : list Z) : Z :=
  default 0 (last (sort_by id ts)) - default 0 (head (sort_by id ts)).

(** A failed authentication: status 401 or 403. *)
Definition failed_auth (log : LogAnalyzer.LogEntry) : bool :=
  bool_decide (LogAnalyzer.l_status log = Some 401)
  || bool_decide (LogAnalyzer.l_status log = Some 403).

(** The failed authentications of [ip] in a batch. *)
Definition failures_of (ip : option string)
    (logs : list LogAnalyzer.LogEntry) : list LogAnalyzer.LogEntry :=
  List.filter (fun log => failed_auth log
                          && bool_decide (LogAnalyzer.l_ip log = ip)) logs.

(** All entries of [ip] in a batch. *)
Definition accesses_of (ip : option string)
    (logs : list LogAnalyzer.LogEntry) : list LogAnalyzer.LogEntry :=
  List.filter (fun log => bool_decide (LogAnalyzer.l_ip log = ip)) logs.

(** The one test [detect_credential_stuffing] makes for [ip]: at least five
    failed authentications, the first and the last of them at most 60
    seconds apart. *)
Definition credential_stuffing_fires (ip : option string)
    (logs : list LogAnalyzer.LogEntry) : bool :=
  (5 <=? Z.of_nat (length (failures_of ip logs)))
  && (span (map LogAnalyzer.l_timestamp (failures_of ip logs))
      <=? 60 * 1000000).

(** The one test [detect_port_scanning] makes for [ip]: at least twenty
    distinct objects, the first and the last access at most 120 seconds
    apart. *)
Definition port_scanning_fires (ip : option string)
    (logs : list LogAnalyzer.LogEntry) : bool :=
  (20 <=? Z.of_nat (size (list_to_set
                            (map LogAnalyzer.l_object (accesses_of ip logs))
                          : gset (option string))))
  && (span (map LogAnalyzer.l_timestamp (accesses_of ip logs))
      <=? 120 * 1000000).

(** What the first loops of these two detectors append for an entry. *)
Definition credential_stuffing_key (log : LogAnalyzer.LogEntry)
    : option (option string * LogAnalyzer.LogEntry) :=
  if failed_auth log then Some (LogAnalyzer.l_ip log, log) else None.

Definition port_scanning_key (log : LogAnalyzer.LogEntry)
    : option (option string * LogAnalyzer.LogEntry) :=
  Some (LogAnalyzer.l_ip log, log).

(** The events of a list whose constructor was given the source IP [ip],
    for events of any class, read through [ip_of]. *)
Definition events_from {E : Type} (ip_of : E -> Value) (ip : option string)
    (events : list E) : list E :=
  List.filter (fun e => py_eq (ip_of e) (of_opt ip)) events.

(** Five failed authentications from 10.0.0.1 within four seconds. *)
Definition five_failures : list LogAnalyzer.LogEntry :=
  map (fun k => gcp_entry (Z.of_nat k * 1000000) "credentials.csv" 401)
      (seq 0 5).


(** A successful GET, as [detect_data_exfiltration] tests it. *)
Definition successful_download (log : LogAnalyzer.LogEntry) : bool :=
  bool_decide (LogAnalyzer.l_method log = Some "GET")
  && bool_decide (LogAnalyzer.l_status log = Some 200).

(** The successful GETs of [ip] in a batch. *)
Definition downloads_of (ip : option string)
    (logs : list LogAnalyzer.LogEntry) : list LogAnalyzer.LogEntry :=
  List.filter (fun log => successful_download log
                          && bool_decide (LogAnalyzer.l_ip log = ip)) logs.

(** The bytes [detect_data_exfiltration] estimates for [ip]: one mebibyte
    for each successful GET. *)
Definition estimated_bytes (ip : option string)
    (logs : list LogAnalyzer.LogEntry) : Z :=
  1024 * 1024 * Z.of_nat (length (downloads_of ip logs)).

(** The test [detect_data_exfiltration] makes for [ip]: at least 100
    mebibytes estimated. *)
Definition data_exfiltration_fires (ip : option string)
    (logs : list LogAnalyzer.LogEntry) : bool :=
  100 * (1024 * 1024) <=? estimated_bytes ip logs.

(** What the first loop of [detect_data_exfiltration] does for an entry. *)
Definition data_exfiltration_key (log : LogAnalyzer.LogEntry)
    : option (option string
              * (PatternDetector.Transfer -> PatternDetector.Transfer)) :=
  if successful_download log then
    Some (LogAnalyzer.l_ip log,
          fun data =>
            {| PatternDetector.t_bytes :=
                 PatternDetector.t_bytes data + 1024 * 1024;
               PatternDetector.t_files := PatternDetector.t_files data + 1;
               PatternDetector.t_timestamps :=
                 PatternDetector.t_timestamps data
                 ++ [LogAnalyzer.l_timestamp log] |})
  else None.

(** The keywords with which the methods of [PatternDetector] call
    [SecurityEvent], in order. *)
Definition event_keywords : list string :=
  ["timestamp"; "event_type"; "severity"; "source_ip"; "user_agent";
   "resource"; "details"].

(** A computation that leaves a component of the world as it was, whatever
    it returns or raises. *)
Definition keeps {A X : Type} (component : World -> X) (m : M A) : Prop :=
  forall w, component (m w).2 = component w.

(** What a loop that groups the entries passing [p] under [key] appends for
    an entry. *)
Definition keyed {K X : Type} (p : X -> bool) (key : X -> K) (x : X)
    : option (K * X) :=
  if p x then Some (key x, x) else None.

(** The entries of a batch of the Lambda function that come from [ip] and
    pass [p]. *)
Definition lambda_entries (p : LambdaFunction.LogEntry -> bool) (ip : string)
    (logs : list LambdaFunction.LogEntry) : list LambdaFunction.LogEntry :=
  List.filter
    (fun log => p log && bool_decide (LambdaFunction.l_remote_ip log = ip))
    logs.

(** An entry of the Lambda function with one of the statuses 403, 404,
    401. *)
Definition failed_status (log : LambdaFunction.LogEntry) : bool :=
  existsb (String.eqb (LambdaFunction.l_http_status log)) ["403"; "404"; "401"].

(** An entry of the Lambda function whose lower-cased user agent contains
    one of its seven patterns. *)
Definition suspicious_agent (log : LambdaFunction.LogEntry) : bool :=
  existsb (fun pattern =>
             contains pattern (lower (LambdaFunction.l_user_agent log)))
          LambdaFunction.suspicious_patterns.

(** An entry of the Lambda function whose timestamp parses and falls in the
    hours 0 to 5. *)
Definition off_hours (log : LambdaFunction.LogEntry) : bool :=
  match LambdaFunction.l_timestamp log with
  | Some t => (0 <=? hour t) && (hour t <? 6)
  | None => false
  end.

(** What the first loop of [LambdaFunction.detect_rapid_access] appends for
    an entry. *)
Definition lambda_rapid_key (log : LambdaFunction.LogEntry)
    : option (string * Z) :=
  match LambdaFunction.l_timestamp log with
  | Some t => Some (LambdaFunction.l_remote_ip log, t)
  | None => None
  end.

(** The time-sorted accesses of [ip] in a batch of the Lambda function: the
    timestamps that parse, of the entries from [ip]. *)
Definition lambda_access_times (ip : string)
    (logs : list LambdaFunction.LogEntry) : list Z :=
  sort_by id
    (omap LambdaFunction.l_timestamp
       (List.filter
          (fun log => bool_decide (LambdaFunction.l_remote_ip log = ip))
          logs)).

(** An entry of the CloudWatch analyzer whose timestamp parses and falls in
    the hours 0 to 5, with that timestamp. *)
Definition after_hours (log : CloudWatchAnalyzer.LogEntry) : option Z :=
  match CloudWatchAnalyzer.l_timestamp log with
  | Some t => if (0 <=? hour t) && (hour t <? 6) then Some t else None
  | None => None
  end.

(** A computation that keeps an invariant of the world, whatever it returns
    or raises. *)
Definition preserves {A : Type} (I : World -> Prop) (m : M A) : Prop :=
  forall w, I w -> I (m w).2.

(** An invariant that reading the clock keeps, as those of the table, of
    its reachability and of what was sent do. *)
Definition clock_free (I : World -> Prop) : Prop := preserves I datetime_now.

(** ** [lambda_function.py]: the handler *)

(** What [lambda_handler] returns: status code 200 with, in its body, the
    number of events detected and the time, or status code 500 with the
    exception and the time. *)
Inductive HandlerResult : Type :=
| Completed (events_detected : Z) (timestamp : Z)
| Failed (error : PyExn) (timestamp : Z).

Definition statusCode (r : HandlerResult) : Z :=
  match r with
  | Completed _ _ => 200
  | Failed _ _ => 500
  end.

(** [lambda_handler(event, context)] for an [event] that [json.dumps]
    serialises, with [analyzer] the [CloudWatchAnalyzer] it constructs and
    [logs] what the analyzer's query returns.  The first [print] reads the
    clock, outside the [try]. *)
Definition lambda_handler {text : PyText} {hash : PyHash} (analyzer : LambdaFunction.Self)
    (logs : list LambdaFunction.LogEntry) : M HandlerResult :=
  datetime_now;;
  try_except
    (events ← LambdaFunction.analyze_logs analyzer logs;
     let total_events :=
       fold_left (fun acc kv => acc + Z.of_nat (length kv.2)) events 0 in
     now ← datetime_now;
     mret (Completed total_events now))
    (fun e => now ← datetime_now; mret (Failed e now)).

(** The world apart from its clock: the table, whether it can be reached,
    and what was handed to the transports. *)
Definition beyond_clock (w : World)
    : gmap string Item * bool * list Delivery :=
  (table w, table_up w, outbox w).

(** An expression that returns (raises nothing). *)
Definition returns {A : Type} (r : Res A) : Prop := exists a, r = Ok a.

(** What the e-mail summary reads of each of the events it details. *)
Definition summary_line_email {E : Type} {object : PyObject E} (event : E)
    : Res (list Value) :=
  ttl ← event_title event;
  ip ← getattr event "source_ip";
  ts ← getattr event "timestamp";
  Ok [ttl; ip; ts].

(** What the Slack summary reads of each of the events it details. *)
Definition summary_line_slack {text : PyText} {E : Type}
    {object : PyObject E} (event : E) : Res (list Value) :=
  sev ← getattr event "severity";
  ttl ← event_title event;
  ip ← getattr event "source_ip";
  ts ← getattr event "timestamp";
  when ← strftime_method "%H:%M:%S" ts;
  Ok [sev; ttl; ip; when].

(** A transport that answered with the status [code] (a transport that
    raised answered nothing). *)
Definition answered (code : Z) (reply : Res Z) : bool :=
  match reply with
  | Ok status => status =? code
  | Raise _ => false
  end.

(** The identity under which [store_event_in_dynamodb] of the CloudWatch
    analyzer writes an event, if it can build the item. *)
Definition cloudwatch_identity {text : PyText} (event : SecurityEvent)
    : option string :=
  match CloudWatchAnalyzer.make_item event with
  | Ok item => Some (item_event_id item)
  | Raise _ => None
  end.

(** A character of the text of an IPv4 or IPv6 address: a digit, a dot, a
    colon or a hexadecimal letter. *)
Definition address_char (c : ascii) : bool :=
  let n := N_of_ascii c in
  (((48 <=? n) && (n <=? 57)) || (n =? 46) || (n =? 58)
   || ((97 <=? n) && (n <=? 102)) || ((65 <=? n) && (n <=? 70)))%N.

Fixpoint is_address (s : string) : bool :=
  match s with
  | EmptyString => true
  | String c r => address_char c && is_address r
  end.

(** The characters of a text. *)
Fixpoint chars (s : string) : list ascii :=
  match s with
  | EmptyString => []
  | String c r => c :: chars r
  end.

(** A world whose table cannot be reached. *)
Definition unreachable_world : World :=
  {| clock := fun k => Z.of_nat k;
     reads := 0;
     table := ∅;
     table_up := false;
     outbox := [];
     sendgrid_reply := Ok 202;
     slack_reply := Ok 200 |}.

(** An entry of the CloudWatch analyzer whose row had no user agent. *)
Definition cw_entry_without_agent : CloudWatchAnalyzer.LogEntry :=
  {| CloudWatchAnalyzer.l_timestamp := Some 0;
     CloudWatchAnalyzer.l_bucket_name := Some "honey-tokens";
     CloudWatchAnalyzer.l_object_name := Some "credentials.csv";
     CloudWatchAnalyzer.l_remote_ip := Some "10.0.0.1";
     CloudWatchAnalyzer.l_user_agent := None;
     CloudWatchAnalyzer.l_operation := Some "REST.GET.OBJECT";
     CloudWatchAnalyzer.l_http_status := Some "200";
     CloudWatchAnalyzer.l_region := "us-east-1" |}.

(** A successful GET in the schema of [LogAnalyzer], from [ip] with the
    user agent [agent]. *)
Definition gcp_entry_from (ip agent : string) : LogAnalyzer.LogEntry :=
  {| LogAnalyzer.l_timestamp := 0;
     LogAnalyzer.l_bucket := Some "honey-tokens";
     LogAnalyzer.l_object := Some "credentials.csv";
     LogAnalyzer.l_method := Some "GET";
     LogAnalyzer.l_status := Some 200;
     LogAnalyzer.l_user_agent := Some agent;
     LogAnalyzer.l_ip := Some ip;
     LogAnalyzer.l_url := None;
     LogAnalyzer.l_region := Some "us-east-1" |}.

(** [LogAnalyzer] with [BULK_DOWNLOAD_THRESHOLD=2]. *)
Definition two_downloads_suffice : LogAnalyzer.Self :=
  {| LogAnalyzer.self_bulk_download_threshold := 2;
     LogAnalyzer.self_rapid_access_threshold := 10;
     LogAnalyzer.self_rapid_access_window := 300;
     LogAnalyzer.self_abnormal_hours_start := 0;
     LogAnalyzer.self_abnormal_hours_end := 6;
     LogAnalyzer.self_suspicious_countries := ["RU"; "CN"; "KP"; "IR"; "SY"];
     LogAnalyzer.self_suspicious_user_agents :=
       ["curl"; "wget"; "python-requests"; "scrapy"; "bot"] |}.

(** The times of the accesses of [ip] in a batch of [LogAnalyzer], in time
    order. *)
Definition gcp_access_times (ip : option string)
    (logs : list LogAnalyzer.LogEntry) : list Z :=
  map LogAnalyzer.l_timestamp
      (sort_by LogAnalyzer.l_timestamp (accesses_of ip logs)).

(** An entry of [LogAnalyzer] whose hour lies in the configured abnormal
    hours. *)
Definition in_abnormal_hours (self : LogAnalyzer.Self)
    (log : LogAnalyzer.LogEntry) : bool :=
  (LogAnalyzer.self_abnormal_hours_start self
   <=? hour (LogAnalyzer.l_timestamp log))
  && (hour (LogAnalyzer.l_timestamp log)
      <? LogAnalyzer.self_abnormal_hours_end self).

(** What the first loop of [LogAnalyzer.detect_abnormal_hours_access]
    appends for an entry. *)
Definition abnormal_hours_key (self : LogAnalyzer.Self)
    (log : LogAnalyzer.LogEntry)
    : option (option string * LogAnalyzer.LogEntry) :=
  if in_abnormal_hours self log then Some (LogAnalyzer.l_ip log, log)
  else None.

(** The entries of [ip] in the abnormal hours, in batch order. *)
Definition abnormal_accesses (self : LogAnalyzer.Self) (ip : option string)
    (logs : list LogAnalyzer.LogEntry) : list LogAnalyzer.LogEntry :=
  List.filter (fun log => in_abnormal_hours self log
                          && bool_decide (LogAnalyzer.l_ip log = ip)) logs.

(** * Properties *)

(** ** The runtime fragment *)

Lemma py_eq_of_opt (a b : option string) :
  py_eq (of_opt a) (of_opt b) = bool_decide (a = b).
Proof.
  destruct a as [a|], b as [b|]; cbn [py_eq of_opt]; case_bool_decide;
    try done.
  - destruct (String.eqb_spec a b); congruence.
  - destruct (String.eqb_spec a b); congruence.
Qed.

(** A loop whose every iteration returns, and keeps an invariant over the
    items visited so far, returns and establishes it for all items. *)
Lemma for_each_invariant {A S : Type} (I : list A -> S -> World -> Prop)
    (body : S -> A -> M S) (pre xs : list A) (s : S) (w : World) :
  I pre s w ->
  (forall done x s w, x ∈ xs -> I done s w ->
     exists s' w', body s x w = (Ok s', w') /\ I (done ++ [x]) s' w') ->
  exists s' w', for_each xs body s w = (Ok s', w') /\ I (pre ++ xs) s' w'.
Proof.
  revert pre s w.
  induction xs as [|x xs IH]; intros pre s w Hinit Hstep; simpl.
  - exists s, w. by rewrite app_nil_r.
  - destruct (Hstep pre x s w) as (s1 & w1 & Hbody & Hinv);
      [by left | done |].
    unfold mbind, M_bind. rewrite Hbody.
    destruct (IH (pre ++ [x]) s1 w1 Hinv) as (s2 & w2 & Hrest & Hfin).
    { intros done y s' w' Hy. apply Hstep. by right. }
    exists s2, w2. split; [done |]. by rewrite <- app_assoc in Hfin.
Qed.

Lemma for_each_pure_invariant {A S : Type} (I : list A -> S -> Prop)
    (body : S -> A -> Res S) (pre xs : list A) (s : S) :
  I pre s ->
  (forall done x s, x ∈ xs -> I done s ->
     exists s', body s x = Ok s' /\ I (done ++ [x]) s') ->
  exists s', for_each_pure xs body s = Ok s' /\ I (pre ++ xs) s'.
Proof.
  revert pre s.
  induction xs as [|x xs IH]; intros pre s Hinit Hstep; simpl.
  - exists s. by rewrite app_nil_r.
  - destruct (Hstep pre x s) as (s1 & Hbody & Hinv); [by left | done |].
    unfold mbind, Res_bind. rewrite Hbody.
    destruct (IH (pre ++ [x]) s1 Hinv) as (s2 & Hrest & Hfin).
    { intros done y s' Hy. apply Hstep. by right. }
    exists s2. split; [done |]. by rewrite <- app_assoc in Hfin.
Qed.

(** ** Lists *)

Lemma filter_length_app {A : Type} (p : A -> bool) (l1 l2 : list A) :
  length (List.filter p (l1 ++ l2))
  = (length (List.filter p l1) + length (List.filter p l2))%nat.
Proof. by rewrite List.filter_app, length_app. Qed.

Lemma filter_filter_length {A : Type} (p q : A -> bool) (l : list A) :
  length (List.filter p (List.filter q l))
  = length (List.filter (fun a => p a && q a) l).
Proof.
  induction l as [|a l IH]; [done |]. simpl.
  destruct (q a); simpl.
  - rewrite andb_true_r. destruct (p a); simpl; by rewrite IH.
  - by rewrite andb_false_r.
Qed.

(** ** Grouping with [defaultdict(list)] *)

Section grouping.
Context {K V X : Type} `{EqDecision K}.

Lemma dict_get_setdefault_append (k k' : K) (v : V) (d : list (K * list V)) :
  dict_get k [] (setdefault_append k' v d)
  = if decide (k' = k) then dict_get k [] d ++ [v] else dict_get k [] d.
Proof.
  induction d as [|[k0 vs] d IH]; simpl.
  - destruct (decide (k = k')), (decide (k' = k)); congruence.
  - destruct (decide (k' = k0)) as [->|Hne]; simpl.
    + destruct (decide (k = k0)) as [->|Hne'].
      * by rewrite decide_True.
      * by rewrite decide_False.
    + destruct (decide (k = k0)) as [->|Hne'].
      * by rewrite decide_False.
      * apply IH.
Qed.

Lemma keys_setdefault_append (k : K) (v : V) (d : list (K * list V)) :
  (setdefault_append k v d).*1 = if decide (k ∈ d.*1) then d.*1 else d.*1 ++ [k].
Proof.
  induction d as [|[k0 vs] d IH].
  - cbn [setdefault_append]. case_decide as Hin; [| done].
    by apply elem_of_nil in Hin.
  - cbn [setdefault_append]. destruct (decide (k = k0)) as [->|Hne].
    + rewrite decide_True; [done |]. rewrite fmap_cons. by left.
    + rewrite !fmap_cons, IH. cbn [fst].
      destruct (decide (k ∈ d.*1)) as [Hin|Hnin].
      * rewrite decide_True; [done |]. by right.
      * rewrite decide_False; [done |].
        intros [?|?]%elem_of_cons; done.
Qed.

Lemma nonempty_setdefault_append (k : K) (v : V) (d : list (K * list V)) :
  Forall (fun kv => kv.2 <> []) d ->
  Forall (fun kv => kv.2 <> []) (setdefault_append k v d).
Proof.
  induction 1 as [|[k0 vs] d Hne Hd IH]; simpl.
  - by repeat constructor.
  - destruct (decide (k = k0)); constructor; auto.
    simpl. by destruct vs.
Qed.

Variable f : X -> option (K * V).
Variable step : list (K * list V) -> X -> list (K * list V).
Hypothesis step_spec : forall d x,
  step d x = match f x with
             | Some (k, v) => setdefault_append k v d
             | None => d
             end.

Lemma grouped_values (l : list X) (d0 : list (K * list V)) (k : K) :
  dict_get k [] (fold_left step l d0) = dict_get k [] d0 ++ appended f k l.
Proof.
  revert d0. induction l as [|x l IH]; intros d0; simpl.
  - by rewrite app_nil_r.
  - rewrite IH, step_spec. unfold appended at 2. simpl.
    destruct (f x) as [[k' v]|]; [| done].
    rewrite dict_get_setdefault_append.
    destruct (decide (k' = k)); simpl; [by rewrite <- app_assoc | done].
Qed.

Lemma grouped_keys_NoDup (l : list X) (d0 : list (K * list V)) :
  NoDup d0.*1 -> NoDup (fold_left step l d0).*1.
Proof.
  revert d0. induction l as [|x l IH]; intros d0 Hd0; simpl; [done |].
  apply IH. rewrite step_spec. destruct (f x) as [[k v]|]; [| done].
  rewrite keys_setdefault_append. destruct (decide (k ∈ d0.*1)); [done |].
  apply NoDup_app. split_and!; [done | | apply NoDup_singleton].
  intros y Hy ->%list_elem_of_singleton. done.
Qed.

Lemma grouped_nonempty (l : list X) (d0 : list (K * list V)) :
  Forall (fun kv => kv.2 <> []) d0 ->
  Forall (fun kv => kv.2 <> []) (fold_left step l d0).
Proof.
  revert d0. induction l as [|x l IH]; intros d0 Hd0; simpl; [done |].
  apply IH. rewrite step_spec. destruct (f x) as [[k v]|]; [| done].
  by apply nonempty_setdefault_append.
Qed.

End grouping.

(** In a dictionary, an item is what its key reads. *)
Lemma dict_get_item {K V : Type} `{EqDecision K} (d : list (K * V))
    (k : K) (v dflt : V) :
  NoDup d.*1 -> (k, v) ∈ d -> dict_get k dflt d = v.
Proof.
  induction d as [|[k0 v0] d IH]; simpl; intros Hnd Hin.
  - by apply elem_of_nil in Hin.
  - apply NoDup_cons in Hnd as [Hk0 Hnd].
    apply elem_of_cons in Hin as [[= -> ->]|Hin].
    + by rewrite decide_True.
    + rewrite decide_False; [by apply IH |].
      intros ->. apply Hk0. apply list_elem_of_fmap. by exists (k0, v).
Qed.

(** Among the items of a dictionary, those under one key that satisfy a
    test are one or none. *)
Lemma dict_count_key {K V : Type} `{EqDecision K} (d : list (K * V))
    (k : K) (q : V -> bool) (dflt : V) :
  NoDup d.*1 ->
  length (List.filter (fun kv => bool_decide (kv.1 = k) && q kv.2) d)
  = if bool_decide (k ∈ d.*1) && q (dict_get k dflt d) then 1%nat else 0%nat.
Proof.
  induction d as [|[k0 v0] d IH]; intros Hnd; [done |].
  rewrite fmap_cons in Hnd. apply NoDup_cons in Hnd as [Hk0 Hnd].
  rewrite fmap_cons. cbn [List.filter dict_get fst snd].
  destruct (decide (k = k0)) as [->|Hne].
  - rewrite (bool_decide_eq_true_2 (k0 = k0)) by done.
    rewrite (bool_decide_eq_true_2 (k0 ∈ k0 :: d.*1)) by left.
    assert (List.filter (fun kv => bool_decide (kv.1 = k0) && q kv.2) d = [])
      as Hnone.
    { clear IH Hnd. induction d as [|[k1 v1] d IH]; [done |].
      rewrite fmap_cons in Hk0. cbn [List.filter fst snd].
      rewrite bool_decide_eq_false_2.
      - apply IH. intros Hin. apply Hk0. by right.
      - intros ->. apply Hk0. by left. }
    destruct (q v0); cbn [andb length]; by rewrite Hnone.
  - rewrite (bool_decide_eq_false_2 (k0 = k)) by congruence. cbn [andb].
    rewrite IH by done. cbn [fst].
    rewrite (bool_decide_ext (k ∈ k0 :: d.*1) (k ∈ d.*1)); [done |].
    rewrite elem_of_cons. naive_solver.
Qed.

(** ** The CloudWatch analyzer: suspicious user agents *)

Section geo.
Context {text : PyText} {hash : PyHash}.
Import CloudWatchAnalyzer.


(** An entry whose user agent is [None] stops the loop: [None.lower()]
    raises. *)
Lemma geolocation_raises (self : Self) (logs : list LogEntry)
    (events : list SecurityEvent) (w : World) :
  Exists (fun log => l_user_agent log = None) logs ->
  exists w',
    for_each logs (fun events log =>
      user_agent ← lift (match l_user_agent log with
                         | Some s => Ok (lower s)
                         | None => Raise AttributeError
                         end);
      if existsb (fun pattern => contains pattern user_agent)
                 suspicious_patterns
      then
        now ← datetime_now;
        mret (events ++ [suspicious_user_agent_event self log now])
      else mret events) events w
    = (Raise AttributeError, w').
Proof.
  intros Hex. revert events w.
  induction logs as [|log logs IH]; intros events w;
    [by apply Exists_nil in Hex |].
  cbn [for_each]. unfold mbind at 1. unfold M_bind at 1.
  unfold mbind at 1. unfold M_bind at 1. unfold lift at 1.
  destruct (l_user_agent log) as [agent|] eqn:Hagent; [| by eexists].
  apply Exists_cons in Hex as [Hex|Hex]; [congruence |].
  destruct (existsb _ _).
  - unfold mbind at 1. unfold M_bind at 1.
    change (datetime_now w) with (Ok (clock w (reads w)), ticked w).
    unfold mret at 1. unfold M_ret at 1. by apply IH.
  - unfold mret at 1. unfold M_ret at 1. by apply IH.
Qed.

End geo.


(** ** Grouping with other [defaultdict]s *)

Section updating.
Context {K V X : Type} `{EqDecision K}.
Variable dflt : V.

Lemma dict_get_dict_update (k k' : K) (u : V -> V) (d : list (K * V)) :
  dict_get k dflt (dict_update k' dflt u d)
  = if decide (k' = k) then u (dict_get k dflt d) else dict_get k dflt d.
Proof.
  induction d as [|[k0 v0] d IH]; cbn [dict_update dict_get].
  - destruct (decide (k = k')), (decide (k' = k)); congruence.
  - destruct (decide (k' = k0)) as [->|Hne]; cbn [dict_get].
    + destruct (decide (k = k0)) as [->|Hne'].
      * by rewrite decide_True.
      * by rewrite decide_False.
    + destruct (decide (k = k0)) as [->|Hne'].
      * by rewrite decide_False.
      * apply IH.
Qed.

Lemma keys_dict_update (k : K) (u : V -> V) (d : list (K * V)) :
  (dict_update k dflt u d).*1 = if decide (k ∈ d.*1) then d.*1 else d.*1 ++ [k].
Proof.
  induction d as [|[k0 v0] d IH].
  - cbn [dict_update]. case_decide as Hin; [| done].
    by apply elem_of_nil in Hin.
  - cbn [dict_update]. destruct (decide (k = k0)) as [->|Hne].
    + rewrite decide_True; [done |]. rewrite fmap_cons. by left.
    + rewrite !fmap_cons, IH. cbn [fst].
      destruct (decide (k ∈ d.*1)) as [Hin|Hnin].
      * rewrite decide_True; [done |]. by right.
      * rewrite decide_False; [done |].
        intros [?|?]%elem_of_cons; done.
Qed.

Variable g : X -> option (K * (V -> V)).
Variable step : list (K * V) -> X -> list (K * V).
Hypothesis step_spec : forall d x,
  step d x = match g x with
             | Some (k, u) => dict_update k dflt u d
             | None => d
             end.

Lemma updated_value (l : list X) (d0 : list (K * V)) (k : K) :
  dict_get k dflt (fold_left step l d0)
  = fold_left (updates_under g k) l (dict_get k dflt d0).
Proof.
  revert d0. induction l as [|x l IH]; intros d0; [done |].
  cbn [fold_left]. rewrite IH, step_spec. f_equal. unfold updates_under.
  destruct (g x) as [[k' u]|]; [| done].
  by rewrite dict_get_dict_update.
Qed.

Lemma updated_keys_NoDup (l : list X) (d0 : list (K * V)) :
  NoDup d0.*1 -> NoDup (fold_left step l d0).*1.
Proof.
  revert d0. induction l as [|x l IH]; intros d0 Hd0; simpl; [done |].
  apply IH. rewrite step_spec. destruct (g x) as [[k u]|]; [| done].
  rewrite keys_dict_update. destruct (decide (k ∈ d0.*1)); [done |].
  apply NoDup_app. split_and!; [done | | apply NoDup_singleton].
  intros y Hy ->%list_elem_of_singleton. done.
Qed.

Lemma updated_keys (l : list X) (d0 : list (K * V)) (k : K) :
  k ∈ (fold_left step l d0).*1
  <-> k ∈ d0.*1 \/ exists x u, x ∈ l /\ g x = Some (k, u).
Proof.
  revert d0. induction l as [|x l IH]; intros d0; cbn [fold_left].
  - split; [by left | intros [?|(x & u & Hx & _)]; [done |]].
    by apply elem_of_nil in Hx.
  - rewrite IH, step_spec. split.
    + intros [Hin|(y & u & Hy & Hg)].
      * destruct (g x) as [[k' u]|] eqn:Hgx; [| by left].
        rewrite keys_dict_update in Hin.
        destruct (decide (k' ∈ d0.*1)); [by left |].
        apply elem_of_app in Hin as [?|Hk%list_elem_of_singleton]; [by left |].
        subst k'. right. exists x, u. split; [by left | done].
      * right. exists y, u. split; [by right | done].
    + intros [Hin|(y & u & Hy & Hg)].
      * left. destruct (g x) as [[k' u]|]; [| done].
        rewrite keys_dict_update. destruct (decide (k' ∈ d0.*1)); [done |].
        apply elem_of_app. by left.
      * apply elem_of_cons in Hy as [->|Hy].
        -- left. rewrite Hg, keys_dict_update.
           destruct (decide (k ∈ d0.*1)); [done |].
           apply elem_of_app. right. by apply list_elem_of_singleton.
        -- right. by exists y, u.
Qed.

End updating.

Lemma setdefault_add_update {K V : Type} `{EqDecision K} `{EqDecision V}
    (k : K) (v : V) (d : list (K * list V)) :
  setdefault_add k v d = dict_update k [] (set_add v) d.
Proof.
  induction d as [|[k0 vs] d IH]; cbn [setdefault_add dict_update].
  - unfold set_add. by rewrite decide_False by apply not_elem_of_nil.
  - destruct (decide (k = k0)); [done | by rewrite IH].
Qed.

(** A set built by insertions holds each inserted element once. *)
Lemma set_add_all {V : Type} `{EqDecision V} (l acc : list V) :
  NoDup acc ->
  NoDup (fold_left (fun s v => set_add v s) l acc)
  /\ forall x, x ∈ fold_left (fun s v => set_add v s) l acc <-> x ∈ acc \/ x ∈ l.
Proof.
  revert acc. induction l as [|v l IH]; intros acc Hacc; cbn [fold_left].
  - split; [done |]. intros x. rewrite elem_of_nil. naive_solver.
  - destruct (IH (set_add v acc)) as [Hnd Hin].
    { unfold set_add. destruct (decide (v ∈ acc)); [done |].
      apply NoDup_app. split_and!; [done | | apply NoDup_singleton].
      intros y Hy ->%list_elem_of_singleton. done. }
    split; [done |]. intros x. rewrite Hin, elem_of_cons. unfold set_add.
    destruct (decide (v ∈ acc)).
    + naive_solver.
    + rewrite elem_of_app, list_elem_of_singleton. naive_solver.
Qed.

Lemma set_add_all_size `{Countable V} (l : list V) :
  length (fold_left (fun s v => set_add v s) l [])
  = size (list_to_set l : gset V).
Proof.
  destruct (set_add_all l []) as [Hnd Hin]; [constructor |].
  rewrite <- (size_list_to_set (C := gset V)) by done.
  f_equal. apply set_eq. intros x.
  rewrite !elem_of_list_to_set, Hin, elem_of_nil. naive_solver.
Qed.

(** ** The CloudWatch analyzer: bulk downloads *)

Lemma grouped_keys {K V X : Type} `{EqDecision K}
    (f : X -> option (K * V))
    (step : list (K * list V) -> X -> list (K * list V))
    (step_spec : forall d x,
       step d x = match f x with
                  | Some (k, v) => setdefault_append k v d
                  | None => d
                  end)
    (l : list X) (d0 : list (K * list V)) (k : K) :
  k ∈ (fold_left step l d0).*1 <-> k ∈ d0.*1 \/ appended f k l <> [].
Proof.
  revert d0. induction l as [|x l IH]; intros d0; simpl.
  - naive_solver.
  - rewrite IH, step_spec. unfold appended. simpl.
    destruct (f x) as [[k' v]|]; [| naive_solver].
    rewrite keys_setdefault_append.
    destruct (decide (k' = k)) as [->|Hne]; simpl.
    + destruct (decide (k ∈ d0.*1)).
      * naive_solver.
      * rewrite elem_of_app, list_elem_of_singleton. naive_solver.
    + destruct (decide (k' ∈ d0.*1)); [done |].
      rewrite elem_of_app, list_elem_of_singleton. naive_solver.
Qed.

Section bulk.
Context {text : PyText} {hash : PyHash}.
Import CloudWatchAnalyzer.

Lemma appended_bulk_key (ip : option string) (logs : list LogEntry) :
  appended bulk_key ip logs = get_object_entries ip logs.
Proof.
  unfold appended, get_object_entries, bulk_key.
  induction logs as [|log logs IH]; [done |].
  cbn [omap list_omap List.filter]. rewrite <- IH.
  destruct (bool_decide (l_operation log = _)); cbn [andb]; [| done].
  case_decide; case_bool_decide; done.
Qed.

Lemma bulk_downloads_counts (self : Self) (logs : list LogEntry) (w : World) :
  exists evs w',
    detect_bulk_downloads self logs w = (Ok evs, w') /\
    (forall ip,
       let n := Z.of_nat (length (get_object_entries ip logs)) in
       length (events_of ip evs)
       = if (1 <=? n) && (self_bulk_download_threshold self <=? n)
         then 1%nat else 0%nat) /\
    Forall (fun e => event_type e = VStr "bulk_download"
                     /\ severity e = VStr "high") evs.
Proof.
  unfold detect_bulk_downloads.
  set (step := fun d log =>
    if bool_decide (l_operation log = Some "REST.GET.OBJECT")
    then setdefault_append (l_remote_ip log) log d else d).
  assert (Hstep : forall d x,
    step d x = match bulk_key x with
               | Some (k, v) => setdefault_append k v d
               | None => d
               end).
  { intros d x. unfold step, bulk_key. by destruct (bool_decide _). }
  set (d := fold_left step logs []).
  assert (Hnd : NoDup d.*1) by (apply (grouped_keys_NoDup _ _ Hstep); constructor).
  assert (Hne : Forall (fun kv => kv.2 <> []) d)
    by (apply (grouped_nonempty _ _ Hstep); constructor).
  assert (Hget : forall ip, dict_get ip [] d = get_object_entries ip logs).
  { intros ip. unfold d. rewrite (grouped_values _ _ Hstep).
    apply appended_bulk_key. }
  assert (Hkeys : forall ip, ip ∈ d.*1 <-> get_object_entries ip logs <> []).
  { intros ip. unfold d. rewrite (grouped_keys _ _ Hstep).
    rewrite appended_bulk_key. split; [intros [Hin|?]; [| done] | by right].
    by apply elem_of_nil in Hin. }
  set (thr := self_bulk_download_threshold self).
  pose (I := fun (done : list (option string * list LogEntry))
                 (evs : list SecurityEvent) (_ : World) =>
    (forall ip,
       length (events_of ip evs)
       = length (List.filter
                   (fun kv => bool_decide (kv.1 = ip)
                              && (thr <=? Z.of_nat (length kv.2))) done)) /\
    Forall (fun e => event_type e = VStr "bulk_download"
                     /\ severity e = VStr "high") evs).
  destruct (for_each_invariant I
    (fun events '(ip, downloads) =>
       if Z.of_nat (length downloads) >=? thr then
         now ← datetime_now;
         first ← lift (py_index downloads 0);
         mret (events ++ [bulk_download_event self ip downloads first now])
       else mret events) [] d [] w) as (evs & w' & Hrun & Hcount & Hall).
  - split; [done | constructor].
  - intros done [ip0 downloads] evs w1 Hx [Hcount Hall].
    rewrite Forall_forall in Hne. specialize (Hne _ Hx). simpl in Hne.
    rewrite Z.geb_leb.
    destruct (thr <=? Z.of_nat (length downloads)) eqn:Hthr.
    + destruct downloads as [|first rest]; [done |].
      eexists _, _. split; [reflexivity |]. split.
      * intros ip. unfold events_of in *.
        rewrite !filter_length_app, Hcount. f_equal.
        cbn [List.filter fst snd ip_address bulk_download_event].
        rewrite py_eq_of_opt, Hthr, andb_true_r.
        by destruct (bool_decide (ip0 = ip)).
      * apply Forall_app. split; [done |]. by repeat constructor.
    + eexists _, _. split; [reflexivity |]. split; [| done].
      intros ip. rewrite filter_length_app, Hcount.
      cbn [List.filter fst snd]. rewrite Hthr, andb_false_r. simpl. lia.
  - exists evs, w'. split; [exact Hrun |]. split; [| exact Hall].
    intros ip. cbv zeta.
    set (n := Z.of_nat (length (get_object_entries ip logs))).
    rewrite Hcount.
    rewrite (dict_count_key d ip (fun vs => thr <=? Z.of_nat (length vs)) [] Hnd).
    rewrite Hget. fold n.
    destruct (bool_decide (ip ∈ d.*1)) eqn:Hin.
    + apply bool_decide_eq_true_1, Hkeys in Hin.
      assert (1 <= n) as Hn.
      { subst n. destruct (get_object_entries ip logs); [done | simpl; lia]. }
      apply Z.leb_le in Hn. by rewrite Hn.
    + apply bool_decide_eq_false_1 in Hin.
      assert (n = 0) as ->; [| done].
      subst n. destruct (get_object_entries ip logs) eqn:Hg; [done |].
      exfalso. apply Hin, Hkeys. by rewrite Hg.
Qed.
End bulk.

(** ** The Lambda function: bulk downloads *)

Section lambda_bulk.
Context {text : PyText} {hash : PyHash}.
Import LambdaFunction.

Lemma lambda_bulk_names (ip : string) (logs : list LogEntry) (acc : list string) :
  fold_left (updates_under lambda_bulk_key ip) logs acc
  = fold_left (fun s v => set_add v s) (object_names_of ip logs) acc.
Proof.
  revert acc. induction logs as [|log logs IH]; intros acc; [done |].
  unfold object_names_of in *. cbn [fold_left List.filter].
  rewrite IH. unfold updates_under at 1, lambda_bulk_key at 1.
  destruct (String.eqb_spec (l_remote_ip log) ip) as [Heq|Hne].
  - by rewrite decide_True.
  - by rewrite decide_False.
Qed.

Lemma lambda_bulk_downloads_counts (self : Self) (logs : list LogEntry)
    (w : World) :
  exists evs w',
    detect_bulk_downloads self logs w = (Ok evs, w') /\
    (forall ip,
       length (events_of (Some ip) evs)
       = if 5 <=? Z.of_nat (size (list_to_set (object_names_of ip logs)
                                   : gset string))
         then 1%nat else 0%nat) /\
    Forall (fun e => event_type e = VStr "bulk_download"
                     /\ severity e = VStr "critical") evs.
Proof.
  unfold detect_bulk_downloads.
  set (step := fun d log =>
    setdefault_add (l_remote_ip log) (l_object_name log) d).
  assert (Hstep : forall d x,
    step d x = match lambda_bulk_key x with
               | Some (k, u) => dict_update k [] u d
               | None => d
               end).
  { intros d x. unfold step, lambda_bulk_key. apply setdefault_add_update. }
  set (d := fold_left step logs []).
  assert (Hnd : NoDup d.*1)
    by (apply (updated_keys_NoDup [] lambda_bulk_key step Hstep); constructor).
  assert (Hget : forall ip,
    length (dict_get ip [] d)
    = size (list_to_set (object_names_of ip logs) : gset string)).
  { intros ip. unfold d. rewrite (updated_value [] lambda_bulk_key step Hstep).
    cbn [dict_get]. rewrite lambda_bulk_names. apply set_add_all_size. }
  assert (Hkeys : forall ip, dict_get ip [] d <> [] -> ip ∈ d.*1).
  { intros ip Hne. destruct (decide (ip ∈ d.*1)) as [|Hnin]; [done |].
    exfalso. apply Hne. clear -Hnin. induction d as [|[k v] d IH]; [done |].
    rewrite fmap_cons in Hnin. apply not_elem_of_cons in Hnin as [Hk Hd].
    cbn [dict_get]. rewrite decide_False by done. by apply IH. }
  pose (I := fun (done : list (string * list string))
                 (evs : list SecurityEvent) (_ : World) =>
    (forall ip,
       length (events_of (Some ip) evs)
       = length (List.filter
                   (fun kv => bool_decide (kv.1 = ip)
                              && (5 <=? Z.of_nat (length kv.2))) done)) /\
    Forall (fun e => event_type e = VStr "bulk_download"
                     /\ severity e = VStr "critical") evs).
  destruct (for_each_invariant I
    (fun events '(ip, files) =>
       if Z.of_nat (length files) >=? 5 then
         now ← datetime_now;
         mret (events ++ [bulk_download_event self ip files now])
       else mret events) [] d [] w) as (evs & w' & Hrun & Hcount & Hall).
  - split; [done | constructor].
  - intros done [ip0 files] evs w1 Hx [Hcount Hall].
    rewrite Z.geb_leb.
    destruct (5 <=? Z.of_nat (length files)) eqn:Hthr.
    + eexists _, _. split; [reflexivity |]. split.
      * intros ip. unfold events_of in *.
        rewrite !filter_length_app, Hcount. f_equal.
        cbn [List.filter fst snd ip_address bulk_download_event py_eq of_opt].
        rewrite Hthr, andb_true_r.
        destruct (String.eqb_spec ip0 ip) as [->|Hne].
        -- by rewrite bool_decide_eq_true_2.
        -- by rewrite bool_decide_eq_false_2.
      * apply Forall_app. split; [done |]. by repeat constructor.
    + eexists _, _. split; [reflexivity |]. split; [| done].
      intros ip. rewrite filter_length_app, Hcount.
      cbn [List.filter fst snd]. rewrite Hthr, andb_false_r. simpl. lia.
  - exists evs, w'. split; [exact Hrun |]. split; [| exact Hall].
    intros ip. rewrite Hcount.
    rewrite (dict_count_key d ip (fun vs => 5 <=? Z.of_nat (length vs)) [] Hnd).
    rewrite <- Hget.
    destruct (5 <=? Z.of_nat (length (dict_get ip [] d))) eqn:Hthr;
      [| by rewrite andb_false_r].
    rewrite bool_decide_eq_true_2; [done |].
    apply Hkeys. intros Hnil. rewrite Hnil in Hthr. done.
Qed.

End lambda_bulk.

(** ** Claims about bulk downloads and suspicious user agents *)

(** C2, as the code has it.  The CloudWatch analyzer counts, per source IP,
    the entries whose operation is a GET of an object, whatever their HTTP
    status: an IP with [n] such entries gets one event when [n] reaches the
    threshold and none otherwise, so [threshold - 1] entries give no event
    and (for a threshold of at least 1) exactly [threshold] entries give
    exactly one; every event has severity high.  The Lambda function counts
    the distinct object names of all entries of the IP against the fixed
    threshold 5, and its events have severity critical. *)
Theorem bulk_download_threshold_boundary {hash : PyHash} :
  (forall (self : CloudWatchAnalyzer.Self)
          (logs : list CloudWatchAnalyzer.LogEntry) (w : World),
     exists evs w',
       CloudWatchAnalyzer.detect_bulk_downloads self logs w = (Ok evs, w') /\
       (forall ip,
          Z.of_nat (length (get_object_entries ip logs))
          = CloudWatchAnalyzer.self_bulk_download_threshold self - 1 ->
          events_of ip evs = []) /\
       (forall ip,
          1 <= CloudWatchAnalyzer.self_bulk_download_threshold self ->
          Z.of_nat (length (get_object_entries ip logs))
          = CloudWatchAnalyzer.self_bulk_download_threshold self ->
          length (events_of ip evs) = 1%nat) /\
       (forall ip,
          let n := Z.of_nat (length (get_object_entries ip logs)) in
          length (events_of ip evs)
          = if (1 <=? n)
               && (CloudWatchAnalyzer.self_bulk_download_threshold self <=? n)
            then 1%nat else 0%nat) /\
       Forall (fun e => event_type e = VStr "bulk_download"
                        /\ severity e = VStr "high") evs) /\
  (forall (self : LambdaFunction.Self)
          (logs : list LambdaFunction.LogEntry) (w : World),
     exists evs w',
       LambdaFunction.detect_bulk_downloads self logs w = (Ok evs, w') /\
       (forall ip,
          length (events_of (Some ip) evs)
          = if 5 <=? Z.of_nat (size (list_to_set (object_names_of ip logs)
                                      : gset string))
            then 1%nat else 0%nat) /\
       Forall (fun e => event_type e = VStr "bulk_download"
                        /\ severity e = VStr "critical") evs).
Proof.
  split.
  - intros self logs w.
    destruct (bulk_downloads_counts self logs w)
      as (evs & w' & Hrun & Hcount & Hall).
    exists evs, w'. split; [exact Hrun |]. split_and!; [| | exact Hcount | exact Hall].
    + intros ip Hn. specialize (Hcount ip). cbv zeta in Hcount. rewrite Hn in Hcount.
      assert ((CloudWatchAnalyzer.self_bulk_download_threshold self
               <=? CloudWatchAnalyzer.self_bulk_download_threshold self - 1)
              = false) as Hlt by (apply Z.leb_gt; lia).
      rewrite Hlt, andb_false_r in Hcount. by destruct (events_of ip evs).
    + intros ip Hthr Hn. specialize (Hcount ip). cbv zeta in Hcount.
      rewrite Hn in Hcount. rewrite Z.leb_refl, andb_true_r in Hcount.
      apply Z.leb_le in Hthr. by rewrite Hthr in Hcount.
  - intros self logs w. apply lambda_bulk_downloads_counts.
Qed.

(** The boundary at the default threshold 10: nine GETs of one IP give no
    event, ten give one. *)
Lemma bulk_download_threshold_boundary_witness :
  exists evs9 evs10 w9 w10,
    CloudWatchAnalyzer.detect_bulk_downloads CloudWatchAnalyzer.defaults
      (take 9 nine_and_a_refusal) fresh_world = (Ok evs9, w9) /\
    CloudWatchAnalyzer.detect_bulk_downloads CloudWatchAnalyzer.defaults
      nine_and_a_refusal fresh_world = (Ok evs10, w10) /\
    events_of (Some "10.0.0.1") evs9 = [] /\
    length (events_of (Some "10.0.0.1") evs10) = 1%nat.
Proof.
  pose proof (bulk_download_threshold_boundary (hash := insertion_order))
    as [Hcw _].
  destruct (Hcw CloudWatchAnalyzer.defaults (take 9 nine_and_a_refusal)
              fresh_world) as (evs9 & w9 & Hrun9 & Hbelow & _).
  destruct (Hcw CloudWatchAnalyzer.defaults nine_and_a_refusal fresh_world)
    as (evs10 & w10 & Hrun10 & _ & Hat & _).
  exists evs9, evs10, w9, w10.
  split_and!; [exact Hrun9 | exact Hrun10 | |].
  - apply Hbelow. reflexivity.
  - apply Hat; [by vm_compute | reflexivity].
Defined.

(** C2 as stated fails on both variants.  In the CloudWatch analyzer an IP
    with exactly nine successful GETs (and one refused GET) does get an
    event at the default threshold 10; in the Lambda function five entries
    for five objects give an event, of severity critical. *)
Lemma bulk_download_counts_refused_gets :
  length (List.filter successful_get nine_and_a_refusal) = 9%nat /\
  CloudWatchAnalyzer.self_bulk_download_threshold CloudWatchAnalyzer.defaults
  = 10 /\
  (CloudWatchAnalyzer.detect_bulk_downloads
     CloudWatchAnalyzer.defaults nine_and_a_refusal fresh_world).1
  = Ok [CloudWatchAnalyzer.bulk_download_event
          CloudWatchAnalyzer.defaults (Some "10.0.0.1") nine_and_a_refusal
          (cw_entry 0 "REST.GET.OBJECT" "200" "Mozilla/5.0") 0] /\
  (LambdaFunction.detect_bulk_downloads (hash := insertion_order)
     LambdaFunction.defaults five_objects fresh_world).1
  = Ok [LambdaFunction.bulk_download_event (hash := insertion_order)
          LambdaFunction.defaults "10.0.0.1" ["a"; "b"; "c"; "d"; "e"] 0] /\
  severity (LambdaFunction.bulk_download_event (hash := insertion_order)
              LambdaFunction.defaults "10.0.0.1" ["a"; "b"; "c"; "d"; "e"] 0)
  = VStr "critical".
Proof. split_and!; by vm_compute. Qed.



(** C10 as stated fails on a batch with an entry whose user agent is
    [None] (a row of the query without [useragent]): the source IP has one
    entry whose user agent contains curl, and the detector returns no event
    for it; it raises [AttributeError]. *)
Lemma suspicious_user_agent_needs_every_agent :
  length (List.filter
            (fun log =>
               bool_decide (CloudWatchAnalyzer.l_remote_ip log
                            = Some "10.0.0.1")
               && suspicious_entry log)
            [cw_entry 0 "REST.GET.OBJECT" "200" "curl/7.68";
             cw_entry_without_agent]) = 1%nat /\
  (CloudWatchAnalyzer.detect_geolocation_anomaly CloudWatchAnalyzer.defaults
     [cw_entry 0 "REST.GET.OBJECT" "200" "curl/7.68";
      cw_entry_without_agent] fresh_world).1
  = Raise AttributeError.
Proof. split; by vm_compute. Qed.

(** ** Claims settled by evaluation *)

(** C9.  [detect_impossible_travel] is the constant empty function: whatever
    the batch, it returns the empty list.  It is a pure function (its type
    has no [World]), so it has no other effect. *)
Theorem impossible_travel_returns_nothing
    (logs : list PatternDetector.LogEntry) :
  PatternDetector.detect_impossible_travel logs = Ok [].
Proof. reflexivity. Qed.

(** C5.  On the empty batch every detector of the repository returns the
    empty list, raises nothing and leaves the world as it was, and every
    [analyze_logs] returns the empty dictionary; [main.analyze_logs] then
    stores and sends nothing. *)
Theorem empty_batch_yields_no_event {text : PyText} {hash : PyHash} (w : World) :
  (forall self,
     CloudWatchAnalyzer.detect_bulk_downloads self [] w = (Ok [], w) /\
     CloudWatchAnalyzer.detect_rapid_access self [] w = (Ok [], w) /\
     CloudWatchAnalyzer.detect_abnormal_hours_access self [] w = (Ok [], w) /\
     CloudWatchAnalyzer.detect_geolocation_anomaly self [] w = (Ok [], w) /\
     CloudWatchAnalyzer.analyze_logs self [] w = (Ok [], w)) /\
  (forall self,
     LambdaFunction.detect_bulk_downloads self [] w = (Ok [], w) /\
     LambdaFunction.detect_rapid_access self [] w = (Ok [], w) /\
     LambdaFunction.detect_abnormal_hours self [] w = (Ok [], w) /\
     LambdaFunction.detect_suspicious_user_agents self [] w = (Ok [], w) /\
     LambdaFunction.detect_failed_access_attempts self [] w = (Ok [], w) /\
     LambdaFunction.analyze_logs self [] w = (Ok [], w)) /\
  (PatternDetector.detect_credential_stuffing [] = Ok [] /\
   PatternDetector.detect_data_exfiltration [] = Ok [] /\
   PatternDetector.detect_port_scanning [] = Ok [] /\
   PatternDetector.detect_time_based_pattern [] = Ok [] /\
   PatternDetector.detect_impossible_travel [] = Ok []) /\
  (forall self,
     LogAnalyzer.detect_bulk_downloads self [] = Ok [] /\
     LogAnalyzer.detect_rapid_access self [] = Ok [] /\
     LogAnalyzer.detect_abnormal_hours_access self [] = Ok [] /\
     LogAnalyzer.detect_geolocation_anomaly self [] = Ok [] /\
     LogAnalyzer.detect_user_agent_anomaly self [] = Ok [] /\
     LogAnalyzer.analyze_logs self [] = Ok []) /\
  (forall analyzer email_system slack_system send_alerts,
     Main.analyze_logs analyzer email_system slack_system [] send_alerts w
     = (Ok tt, w)).
Proof.
  split_and!; try reflexivity; intros; split_and!; reflexivity.
Qed.

(** C4 at its failing input: five entries of one source IP that share one
    timestamp.  The intervals are all zero, so is their mean, and
    [variance / avg_interval] raises [ZeroDivisionError]; the rate divisions
    of the sibling detectors are guarded by [max(..., 1)]. *)
Theorem time_based_pattern_divides_by_zero (t : Z) :
  PatternDetector.detect_time_based_pattern
    (replicate 5 (gcp_entry t "credentials.csv" 200))
  = Raise ZeroDivisionError.
Proof.
  unfold PatternDetector.detect_time_based_pattern,
    PatternDetector.detect_time_based_pattern_with.
  replace (fold_left _ (replicate 5 (gcp_entry t "credentials.csv" 200)) [])
    with [(Some "10.0.0.1", [t; t; t; t; t])] by (by vm_compute).
  cbn [for_each_pure length Z.of_nat].
  replace (sort_by id [t; t; t; t; t]) with [t; t; t; t; t].
  - cbn [PatternDetector.intervals_of PatternDetector.intervals_from].
    rewrite Z.sub_diag. reflexivity.
  - unfold sort_by, id. cbn [fold_left insert_by].
    by repeat (rewrite Z.ltb_irrefl; cbn [insert_by]).
Qed.

(** C8 at its failing input: a hundred successful GETs of one source IP.
    The threshold is met, and the keyword call of [SecurityEvent] (the
    dataclass of [cloudwatch_analyzer.py], which has no field [source_ip] or
    [user_agent] and requires [region]) raises [TypeError]. *)
Theorem data_exfiltration_raises_type_error :
  PatternDetector.detect_data_exfiltration
    (replicate 100 (gcp_entry 0 "credentials.csv" 200))
  = Raise TypeError.
Proof. by vm_compute. Qed.

(** C7 at its failing inputs, with both channels configured and events as
    [CloudWatchAnalyzer] emits them.  For two medium events the e-mail batch
    summary raises [AttributeError] (the events have no [source_ip]) before
    anything is handed to a transport, and the Slack summary is never
    reached.  For one critical event both [send_alert] calls catch the same
    error and hand nothing over either. *)
Theorem dispatch_sends_nothing_for_cloudwatch_events :
  (let r := Main.dispatch (text := plain_text) email_on slack_on
              [cw_event "medium" 0; cw_event "medium" 1] fresh_world in
   r.1 = Raise AttributeError /\ outbox r.2 = []) /\
  (let r := Main.dispatch (text := plain_text) email_on slack_on
              [cw_event "critical" 0] fresh_world in
   r.1 = Ok tt /\ outbox r.2 = []).
Proof. split; by vm_compute. Qed.

(** ** The store *)

Section store.
Context {text : PyText} {hash : PyHash}.

Lemma cloudwatch_store_ok (e : SecurityEvent) (i : Item) (w : World) :
  CloudWatchAnalyzer.make_item e = Ok i ->
  table_up w = true ->
  exists w',
    CloudWatchAnalyzer.store_event_in_dynamodb e w = (Ok tt, w') /\
    table w' = <[item_event_id i := i]> (table w) /\
    table_up w' = true /\ clock w' = clock w /\ reads w' = reads w.
Proof.
  intros Hitem Hup.
  unfold CloudWatchAnalyzer.store_event_in_dynamodb, try_except, mbind, M_bind,
    lift, put_item.
  rewrite Hitem, Hup. eexists. split; [reflexivity |]. by simpl.
Qed.

Lemma lambda_store_ok (e : SecurityEvent) (i : Item) (w : World) :
  LambdaFunction.make_item e (clock w (reads w)) = Ok i ->
  table_up w = true ->
  exists w',
    LambdaFunction.store_event_in_dynamodb e w = (Ok true, w') /\
    table w' = <[item_event_id i := i]> (table w) /\
    table_up w' = true /\ clock w' = clock w /\ reads w' = S (reads w).
Proof.
  intros Hitem Hup.
  unfold LambdaFunction.store_event_in_dynamodb, try_except, mbind, M_bind,
    lift, put_item, datetime_now, mret, M_ret.
  cbn [clock reads table table_up].
  rewrite Hitem, Hup. eexists. split; [reflexivity |]. by simpl.
Qed.

(** C1, as the code has it.  The identity under which an event is stored is
    the text [event_type_timestamp_ip]: in the CloudWatch analyzer the
    timestamp is the event's own, so the identity is a function of the
    event's type, timestamp and IP address (no window bucket enters it); in
    the Lambda function it is the wall clock at the time of the write.  The
    write is an unconditional [put_item]: on a reachable table, storing two
    events with the same identity succeeds twice with the same return value
    ([None], respectively [True]), the second item replaces the first, and
    the table holds one record under that identity (one more record than
    before when the identity was new). *)
Theorem store_overwrites_same_identity :
  (forall e1 e2 : SecurityEvent,
     event_type e1 = event_type e2 ->
     timestamp e1 = timestamp e2 ->
     ip_address e1 = ip_address e2 ->
     item_event_id <$> CloudWatchAnalyzer.make_item e1
     = item_event_id <$> CloudWatchAnalyzer.make_item e2) /\
  (forall (e1 e2 : SecurityEvent) (i1 i2 : Item) (w : World),
     CloudWatchAnalyzer.make_item e1 = Ok i1 ->
     CloudWatchAnalyzer.make_item e2 = Ok i2 ->
     item_event_id i1 = item_event_id i2 ->
     table_up w = true ->
     exists w1 w2,
       CloudWatchAnalyzer.store_event_in_dynamodb e1 w = (Ok tt, w1) /\
       CloudWatchAnalyzer.store_event_in_dynamodb e2 w1 = (Ok tt, w2) /\
       table w2 = <[item_event_id i2 := i2]> (table w) /\
       table w2 !! item_event_id i2 = Some i2 /\
       dom (table w2) = dom (table w1) /\
       (table w !! item_event_id i2 = None ->
        size (table w2) = S (size (table w)))) /\
  (forall (e1 e2 : SecurityEvent) (i1 i2 : Item) (w : World),
     LambdaFunction.make_item e1 (clock w (reads w)) = Ok i1 ->
     LambdaFunction.make_item e2 (clock w (S (reads w))) = Ok i2 ->
     item_event_id i1 = item_event_id i2 ->
     table_up w = true ->
     exists w1 w2,
       LambdaFunction.store_event_in_dynamodb e1 w = (Ok true, w1) /\
       LambdaFunction.store_event_in_dynamodb e2 w1 = (Ok true, w2) /\
       table w2 = <[item_event_id i2 := i2]> (table w) /\
       table w2 !! item_event_id i2 = Some i2 /\
       dom (table w2) = dom (table w1) /\
       (table w !! item_event_id i2 = None ->
        size (table w2) = S (size (table w)))).
Proof.
  split_and!.
  - intros e1 e2 Hty Hts Hip. unfold CloudWatchAnalyzer.make_item.
    rewrite Hty, Hts, Hip. by destruct (timestamp e2).
  - intros e1 e2 i1 i2 w H1 H2 Hid Hup.
    destruct (cloudwatch_store_ok e1 i1 w H1 Hup)
      as (w1 & Hrun1 & Ht1 & Hup1 & _ & _).
    destruct (cloudwatch_store_ok e2 i2 w1 H2 Hup1)
      as (w2 & Hrun2 & Ht2 & _ & _ & _).
    exists w1, w2. rewrite Ht2, Ht1, Hid.
    split_and!; [done | done | | | |].
    + apply insert_insert_eq.
    + apply lookup_insert_eq.
    + rewrite !dom_insert_L. set_solver.
    + intros Hnew. rewrite insert_insert_eq. by apply map_size_insert_None.
  - intros e1 e2 i1 i2 w H1 H2 Hid Hup.
    destruct (lambda_store_ok e1 i1 w H1 Hup)
      as (w1 & Hrun1 & Ht1 & Hup1 & Hc1 & Hr1).
    rewrite <- Hc1, <- Hr1 in H2.
    destruct (lambda_store_ok e2 i2 w1 H2 Hup1)
      as (w2 & Hrun2 & Ht2 & _ & _ & _).
    exists w1, w2. rewrite Ht2, Ht1, Hid.
    split_and!; [done | done | | | |].
    + apply insert_insert_eq.
    + apply lookup_insert_eq.
    + rewrite !dom_insert_L. set_solver.
    + intros Hnew. rewrite insert_insert_eq. by apply map_size_insert_None.
Qed.

End store.

(** The hypotheses of [store_overwrites_same_identity] hold of concrete
    events: two events that differ in severity only share an identity, and
    one event stored twice (with a clock that stands still, for the Lambda
    function) leaves one record. *)
Lemma store_overwrites_same_identity_witness :
  (item_event_id <$> CloudWatchAnalyzer.make_item (text := plain_text)
                       (cw_event "high" 7)
   = item_event_id <$> CloudWatchAnalyzer.make_item (text := plain_text)
                         (cw_event "low" 7)) /\
  (exists i w1 w2,
     CloudWatchAnalyzer.make_item (text := plain_text) (cw_event "high" 7)
     = Ok i /\
     item_event_id i = "suspicious_user_agent_7_10.0.0.1" /\
     CloudWatchAnalyzer.store_event_in_dynamodb (text := plain_text)
       (cw_event "high" 7) fresh_world = (Ok tt, w1) /\
     CloudWatchAnalyzer.store_event_in_dynamodb (text := plain_text)
       (cw_event "high" 7) w1 = (Ok tt, w2) /\
     table w2 = <[item_event_id i := i]> (table fresh_world) /\
     table w2 !! item_event_id i = Some i /\
     dom (table w2) = dom (table w1) /\
     size (table w2) = S (size (table fresh_world))) /\
  (exists i w1 w2,
     LambdaFunction.make_item (text := plain_text) (cw_event "high" 0) 7
     = Ok i /\
     item_event_id i = "suspicious_user_agent_7_10.0.0.1" /\
     LambdaFunction.store_event_in_dynamodb (text := plain_text)
       (cw_event "high" 0) frozen_world = (Ok true, w1) /\
     LambdaFunction.store_event_in_dynamodb (text := plain_text)
       (cw_event "high" 0) w1 = (Ok true, w2) /\
     table w2 = <[item_event_id i := i]> (table frozen_world) /\
     table w2 !! item_event_id i = Some i /\
     dom (table w2) = dom (table w1) /\
     size (table w2) = S (size (table frozen_world))).
Proof.
  pose proof (store_overwrites_same_identity (text := plain_text))
    as (Hid & Hcw & Hlam).
  split_and!.
  - apply Hid; reflexivity.
  - destruct (Hcw (cw_event "high" 7) (cw_event "high" 7) _ _ fresh_world
                eq_refl eq_refl eq_refl eq_refl)
      as (w1 & w2 & H1 & H2 & Ht & Hl & Hd & Hs).
    eexists _, w1, w2.
    split_and!; [reflexivity | reflexivity | exact H1 | exact H2 | exact Ht
                | exact Hl | exact Hd | apply Hs; reflexivity].
  - destruct (Hlam (cw_event "high" 0) (cw_event "high" 0) _ _ frozen_world
                eq_refl eq_refl eq_refl eq_refl)
      as (w1 & w2 & H1 & H2 & Ht & Hl & Hd & Hs).
    eexists _, w1, w2.
    split_and!; [reflexivity | reflexivity | exact H1 | exact H2 | exact Ht
                | exact Hl | exact Hd | apply Hs; reflexivity].
Defined.

(** C1 as stated fails.  In the Lambda function, storing one event twice
    under one identity returns [True] both times (there is no [duplicate]
    outcome), and one record remains.  In the CloudWatch analyzer the
    identity follows the event's timestamp, not a window: two events of one
    type and one source IP a microsecond apart are stored as two records.
    In the Lambda function the identity follows the clock: one event stored
    twice while the clock advances is stored as two records. *)
Lemma store_twice_reports_stored_twice :
  (let r1 := LambdaFunction.store_event_in_dynamodb (text := plain_text)
               (cw_event "high" 0) frozen_world in
   let r2 := LambdaFunction.store_event_in_dynamodb (text := plain_text)
               (cw_event "high" 0) r1.2 in
   r1.1 = Ok true /\ r2.1 = Ok true /\
   map fst (map_to_list (table r1.2)) = ["suspicious_user_agent_7_10.0.0.1"] /\
   map fst (map_to_list (table r2.2)) = ["suspicious_user_agent_7_10.0.0.1"]) /\
  (let r1 := CloudWatchAnalyzer.store_event_in_dynamodb (text := plain_text)
               (cw_event "high" 0) fresh_world in
   let r2 := CloudWatchAnalyzer.store_event_in_dynamodb (text := plain_text)
               (cw_event "high" 1) r1.2 in
   event_type (cw_event "high" 0) = event_type (cw_event "high" 1) /\
   ip_address (cw_event "high" 0) = ip_address (cw_event "high" 1) /\
   size (table r2.2) = 2%nat) /\
  (let r1 := LambdaFunction.store_event_in_dynamodb (text := plain_text)
               (cw_event "high" 0) fresh_world in
   let r2 := LambdaFunction.store_event_in_dynamodb (text := plain_text)
               (cw_event "high" 0) r1.2 in
   r1.1 = Ok true /\ r2.1 = Ok true /\ size (table r2.2) = 2%nat).
Proof. split_and!; by vm_compute. Qed.

(** ** Two runs over one batch *)







Lemma for_each_total {A S : Type} (body : S -> A -> M S) (xs : list A)
    (s : S) (w : World) :
  (forall s x w, exists s' w', body s x w = (Ok s', w')) ->
  exists s' w', for_each xs body s w = (Ok s', w').
Proof.
  intros Hbody.
  destruct (for_each_invariant (fun _ _ _ => True) body [] xs s w)
    as (s' & w' & Hrun & _); [done | | by exists s', w'].
  intros done x s0 w0 _ _. destruct (Hbody s0 x w0) as (s1 & w1 & Hrun).
  by exists s1, w1.
Qed.


Section runs.
Context {text : PyText} {hash : PyHash}.








Lemma lambda_store_total (e : SecurityEvent) (w : World) :
  exists a w', LambdaFunction.store_event_in_dynamodb e w = (Ok a, w').
Proof.
  unfold LambdaFunction.store_event_in_dynamodb, try_except, mbind, M_bind,
    lift, put_item, datetime_now. cbn [fst snd clock reads table_up].
  destruct (LambdaFunction.make_item e _); [| by eexists _, _].
  cbn [table_up]. destruct (table_up w); by eexists _, _.
Qed.














End runs.


(** ** Sorting *)

Section sorting.
Context {A : Type} (key : A -> Z).

Lemma insert_by_Permutation (x : A) (l : list A) :
  insert_by key x l ≡ₚ x :: l.
Proof.
  induction l as [|y l IH]; [done |]. cbn [insert_by].
  destruct (key x <? key y); [done |].
  rewrite IH. apply Permutation_swap.
Qed.

Lemma sort_by_Permutation (l : list A) : sort_by key l ≡ₚ l.
Proof.
  unfold sort_by.
  assert (forall acc, fold_left (fun acc x => insert_by key x acc) l acc
                      ≡ₚ acc ++ l) as Hgen.
  { induction l as [|x l IH]; intros acc; cbn [fold_left].
    - by rewrite app_nil_r.
    - rewrite IH, insert_by_Permutation. apply Permutation_middle. }
  apply Hgen.
Qed.

Lemma sort_by_length (l : list A) : length (sort_by key l) = length l.
Proof. apply Permutation_length, sort_by_Permutation. Qed.

Lemma insert_by_Sorted (x : A) (l : list A) :
  Sorted (fun a b => key a <= key b) l ->
  Sorted (fun a b => key a <= key b) (insert_by key x l).
Proof.
  induction 1 as [|y l Hl IH Hhd]; cbn [insert_by].
  - by repeat constructor.
  - destruct (Z.ltb_spec (key x) (key y)) as [Hlt|Hge].
    + constructor; [by constructor |]. constructor. lia.
    + constructor; [done |].
      destruct Hhd as [|z l Hyz]; cbn [insert_by].
      * constructor. lia.
      * destruct (key x <? key z); constructor; [lia | done].
Qed.

Lemma sort_by_Sorted (l : list A) :
  Sorted (fun a b => key a <= key b) (sort_by key l).
Proof.
  unfold sort_by.
  assert (forall acc, Sorted (fun a b => key a <= key b) acc ->
            Sorted (fun a b => key a <= key b)
              (fold_left (fun acc x => insert_by key x acc) l acc)) as Hgen.
  { induction l as [|x l IH]; intros acc Hacc; cbn [fold_left]; [done |].
    by apply IH, insert_by_Sorted. }
  apply Hgen. constructor.
Qed.

End sorting.

(** ** Indexing and time spans *)

Lemma py_index_lookup {A : Type} (l : list A) (i : nat) (x : A) :
  l !! i = Some x -> py_index l (Z.of_nat i) = Ok x.
Proof.
  intros Hx. unfold py_index.
  pose proof (lookup_lt_Some _ _ _ Hx) as Hlt.
  destruct (Z.ltb_spec (Z.of_nat i) 0) as [?|_]; [lia |].
  rewrite (proj2 (Z.leb_le 0 (Z.of_nat i))) by lia.
  rewrite (proj2 (Z.ltb_lt (Z.of_nat i) (Z.of_nat (length l)))) by lia.
  cbn [andb]. by rewrite Nat2Z.id, Hx.
Qed.

Lemma within_total_seconds (win a b : Z) :
  Qle_bool (total_seconds (b - a)) (inject_Z win) = within win (a, b).
Proof.
  unfold within, total_seconds, Qle_bool, inject_Z. cbn [Qnum Qden fst snd].
  apply eq_iff_eq_true. rewrite !Z.leb_le. lia.
Qed.

(** ** The CloudWatch analyzer: rapid access *)

Lemma dict_get_absent {K V : Type} `{EqDecision K} (d : list (K * V))
    (k : K) (dflt : V) :
  k ∉ d.*1 -> dict_get k dflt d = dflt.
Proof.
  induction d as [|[k0 v0] d IH]; [done |]. rewrite fmap_cons.
  intros [Hk Hd]%not_elem_of_cons. cbn [dict_get].
  rewrite decide_False by done. by apply IH.
Qed.

Section rapid.
Context {text : PyText} {hash : PyHash}.
Import CloudWatchAnalyzer.
Variable self : Self.
Hypothesis threshold_positive : 1 <= self_rapid_access_threshold self.

Lemma windows_cons (k : nat) (times : list Z) (i : nat) (a b : Z) :
  times !! i = Some a -> times !! (i + k)%nat = Some b ->
  windows k (drop i times) = (a, b) :: windows k (drop (S i) times).
Proof.
  intros Ha Hb. unfold windows. rewrite !drop_drop.
  rewrite (drop_S times a i Ha), (drop_S times b (i + k) Hb).
  cbn [zip_with]. repeat f_equal; lia.
Qed.

Lemma scan_windows_take (ip : option string) (times : list Z)
    (n i0 : nat) (events : list SecurityEvent) (w : World) :
  (n = 0 \/ i0 + n + Z.to_nat (self_rapid_access_threshold self - 1)
            <= length times)%nat ->
  scan_windows self ip times (map Z.of_nat (seq i0 n)) events w
  = match List.find (within (self_rapid_access_window self))
            (take n (windows (Z.to_nat (self_rapid_access_threshold self - 1))
                             (drop i0 times))) with
    | Some (a, b) =>
        (Ok (events ++ [rapid_access_event self ip a b (clock w (reads w))]),
         ticked w)
    | None => (Ok events, w)
    end.
Proof.
  set (k := Z.to_nat (self_rapid_access_threshold self - 1)).
  revert i0. induction n as [|n IH]; intros i0 Hrange; [done |].
  destruct Hrange as [|Hrange]; [done |].
  destruct (lookup_lt_is_Some_2 times i0) as [a Ha]; [lia |].
  destruct (lookup_lt_is_Some_2 times (i0 + k)) as [b Hb]; [lia |].
  cbn [seq map scan_windows]. unfold mbind, M_bind, lift.
  rewrite (py_index_lookup _ _ _ Ha).
  replace (Z.of_nat i0 + self_rapid_access_threshold self - 1)
    with (Z.of_nat (i0 + k)) by lia.
  rewrite (py_index_lookup _ _ _ Hb), within_total_seconds.
  rewrite (windows_cons k times i0 a b Ha Hb). cbn [take List.find].
  destruct (within _ (a, b)); [done |].
  apply IH. destruct n; [by left | right; lia].
Qed.

Lemma scan_windows_first (ip : option string) (times : list Z)
    (events : list SecurityEvent) (w : World) :
  scan_windows self ip times
    (py_range (Z.of_nat (length times) - self_rapid_access_threshold self + 1))
    events w
  = match first_window (self_rapid_access_threshold self)
                       (self_rapid_access_window self) times with
    | Some (a, b) =>
        (Ok (events ++ [rapid_access_event self ip a b (clock w (reads w))]),
         ticked w)
    | None => (Ok events, w)
    end.
Proof.
  unfold py_range, first_window.
  set (k := Z.to_nat (self_rapid_access_threshold self - 1)).
  set (n := Z.to_nat (Z.of_nat (length times)
                      - self_rapid_access_threshold self + 1)).
  rewrite scan_windows_take.
  - fold k. rewrite drop_0, take_ge; [done |].
    unfold windows. rewrite length_zip_with, length_drop. lia.
  - destruct n eqn:Hn; [by left | right]. fold k. lia.
Qed.

Lemma appended_rapid_key (ip : option string) (logs : list LogEntry) :
  sort_by id (appended rapid_key ip logs) = access_times ip logs.
Proof.
  unfold access_times. f_equal. unfold appended, rapid_key.
  induction logs as [|log logs IH]; [done |].
  cbn [omap list_omap List.filter]. rewrite IH.
  destruct (l_timestamp log) as [t|] eqn:Ht.
  - case_decide; case_bool_decide; try done.
    cbn [omap list_omap]. by rewrite Ht.
  - case_bool_decide; [| done]. cbn [omap list_omap]. by rewrite Ht.
Qed.

Lemma rapid_access_first_window (logs : list LogEntry) (w : World) :
  exists evs w',
    detect_rapid_access self logs w = (Ok evs, w') /\
    forall ip,
      match first_window (self_rapid_access_threshold self)
                         (self_rapid_access_window self)
                         (access_times ip logs) with
      | Some (a, b) =>
          exists now, events_of ip evs = [rapid_access_event self ip a b now]
      | None => events_of ip evs = []
      end.
Proof.
  unfold detect_rapid_access.
  set (step := fun d log =>
    match l_timestamp log with
    | Some t => setdefault_append (l_remote_ip log) t d
    | None => d
    end).
  assert (Hstep : forall d x,
    step d x = match rapid_key x with
               | Some (k, v) => setdefault_append k v d
               | None => d
               end).
  { intros d x. unfold step, rapid_key. by destruct (l_timestamp x). }
  set (d := fold_left step logs []).
  assert (Hnd : NoDup d.*1)
    by (apply (grouped_keys_NoDup rapid_key step Hstep); constructor).
  assert (Hget : forall ip, sort_by id (dict_get ip [] d) = access_times ip logs).
  { intros ip. unfold d. rewrite (grouped_values rapid_key step Hstep).
    apply appended_rapid_key. }
  pose (has := fun times : list Z =>
    bool_decide (is_Some (first_window (self_rapid_access_threshold self)
      (self_rapid_access_window self) (sort_by id times)))).
  pose (I := fun (done : list (option string * list Z))
                 (evs : list SecurityEvent) (_ : World) =>
    (forall ip,
       length (events_of ip evs)
       = length (List.filter
                   (fun kv => bool_decide (kv.1 = ip) && has kv.2) done)) /\
    Forall (fun e => exists ip times a b now,
              (ip, times) ∈ d /\
              first_window (self_rapid_access_threshold self)
      (self_rapid_access_window self) (sort_by id times) = Some (a, b) /\
              e = rapid_access_event self ip a b now) evs).
  destruct (for_each_invariant I
    (fun events '(ip, times) =>
       let times := sort_by id times in
       scan_windows self ip times
         (py_range (Z.of_nat (length times) - self_rapid_access_threshold self + 1)) events)
    [] d [] w) as (evs & w' & Hrun & Hcount & Hall).
  - split; [done | constructor].
  - intros done [ip0 times0] evs w1 Hx [Hcount Hall]. cbv zeta.
    rewrite (scan_windows_first ip0 (sort_by id times0) evs w1).
    destruct (first_window (self_rapid_access_threshold self)
      (self_rapid_access_window self) (sort_by id times0)) as [[a b]|] eqn:Hfw.
    + eexists _, _. split; [reflexivity |]. split.
      * intros ip. unfold events_of in *.
        rewrite !filter_length_app, Hcount. f_equal.
        cbn [List.filter fst snd ip_address rapid_access_event].
        rewrite py_eq_of_opt. unfold has. rewrite Hfw.
        rewrite (bool_decide_eq_true_2 (is_Some (Some (a, b)))) by done.
        by destruct (bool_decide (ip0 = ip)).
      * apply Forall_app. split; [done |]. constructor; [| constructor].
        by exists ip0, times0, a, b, (clock w1 (reads w1)).
    + eexists _, _. split; [reflexivity |]. split; [| done].
      intros ip. rewrite filter_length_app, Hcount.
      cbn [List.filter fst snd]. unfold has. rewrite Hfw.
      rewrite (bool_decide_eq_false_2 (is_Some None)) by (by intros [? ?]).
      rewrite andb_false_r. simpl. lia.
  - exists evs, w'. split; [exact Hrun |]. intros ip.
    specialize (Hcount ip).
    rewrite (dict_count_key d ip has [] Hnd) in Hcount.
    unfold has in Hcount. rewrite Hget in Hcount.
    destruct (first_window (self_rapid_access_threshold self)
      (self_rapid_access_window self) (access_times ip logs)) as [[a b]|] eqn:Hfw.
    + rewrite (bool_decide_eq_true_2 (is_Some (Some (a, b)))) in Hcount by done.
      rewrite andb_true_r in Hcount.
      destruct (decide (ip ∈ d.*1)) as [Hin|Hnin].
      * rewrite bool_decide_eq_true_2 in Hcount by done.
        destruct (events_of ip evs) as [|e [|e' rest]] eqn:Hev; try done.
        assert (In e (events_of ip evs)) as He by (rewrite Hev; by left).
        unfold events_of in He. apply filter_In in He as [He Hip].
        rewrite Forall_forall in Hall.
        destruct (Hall e) as (ip' & times' & a' & b' & now & Hitem & Hfw' & ->);
          [by apply list_elem_of_In |].
        cbn [ip_address rapid_access_event] in Hip.
        rewrite py_eq_of_opt in Hip. apply bool_decide_eq_true_1 in Hip.
        subst ip'. rewrite <- (dict_get_item d ip times' [] Hnd Hitem) in Hfw'.
        rewrite Hget, Hfw in Hfw'. injection Hfw' as <- <-. by exists now.
      * exfalso. rewrite <- Hget in Hfw.
        rewrite (dict_get_absent d ip [] Hnin) in Hfw. done.
    + rewrite (bool_decide_eq_false_2 (is_Some None)) in Hcount
        by (by intros [? ?]).
      rewrite andb_false_r in Hcount. by destruct (events_of ip evs).
Qed.

End rapid.

(** ** Detectors that test a whole group once *)

Lemma for_each_pure_partial {A S : Type} (I : list A -> S -> Prop)
    (body : S -> A -> Res S) (pre xs : list A) (s s' : S) :
  I pre s ->
  (forall done x s s', x ∈ xs -> I done s -> body s x = Ok s' ->
     I (done ++ [x]) s') ->
  for_each_pure xs body s = Ok s' ->
  I (pre ++ xs) s'.
Proof.
  revert pre s.
  induction xs as [|x xs IH]; intros pre s Hinit Hstep Hrun;
    cbn [for_each_pure] in Hrun.
  - injection Hrun as <-. by rewrite app_nil_r.
  - unfold mbind, Res_bind in Hrun.
    destruct (body s x) as [s1|e] eqn:Hbody; [| done].
    replace (pre ++ x :: xs) with ((pre ++ [x]) ++ xs)
      by (by rewrite <- app_assoc).
    apply (IH _ s1); [| | done].
    + apply (Hstep pre x s s1); [by left | done | done].
    + intros done y s2 s3 Hy. apply Hstep. by right.
Qed.

(** A loop over the groups that, for each group passing a test, constructs
    one event carrying the group's key: per key, one event or none. *)
Lemma emit_loop_counts {V E : Type} (d : list (option string * V))
    (test : V -> bool) (mk : option string -> V -> Res E)
    (ip_of : E -> Value) (dflt : V) (evs : list E) :
  NoDup d.*1 ->
  (forall ip v e, (ip, v) ∈ d -> mk ip v = Ok e -> ip_of e = of_opt ip) ->
  for_each_pure d (fun acc '(ip, v) =>
    if test v then e ← mk ip v; Ok (acc ++ [e]) else Ok acc) [] = Ok evs ->
  forall ip,
    length (events_from ip_of ip evs)
    = if bool_decide (ip ∈ d.*1) && test (dict_get ip dflt d)
      then 1%nat else 0%nat.
Proof.
  intros Hnd Hip Hrun ip.
  rewrite <- (dict_count_key d ip test dflt Hnd).
  revert ip.
  match type of Hrun with
  | for_each_pure _ ?b _ = _ => set (body := b) in Hrun
  end.
  apply (for_each_pure_partial
    (fun done evs => forall ip,
       length (events_from ip_of ip evs)
       = length (List.filter (fun kv => bool_decide (kv.1 = ip) && test kv.2)
                             done))
    body [] d [] evs); [done | | exact Hrun].
  intros done [ip0 v] acc acc' Hx Hcount Hstep ip. unfold body in Hstep.
  rewrite filter_length_app, <- Hcount. cbn [List.filter fst snd].
  destruct (test v).
  - unfold mbind, Res_bind in Hstep.
    destruct (mk ip0 v) as [e|] eqn:Hmk; [| done].
    injection Hstep as <-. unfold events_from.
    rewrite filter_length_app. f_equal. cbn [List.filter].
    rewrite (Hip _ _ _ Hx Hmk), py_eq_of_opt, andb_true_r.
    by destruct (bool_decide (ip0 = ip)).
  - injection Hstep as <-. rewrite andb_false_r. simpl. lia.
Qed.

Lemma py_index_head {A : Type} (l : list A) (x : A) :
  head l = Some x -> py_index l 0 = Ok x.
Proof. rewrite head_lookup. apply (py_index_lookup l 0). Qed.

Lemma py_index_last {A : Type} (l : list A) (x : A) :
  last l = Some x -> py_index l (-1) = Ok x.
Proof.
  rewrite last_lookup. intros Hx.
  pose proof (lookup_lt_Some _ _ _ Hx) as Hlt.
  unfold py_index. cbn [Z.ltb Z.compare].
  rewrite (proj2 (Z.leb_le 0 (-1 + Z.of_nat (length l)))) by lia.
  rewrite (proj2 (Z.ltb_lt (-1 + Z.of_nat (length l)) (Z.of_nat (length l))))
    by lia.
  cbn [andb].
  replace (Z.to_nat (-1 + Z.of_nat (length l))) with (pred (length l)) by lia.
  by rewrite Hx.
Qed.

Lemma sort_by_map {A : Type} (key : A -> Z) (l : list A) :
  map key (sort_by key l) = sort_by id (map key l).
Proof.
  unfold sort_by.
  assert (forall x acc, map key (insert_by key x acc)
                        = insert_by id (key x) (map key acc)) as Hins.
  { intros x acc. induction acc as [|y acc IH]; [done |].
    cbn [insert_by map]. unfold id at 1 2.
    destruct (key x <? key y); [done |]. cbn [map]. by rewrite IH. }
  assert (forall acc,
    map key (fold_left (fun acc x => insert_by key x acc) l acc)
    = fold_left (fun acc x => insert_by id x acc) (map key l) (map key acc))
    as Hgen.
  { induction l as [|x l IH]; intros acc; [done |].
    cbn [fold_left map]. by rewrite IH, Hins. }
  apply (Hgen []).
Qed.

(** The span of a group is the time between the first and the last entry
    of the group sorted by time. *)
Lemma span_sorted {A : Type} (key : A -> Z) (l : list A) (x y : A) :
  head (sort_by key l) = Some x -> last (sort_by key l) = Some y ->
  key y - key x = span (map key l).
Proof.
  intros Hx Hy. unfold span. rewrite <- sort_by_map.
  change (map key (sort_by key l)) with (key <$> sort_by key l).
  rewrite fmap_last, Hy. 
  replace (head (key <$> sort_by key l)) with (key <$> head (sort_by key l))
    by (by destruct (sort_by key l)).
  by rewrite Hx.
Qed.

Lemma py_div_guarded (a x : Q) :
  py_div a (py_max2 x 1) = Ok (a / py_max2 x 1)%Q.
Proof.
  unfold py_div. destruct (Qeq_bool (py_max2 x 1) 0) eqn:Hz; [| done].
  apply Qeq_bool_eq in Hz. exfalso. unfold py_max2 in Hz.
  destruct (Qle_bool 1 x) eqn:Hle.
  - apply Qle_bool_imp_le in Hle. rewrite Hz in Hle. by apply Hle.
  - discriminate Hz.
Qed.

Lemma distinct_elem_of {A : Type} `{EqDecision A} (l : list A) (x : A) :
  x ∈ distinct l <-> x ∈ l.
Proof.
  induction l as [|y l IH]; [done |]. cbn [distinct].
  rewrite !elem_of_cons, list_elem_of_filter, IH.
  destruct (decide (x = y)); naive_solver.
Qed.

Lemma distinct_NoDup {A : Type} `{EqDecision A} (l : list A) :
  NoDup (distinct l).
Proof.
  induction l as [|y l IH]; cbn [distinct]; [constructor |].
  constructor.
  - rewrite list_elem_of_filter. naive_solver.
  - by apply NoDup_filter.
Qed.

Lemma distinct_size `{Countable A} (l : list A) :
  length (distinct l) = size (list_to_set l : gset A).
Proof.
  rewrite <- (size_list_to_set (C := gset A)) by apply distinct_NoDup.
  f_equal. apply set_eq. intros x.
  by rewrite !elem_of_list_to_set, distinct_elem_of.
Qed.

(** The same loop when the constructor refuses its arguments: the first
    group that passes the test ends the loop with the constructor's
    exception. *)
Lemma emit_loop_raises {V E : Type} (d : list (option string * V))
    (test : V -> bool) (mk : option string -> V -> Res E) (err : PyExn) :
  (forall ip v, (ip, v) ∈ d -> test v = true -> mk ip v = Raise err) ->
  for_each_pure d (fun acc '(ip, v) =>
    if test v then e ← mk ip v; Ok (acc ++ [e]) else Ok acc) []
  = if existsb (fun kv => test kv.2) d then Raise err else Ok [].
Proof.
  generalize (@nil E) as acc.
  induction d as [|[ip v] d IH]; intros acc Hmk; [done |].
  cbn [for_each_pure existsb snd].
  destruct (test v) eqn:Htest; cbn [orb].
  - by rewrite (Hmk ip v) by (by left || done).
  - unfold mbind, Res_bind. apply IH.
    intros ip' v' Hin. apply Hmk. by right.
Qed.

(** The same loop when the constructor accepts its arguments: it
    returns. *)
Lemma emit_loop_total {V E : Type} (d : list (option string * V))
    (test : V -> bool) (mk : option string -> V -> Res E) :
  (forall ip v, (ip, v) ∈ d -> exists e, mk ip v = Ok e) ->
  exists evs,
    for_each_pure d (fun acc '(ip, v) =>
      if test v then e ← mk ip v; Ok (acc ++ [e]) else Ok acc) [] = Ok evs.
Proof.
  intros Hmk.
  edestruct (for_each_pure_invariant (fun _ (_ : list E) => True)
               (fun acc '(ip, v) =>
                  if test v then e ← mk ip v; Ok (acc ++ [e]) else Ok acc)
               [] d []) as (evs & Hrun & _); [done | | by exists evs].
  intros done [ip v] acc Hin _. destruct (test v); [| by eexists].
  destruct (Hmk ip v Hin) as (e & ->). by eexists.
Qed.

(** Some key passes a test exactly when the key of some entry does, for a
    dictionary whose keys come from the entries. *)
Lemma some_key_passes {X V : Type} (d : list (option string * V)) (dflt : V)
    (test : V -> bool) (logs : list X) (key : X -> option string)
    (group : option string -> V) :
  NoDup d.*1 ->
  (forall ip, ip ∈ d.*1 -> exists log, log ∈ logs /\ key log = ip) ->
  (forall ip, dict_get ip dflt d = group ip) ->
  test dflt = false ->
  existsb (fun kv => test kv.2) d
  = existsb (fun log => test (group (key log))) logs.
Proof.
  intros Hnd Hkey Hget Hnil.
  apply eq_true_iff_eq. rewrite !existsb_exists. split.
  - intros ([ip v] & Hin%list_elem_of_In & Htest). cbn [snd] in Htest.
    pose proof (dict_get_item d ip v dflt Hnd Hin) as Hd. rewrite Hget in Hd.
    destruct (Hkey ip) as (log & Hlog & <-).
    { apply list_elem_of_fmap. by exists (ip, v). }
    exists log. split; [by apply list_elem_of_In |]. by rewrite Hd.
  - intros (log & Hlog & Htest).
    destruct (decide (key log ∈ d.*1)) as [Hin|Hnin].
    + apply list_elem_of_fmap in Hin as ([ip v] & Hip & Hin).
      cbn [fst] in Hip. subst ip.
      exists (key log, v). split; [by apply list_elem_of_In |]. cbn [snd].
      by rewrite <- (dict_get_item d (key log) v dflt Hnd Hin), Hget.
    + rewrite <- Hget, (dict_get_absent d (key log) dflt Hnin) in Htest.
      congruence.
Qed.

(** The same for groups of entries, none of them empty. *)
Lemma some_group_passes {X V : Type} (d : list (option string * list V))
    (test : list V -> bool) (logs : list X) (key : X -> option string)
    (group : option string -> list V) :
  NoDup d.*1 ->
  Forall (fun kv => kv.2 <> []) d ->
  (forall ip, dict_get ip [] d = group ip) ->
  (forall ip, group ip <> [] -> exists log, log ∈ logs /\ key log = ip) ->
  test [] = false ->
  existsb (fun kv => test kv.2) d
  = existsb (fun log => test (group (key log))) logs.
Proof.
  intros Hnd Hne Hget Hkey Hnil.
  apply (some_key_passes d [] test logs key group); [done | | done | done].
  intros ip ([ip' v] & Hip & Hin)%list_elem_of_fmap. cbn [fst] in Hip.
  subst ip'. apply Hkey.
  rewrite <- Hget, (dict_get_item d ip v [] Hnd Hin).
  rewrite Forall_forall in Hne. exact (Hne _ Hin).
Qed.

(** The dataclass of [cloudwatch_analyzer.py] has no field [source_ip]. *)
Lemma SecurityEvent_init_rejects_source_ip (kw : Kwargs) (v : Value) :
  kwarg kw "source_ip" = Some v -> SecurityEvent_init kw = Raise TypeError.
Proof.
  intros Hkw. unfold SecurityEvent_init, dataclass_init.
  assert (forallb (fun a : string * Value =>
            existsb (String.eqb a.1) SecurityEvent_fields.*1) kw = false)
    as ->; [| done].
  induction kw as [|[k x] kw IH]; [done |].
  cbn [kwarg] in Hkw. cbn [forallb fst].
  destruct (String.eqb k "source_ip") eqn:Hk.
  - apply String.eqb_eq in Hk. subst k. done.
  - rewrite (IH Hkw). apply andb_false_r.
Qed.

Lemma for_each_pure_ext {A S : Type} (b1 b2 : S -> A -> Res S)
    (xs : list A) (s : S) :
  (forall s x, x ∈ xs -> b1 s x = b2 s x) ->
  for_each_pure xs b1 s = for_each_pure xs b2 s.
Proof.
  revert s. induction xs as [|x xs IH]; intros s Hext; [done |].
  cbn [for_each_pure]. rewrite (Hext s x) by left.
  destruct (b2 s x) as [s'|e]; [| done].
  unfold mbind, Res_bind. apply IH. intros s0 y Hy. apply Hext. by right.
Qed.

Section whole_group.
Import LogAnalyzer (l_timestamp, l_object, l_status, l_user_agent, l_ip).
Context {E : Type}.
Variable new_event : Kwargs -> Res E.

Lemma appended_credential_stuffing_key ip (logs : list LogAnalyzer.LogEntry) :
  appended credential_stuffing_key ip logs = failures_of ip logs.
Proof.
  unfold appended, failures_of, credential_stuffing_key.
  induction logs as [|log logs IH]; [done |].
  cbn [omap list_omap List.filter]. rewrite <- IH.
  destruct (failed_auth log); cbn [andb]; [| done].
  case_decide; case_bool_decide; done.
Qed.

Lemma appended_port_scanning_key ip (logs : list LogAnalyzer.LogEntry) :
  appended port_scanning_key ip logs = accesses_of ip logs.
Proof.
  unfold appended, accesses_of, port_scanning_key.
  induction logs as [|log logs IH]; [done |].
  cbn [omap list_omap List.filter]. rewrite <- IH.
  case_decide; case_bool_decide; done.
Qed.

Lemma sorted_ends {A : Type} (key : A -> Z) (l : list A) :
  l <> [] ->
  exists x y, head (sort_by key l) = Some x /\ last (sort_by key l) = Some y.
Proof.
  intros Hne. pose proof (sort_by_length key l) as Hlen.
  destruct (sort_by key l) as [|x s] eqn:Hs.
  - destruct l; [done | discriminate Hlen].
  - exists x. destruct (last (x :: s)) as [y|] eqn:Hy; [by exists y |].
    by apply last_None in Hy.
Qed.

(** [detect_credential_stuffing] as a loop over the groups of failed
    authentications: one test per group, one constructor call (with the
    group's key as [source_ip]) for a group that passes. *)
Lemma credential_stuffing_normal_form (logs : list LogAnalyzer.LogEntry) :
  exists (d : list (option string * list LogAnalyzer.LogEntry))
         (mk : option string -> list LogAnalyzer.LogEntry -> Res E),
    NoDup d.*1 /\
    Forall (fun kv => kv.2 <> []) d /\
    (forall ip, dict_get ip [] d = failures_of ip logs) /\
    (forall ip v, (ip, v) ∈ d ->
       exists kw, mk ip v = new_event kw
                  /\ kw.*1 = event_keywords
                  /\ kwarg kw "source_ip" = Some (of_opt ip)) /\
    PatternDetector.detect_credential_stuffing_with new_event logs
    = for_each_pure d (fun acc '(ip, v) =>
        if (5 <=? Z.of_nat (length v))
           && (span (map l_timestamp v) <=? 60 * 1000000)
        then e ← mk ip v; Ok (acc ++ [e]) else Ok acc) [].
Proof.
  unfold PatternDetector.detect_credential_stuffing_with.
  set (step := fun d log =>
    if bool_decide (l_status log = Some 401)
       || bool_decide (l_status log = Some 403)
    then setdefault_append (l_ip log) log d else d).
  assert (Hstep : forall d x,
    step d x = match credential_stuffing_key x with
               | Some (k, v) => setdefault_append k v d
               | None => d
               end).
  { intros d x. unfold step, credential_stuffing_key, failed_auth.
    by destruct (_ || _). }
  set (d := fold_left step logs []).
  assert (Hnd : NoDup d.*1)
    by (apply (grouped_keys_NoDup credential_stuffing_key step Hstep);
        constructor).
  assert (Hne : Forall (fun kv => kv.2 <> []) d)
    by (apply (grouped_nonempty credential_stuffing_key step Hstep);
        constructor).
  assert (Hget : forall ip, dict_get ip [] d = failures_of ip logs).
  { intros ip. unfold d.
    rewrite (grouped_values credential_stuffing_key step Hstep).
    apply appended_credential_stuffing_key. }
  pose (kwargs := fun (ip : option string)
                      (first_failure last_failure : LogAnalyzer.LogEntry)
                      (n : nat) (attack_rate : Q) =>
    let first := l_timestamp first_failure in
    let last := l_timestamp last_failure in
    [ ("timestamp", VDatetime last);
      ("event_type", VStr "credential_stuffing");
      ("severity", VStr "high");
      ("source_ip", of_opt ip);
      ("user_agent", of_opt (l_user_agent first_failure));
      ("resource", of_opt (l_object first_failure));
      ("details", VDict [
         ("failed_attempts", VInt (Z.of_nat n));
         ("time_span", VFloat (total_seconds (last - first)));
         ("attack_rate", VFloat attack_rate)])]).
  pose (mk := fun (ip : option string) (failures : list LogAnalyzer.LogEntry) =>
    let failures := sort_by l_timestamp failures in
    first_failure ← py_index failures 0;
    last_failure ← py_index failures (-1);
    let first := l_timestamp first_failure in
    let last := l_timestamp last_failure in
    attack_rate ← py_div (inject_Z (Z.of_nat (length failures)))
                         (py_max2 (double (total_seconds (last - first))) 1);
    new_event (kwargs ip first_failure last_failure (length failures)
                      attack_rate)).
  exists d, mk. split_and!; [done | done | done | |].
  - intros ip failures Hx.
    rewrite Forall_forall in Hne. specialize (Hne _ Hx). cbn [snd] in Hne.
    destruct (sorted_ends l_timestamp failures Hne) as (x & y & Hx0 & Hy0).
    unfold mk. cbv zeta.
    rewrite (py_index_head _ _ Hx0), (py_index_last _ _ Hy0).
    unfold mbind, Res_bind. rewrite py_div_guarded.
    eexists. split_and!; reflexivity.
  - apply for_each_pure_ext. intros acc [ip failures] Hx.
    rewrite Forall_forall in Hne. specialize (Hne _ Hx). cbn [snd] in Hne.
    unfold mk, kwargs. rewrite Z.geb_leb.
    destruct (5 <=? Z.of_nat (length failures)); [| done]. cbn [andb].
    destruct (sorted_ends l_timestamp failures Hne) as (x & y & Hx0 & Hy0).
    cbv zeta. rewrite (py_index_head _ _ Hx0), (py_index_last _ _ Hy0).
    unfold mbind, Res_bind.
    rewrite within_total_seconds. unfold within. cbn [fst snd].
    rewrite (span_sorted l_timestamp failures x y Hx0 Hy0).
    destruct (span (map l_timestamp failures) <=? 60 * 1000000); [| done].
    by rewrite py_div_guarded.
Qed.

(** [detect_port_scanning] as a loop over the groups of accesses. *)
Lemma port_scanning_normal_form (logs : list LogAnalyzer.LogEntry) :
  exists (d : list (option string * list LogAnalyzer.LogEntry))
         (mk : option string -> list LogAnalyzer.LogEntry -> Res E),
    NoDup d.*1 /\
    Forall (fun kv => kv.2 <> []) d /\
    (forall ip, dict_get ip [] d = accesses_of ip logs) /\
    (forall ip v, (ip, v) ∈ d ->
       exists kw, mk ip v = new_event kw
                  /\ kw.*1 = event_keywords
                  /\ kwarg kw "source_ip" = Some (of_opt ip)) /\
    PatternDetector.detect_port_scanning_with new_event logs
    = for_each_pure d (fun acc '(ip, v) =>
        if (20 <=? Z.of_nat (size (list_to_set (map l_object v)
                                   : gset (option string))))
           && (span (map l_timestamp v) <=? 120 * 1000000)
        then e ← mk ip v; Ok (acc ++ [e]) else Ok acc) [].
Proof.
  unfold PatternDetector.detect_port_scanning_with.
  set (step := fun d log => setdefault_append (l_ip log) log d).
  assert (Hstep : forall d x,
    step d x = match port_scanning_key x with
               | Some (k, v) => setdefault_append k v d
               | None => d
               end) by done.
  set (d := fold_left step logs []).
  assert (Hnd : NoDup d.*1)
    by (apply (grouped_keys_NoDup port_scanning_key step Hstep);
        constructor).
  assert (Hne : Forall (fun kv => kv.2 <> []) d)
    by (apply (grouped_nonempty port_scanning_key step Hstep);
        constructor).
  assert (Hget : forall ip, dict_get ip [] d = accesses_of ip logs).
  { intros ip. unfold d.
    rewrite (grouped_values port_scanning_key step Hstep).
    apply appended_port_scanning_key. }
  pose (kwargs := fun (ip : option string)
                      (first_access last_access : LogAnalyzer.LogEntry)
                      (uniques n : nat) (scan_rate : Q) =>
    let first := l_timestamp first_access in
    let last := l_timestamp last_access in
    [ ("timestamp", VDatetime last);
      ("event_type", VStr "port_scanning");
      ("severity", VStr "medium");
      ("source_ip", of_opt ip);
      ("user_agent", VStr "");
      ("resource", VStr (pretty uniques +:+ " resources"));
      ("details", VDict [
         ("unique_resources", VInt (Z.of_nat uniques));
         ("total_requests", VInt (Z.of_nat n));
         ("time_span", VFloat (total_seconds (last - first)));
         ("scan_rate", VFloat scan_rate)])]).
  pose (mk := fun (ip : option string) (accesses : list LogAnalyzer.LogEntry) =>
    let accesses := sort_by l_timestamp accesses in
    let unique_resources := distinct (map l_object accesses) in
    first_access ← py_index accesses 0;
    last_access ← py_index accesses (-1);
    let first := l_timestamp first_access in
    let last := l_timestamp last_access in
    scan_rate ← py_div (inject_Z (Z.of_nat (length accesses)))
                       (py_max2 (double (total_seconds (last - first))) 1);
    new_event (kwargs ip first_access last_access (length unique_resources)
                      (length accesses) scan_rate)).
  exists d, mk. split_and!; [done | done | done | |].
  - intros ip accesses Hx.
    rewrite Forall_forall in Hne. specialize (Hne _ Hx). cbn [snd] in Hne.
    destruct (sorted_ends l_timestamp accesses Hne) as (x & y & Hx0 & Hy0).
    unfold mk. cbv zeta.
    rewrite (py_index_head _ _ Hx0), (py_index_last _ _ Hy0).
    unfold mbind, Res_bind. rewrite py_div_guarded.
    eexists. split_and!; reflexivity.
  - apply for_each_pure_ext. intros acc [ip accesses] Hx.
    rewrite Forall_forall in Hne. specialize (Hne _ Hx). cbn [snd] in Hne.
    unfold mk, kwargs. cbv zeta. rewrite Z.geb_leb, distinct_size.
    rewrite (list_to_set_perm_L
               (map l_object (sort_by l_timestamp accesses))
               (map l_object accesses))
      by (apply fmap_Permutation, sort_by_Permutation).
    destruct (20 <=? _); [| done]. cbn [andb].
    destruct (sorted_ends l_timestamp accesses Hne) as (x & y & Hx0 & Hy0).
    rewrite (py_index_head _ _ Hx0), (py_index_last _ _ Hy0).
    unfold mbind, Res_bind.
    rewrite within_total_seconds. unfold within. cbn [fst snd].
    rewrite (span_sorted l_timestamp accesses x y Hx0 Hy0).
    destruct (span (map l_timestamp accesses) <=? 120 * 1000000); [| done].
    by rewrite py_div_guarded.
Qed.

Section keeps_source_ip.
Variable ip_of : E -> Value.
Hypothesis accepts : forall kw,
  kw.*1 = event_keywords -> exists e, new_event kw = Ok e.
Hypothesis stores_ip : forall kw e,
  new_event kw = Ok e -> kwarg kw "source_ip" = Some (ip_of e).



End keeps_source_ip.

End whole_group.

(** As the module is wired, [SecurityEvent] is the dataclass of
    [cloudwatch_analyzer.py], which refuses the keyword [source_ip]: the two
    detectors return the empty list when no source IP passes the test and
    raise [TypeError] when one does. *)
Lemma credential_stuffing_as_wired (logs : list LogAnalyzer.LogEntry) :
  PatternDetector.detect_credential_stuffing logs
  = if existsb (fun log =>
                  credential_stuffing_fires (LogAnalyzer.l_ip log) logs) logs
    then Raise TypeError else Ok [].
Proof.
  unfold PatternDetector.detect_credential_stuffing.
  destruct (credential_stuffing_normal_form SecurityEvent_init logs)
    as (d & mk & Hnd & Hne & Hget & Hmk & ->).
  rewrite (emit_loop_raises d
             (fun v => (5 <=? Z.of_nat (length v))
                       && (span (map LogAnalyzer.l_timestamp v)
                           <=? 60 * 1000000))
             mk TypeError).
  - rewrite (some_group_passes d
             (fun v => (5 <=? Z.of_nat (length v))
                       && (span (map LogAnalyzer.l_timestamp v)
                           <=? 60 * 1000000))
             logs LogAnalyzer.l_ip (fun ip => failures_of ip logs));
      [reflexivity | done | done | done | | done].
    intros ip Hgroup. destruct (failures_of ip logs) as [|log r] eqn:Hf;
      [done |].
    exists log. assert (log ∈ failures_of ip logs) as Hin
      by (rewrite Hf; left).
    unfold failures_of in Hin.
    apply list_elem_of_In, filter_In in Hin as [Hin Hp].
    split; [by apply list_elem_of_In |].
    apply andb_true_iff in Hp as [_ Hip]. by apply bool_decide_eq_true in Hip.
  - intros ip v Hin _. destruct (Hmk ip v Hin) as (kw & -> & _ & Hsrc).
    by apply (SecurityEvent_init_rejects_source_ip kw (of_opt ip)).
Qed.

Lemma port_scanning_as_wired (logs : list LogAnalyzer.LogEntry) :
  PatternDetector.detect_port_scanning logs
  = if existsb (fun log =>
                  port_scanning_fires (LogAnalyzer.l_ip log) logs) logs
    then Raise TypeError else Ok [].
Proof.
  unfold PatternDetector.detect_port_scanning.
  destruct (port_scanning_normal_form SecurityEvent_init logs)
    as (d & mk & Hnd & Hne & Hget & Hmk & ->).
  rewrite (emit_loop_raises d
             (fun v => (20 <=? Z.of_nat (size (list_to_set
                                 (map LogAnalyzer.l_object v)
                               : gset (option string))))
                       && (span (map LogAnalyzer.l_timestamp v)
                           <=? 120 * 1000000))
             mk TypeError).
  - rewrite (some_group_passes d
             (fun v => (20 <=? Z.of_nat (size (list_to_set
                                 (map LogAnalyzer.l_object v)
                               : gset (option string))))
                       && (span (map LogAnalyzer.l_timestamp v)
                           <=? 120 * 1000000))
             logs LogAnalyzer.l_ip (fun ip => accesses_of ip logs));
      [reflexivity | done | done | done | | done].
    intros ip Hgroup. destruct (accesses_of ip logs) as [|log r] eqn:Hf;
      [done |].
    exists log. assert (log ∈ accesses_of ip logs) as Hin
      by (rewrite Hf; left).
    unfold accesses_of in Hin.
    apply list_elem_of_In, filter_In in Hin as [Hin Hp].
    split; [by apply list_elem_of_In |]. by apply bool_decide_eq_true in Hp.
  - intros ip v Hin _. destruct (Hmk ip v Hin) as (kw & -> & _ & Hsrc).
    by apply (SecurityEvent_init_rejects_source_ip kw (of_opt ip)).
Qed.

(** ** Claim about the sliding-window detectors *)

(** The dataclass of [log_analyzer.py] keeps the [source_ip] it is given. *)
Lemma log_analyzer_event_keeps_source_ip (kw : Kwargs)
    (e : LogAnalyzer.SecurityEvent) :
  LogAnalyzer.SecurityEvent_init kw = Ok e ->
  kwarg kw "source_ip" = Some (LogAnalyzer.source_ip e).
Proof.
  unfold LogAnalyzer.SecurityEvent_init, dataclass_init.
  destruct (forallb _ kw); [| done].
  unfold LogAnalyzer.SecurityEvent_fields.
  cbn [mapM mbind Res_bind mret Res_ret fst snd].
  unfold mbind, Res_bind.
  destruct (kwarg kw "timestamp"); [| done].
  destruct (kwarg kw "event_type"); [| done].
  destruct (kwarg kw "severity"); [| done].
  destruct (kwarg kw "source_ip"); [| done].
  destruct (kwarg kw "user_agent"); [| done].
  destruct (kwarg kw "resource"); [| done].
  destruct (kwarg kw "details"); [| done].
  destruct (kwarg kw "region"); intros [= <-]; done.
Qed.

(** It accepts the keywords of [PatternDetector]: [region] has a
    default. *)
Lemma log_analyzer_event_accepts (kw : Kwargs) :
  kw.*1 = event_keywords -> exists e, LogAnalyzer.SecurityEvent_init kw = Ok e.
Proof.
  intros Hkeys.
  do 7 (destruct kw as [|[? ?] kw]; [discriminate Hkeys |]).
  destruct kw; [| discriminate Hkeys].
  injection Hkeys as -> -> -> -> -> -> ->. by eexists.
Qed.




(** ** The dispatcher's calls *)

Section dispatcher.
Context {text : PyText} {hash : PyHash} {E : Type} {object : PyObject E}.
Variable email_system : EmailAlertSystem.Self.
Variable slack_system : SlackAlertSystem.Self.

(** X1.  The block under [if send_alerts:] of [main.analyze_logs], by the
    calls it makes.  For one event whose severity is critical or high it calls
    [send_alert] once on each alert system and no [send_batch_alert]; for
    two events whose severities are neither it calls no [send_alert] and
    [send_batch_alert] once on each alert system, with both events. *)
Theorem dispatch_calls_by_severity :
  (forall (e : E) (sev : Value) (w : World),
     getattr e "severity" = Ok sev ->
     py_in sev [VStr "critical"; VStr "high"] = true ->
     Main.dispatch email_system slack_system [e] w
     = (EmailAlertSystem.send_alert email_system e;;
        SlackAlertSystem.send_alert slack_system e;;
        mret tt) w) /\
  (forall (e1 e2 : E) (sev1 sev2 : Value) (w : World),
     getattr e1 "severity" = Ok sev1 ->
     getattr e2 "severity" = Ok sev2 ->
     py_in sev1 [VStr "critical"; VStr "high"] = false ->
     py_in sev2 [VStr "critical"; VStr "high"] = false ->
     Main.dispatch email_system slack_system [e1; e2] w
     = (EmailAlertSystem.send_batch_alert email_system [e1; e2];;
        SlackAlertSystem.send_batch_alert slack_system [e1; e2];;
        mret tt) w).
Proof.
  split.
  - intros e sev w Hsev Hin. unfold Main.dispatch.
    match goal with
    | |- context [lift ?r] => assert (r = Ok [e]) as ->
    end.
    { cbn [for_each_pure]. rewrite Hsev. unfold mbind, Res_bind.
      by rewrite Hin. }
    unfold mbind, M_bind, lift. cbn [for_each length Z.of_nat].
    unfold mbind, M_bind, mret, M_ret.
    destruct (EmailAlertSystem.send_alert email_system e w) as [[b1|x1] w1];
      [| done].
    destruct (SlackAlertSystem.send_alert slack_system e w1) as [[b2|x2] w2];
      done.
  - intros e1 e2 sev1 sev2 w Hsev1 Hsev2 Hin1 Hin2. unfold Main.dispatch.
    match goal with
    | |- context [lift ?r] => assert (r = Ok []) as ->
    end.
    { cbn [for_each_pure]. rewrite Hsev1, Hsev2. unfold mbind, Res_bind.
      by rewrite Hin1, Hin2. }
    unfold mbind, M_bind, lift. cbn [for_each length Z.of_nat].
    unfold mret, M_ret. reflexivity.
Qed.

End dispatcher.

(** The hypotheses of [dispatch_calls_by_severity] hold of the events of
    both analyzers. *)
Lemma dispatch_calls_by_severity_witness :
  (Main.dispatch (text := plain_text) email_on slack_on
     [gcp_event "critical" 0] fresh_world
   = (EmailAlertSystem.send_alert (text := plain_text) email_on
        (gcp_event "critical" 0);;
      SlackAlertSystem.send_alert (text := plain_text) slack_on
        (gcp_event "critical" 0);;
      mret tt) fresh_world) /\
  (Main.dispatch (text := plain_text) email_on slack_on
     [cw_event "medium" 0; cw_event "medium" 1] fresh_world
   = (EmailAlertSystem.send_batch_alert (text := plain_text) email_on
        [cw_event "medium" 0; cw_event "medium" 1];;
      SlackAlertSystem.send_batch_alert (text := plain_text) slack_on
        [cw_event "medium" 0; cw_event "medium" 1];;
      mret tt) fresh_world).
Proof.
  split.
  - exact (proj1 (dispatch_calls_by_severity (text := plain_text)
                    email_on slack_on)
             (gcp_event "critical" 0) (VStr "critical") fresh_world
             eq_refl eq_refl).
  - exact (proj2 (dispatch_calls_by_severity (text := plain_text)
                    email_on slack_on)
             (cw_event "medium" 0) (cw_event "medium" 1)
             (VStr "medium") (VStr "medium") fresh_world
             eq_refl eq_refl eq_refl eq_refl).
Defined.


(** ** Data exfiltration *)

Lemma transfer_of_downloads (ip : option string)
    (logs : list LogAnalyzer.LogEntry) (data : PatternDetector.Transfer) :
  fold_left (updates_under data_exfiltration_key ip) logs data
  = {| PatternDetector.t_bytes :=
         PatternDetector.t_bytes data
         + 1024 * 1024 * Z.of_nat (length (downloads_of ip logs));
       PatternDetector.t_files :=
         PatternDetector.t_files data
         + Z.of_nat (length (downloads_of ip logs));
       PatternDetector.t_timestamps :=
         PatternDetector.t_timestamps data
         ++ map LogAnalyzer.l_timestamp (downloads_of ip logs) |}.
Proof.
  revert data. induction logs as [|log logs IH]; intros data.
  - cbn [fold_left downloads_of List.filter length map Z.of_nat].
    rewrite Z.mul_0_r, !Z.add_0_r, app_nil_r. by destruct data.
  - cbn [fold_left]. rewrite IH. clear IH.
    unfold updates_under, data_exfiltration_key, downloads_of.
    cbn [List.filter].
    destruct (successful_download log); cbn [andb]; [| done].
    destruct (decide (LogAnalyzer.l_ip log = ip)) as [Hip|Hip].
    + rewrite (bool_decide_eq_true_2 _ Hip).
      cbn [PatternDetector.t_bytes PatternDetector.t_files
           PatternDetector.t_timestamps length map].
      rewrite <- app_assoc. f_equal; lia.
    + by rewrite (bool_decide_eq_false_2 _ Hip).
Qed.

(** The threshold test on the size in megabytes is a test on the count. *)
Lemma exfiltration_test_bytes (bytes : Z) :
  Qle_bool (inject_Z 100) (inject_Z bytes / inject_Z (1024 * 1024))
  = (100 * (1024 * 1024) <=? bytes).
Proof.
  change (1024 * 1024) with 1048576.
  unfold Qle_bool, Qdiv, Qmult, Qinv, inject_Z. cbn [Qnum Qden].
  change (Z.pos (1 * 1048576)) with 1048576.
  apply eq_true_iff_eq. rewrite !Z.leb_le. lia.
Qed.

Section exfiltration.
Import LogAnalyzer (l_timestamp, l_object, l_status, l_method, l_ip).
Import PatternDetector (t_bytes, t_files, t_timestamps).
Context {E : Type}.
Variable new_event : Kwargs -> Res E.

(** [detect_data_exfiltration] as a loop over the source IPs with a
    successful GET: one test per IP, one constructor call (with the IP as
    [source_ip]) for an IP that passes. *)
Lemma data_exfiltration_normal_form (logs : list LogAnalyzer.LogEntry) :
  exists (d : list (option string * PatternDetector.Transfer))
         (mk : option string -> PatternDetector.Transfer -> Res E),
    NoDup d.*1 /\
    (forall ip, ip ∈ d.*1 -> exists log, log ∈ logs /\ l_ip log = ip) /\
    (forall ip,
       dict_get ip {| t_bytes := 0; t_files := 0; t_timestamps := [] |} d
       = {| t_bytes := estimated_bytes ip logs;
            t_files := Z.of_nat (length (downloads_of ip logs));
            t_timestamps := map l_timestamp (downloads_of ip logs) |}) /\
    (forall ip v, (ip, v) ∈ d ->
       exists kw, mk ip v = new_event kw
                  /\ kw.*1 = event_keywords
                  /\ kwarg kw "source_ip" = Some (of_opt ip)) /\
    PatternDetector.detect_data_exfiltration_with new_event logs
    = for_each_pure d (fun acc '(ip, data) =>
        if 100 * (1024 * 1024) <=? t_bytes data
        then e ← mk ip data; Ok (acc ++ [e]) else Ok acc) [].
Proof.
  unfold PatternDetector.detect_data_exfiltration_with.
  set (dflt := {| t_bytes := 0; t_files := 0; t_timestamps := [] |}).
  set (step := fun d log =>
    if bool_decide (l_method log = Some "GET")
       && bool_decide (l_status log = Some 200)
    then
      let estimated_size := 1024 * 1024 in
      dict_update (l_ip log) dflt
        (fun data =>
           {| t_bytes := t_bytes data + estimated_size;
              t_files := t_files data + 1;
              t_timestamps := t_timestamps data ++ [l_timestamp log] |}) d
    else d).
  assert (Hstep : forall d x,
    step d x = match data_exfiltration_key x with
               | Some (k, u) => dict_update k dflt u d
               | None => d
               end).
  { intros d x. unfold step, data_exfiltration_key, successful_download.
    by destruct (_ && _). }
  set (d := fold_left step logs []).
  assert (Hnd : NoDup d.*1)
    by (apply (updated_keys_NoDup dflt data_exfiltration_key step Hstep);
        constructor).
  assert (Hget : forall ip,
    dict_get ip dflt d
    = {| t_bytes := estimated_bytes ip logs;
         t_files := Z.of_nat (length (downloads_of ip logs));
         t_timestamps := map l_timestamp (downloads_of ip logs) |}).
  { intros ip. unfold d.
    rewrite (updated_value dflt data_exfiltration_key step Hstep).
    rewrite transfer_of_downloads. by cbn. }
  assert (Hkeys : forall ip, ip ∈ d.*1 ->
    exists log, log ∈ downloads_of ip logs).
  { intros ip Hin. unfold d in Hin.
    apply (updated_keys dflt data_exfiltration_key step Hstep) in Hin
      as [Hin|(log & u & Hlog & Hg)]; [by apply elem_of_nil in Hin |].
    exists log. unfold downloads_of. apply list_elem_of_In, filter_In.
    split; [by apply list_elem_of_In |].
    unfold data_exfiltration_key in Hg.
    destruct (successful_download log); [| done].
    injection Hg as Hip _. by rewrite (bool_decide_eq_true_2 _ Hip). }
  pose (kwargs := fun (ip : option string) (data : PatternDetector.Transfer)
                      (size_mb : Q) (first last : Z) (rate : Q) =>
    [ ("timestamp", VDatetime last);
      ("event_type", VStr "data_exfiltration");
      ("severity", VStr "critical");
      ("source_ip", of_opt ip);
      ("user_agent", VStr "");
      ("resource", VStr (pretty (t_files data) +:+ " files"));
      ("details", VDict [
         ("total_size_mb", VFloat (py_round2 size_mb));
         ("file_count", VInt (t_files data));
         ("duration_seconds", VFloat (total_seconds (last - first)));
         ("transfer_rate_mbps", VFloat (py_round2 rate))])]).
  pose (mk := fun (ip : option string) (data : PatternDetector.Transfer) =>
    let size_mb := (inject_Z (t_bytes data) / inject_Z (1024 * 1024))%Q in
    first ← py_min (t_timestamps data);
    last ← py_max (t_timestamps data);
    rate ← py_div size_mb (py_max2 (double (total_seconds (last - first))) 1);
    new_event (kwargs ip data size_mb first last rate)).
  exists d, mk. split_and!; [done | | done | |].
  - intros ip Hin. destruct (Hkeys ip Hin) as (log & Hlog).
    exists log. unfold downloads_of in Hlog.
    apply list_elem_of_In, filter_In in Hlog as [Hlog Hp].
    split; [by apply list_elem_of_In |].
    apply andb_true_iff in Hp as [_ Hip]. by apply bool_decide_eq_true in Hip.
  - intros ip data Hx.
    assert (ip ∈ d.*1) as Hin
      by (apply list_elem_of_fmap; by exists (ip, data)).
    destruct (Hkeys ip Hin) as (log & Hlog).
    pose proof (dict_get_item d ip data dflt Hnd Hx) as Hd.
    rewrite Hget in Hd. subst data.
    unfold mk. cbv zeta. cbn [t_timestamps].
    destruct (downloads_of ip logs) as [|x r]; [by apply elem_of_nil in Hlog |].
    cbn [map py_min py_max]. unfold mbind, Res_bind.
    rewrite py_div_guarded. eexists. split_and!; reflexivity.
  - apply for_each_pure_ext. intros acc [ip data] Hx.
    unfold mk, kwargs. cbv zeta.
    change (py_div (inject_Z (t_bytes data)) (inject_Z (1024 * 1024)))
      with (Ok (inject_Z (t_bytes data) / inject_Z (1024 * 1024))%Q).
    unfold mbind at 1. unfold Res_bind at 1.
    change (inject_Z 100) with (inject_Z 100).
    rewrite exfiltration_test_bytes.
    destruct (100 * (1024 * 1024) <=? t_bytes data); [| done].
    destruct (py_min (t_timestamps data)) as [first|]; [| done].
    destruct (py_max (t_timestamps data)) as [last|]; [| done].
    unfold mbind, Res_bind. by rewrite py_div_guarded.
Qed.

Section keeps_source_ip.
Variable ip_of : E -> Value.
Hypothesis accepts : forall kw,
  kw.*1 = event_keywords -> exists e, new_event kw = Ok e.
Hypothesis stores_ip : forall kw e,
  new_event kw = Ok e -> kwarg kw "source_ip" = Some (ip_of e).

Lemma data_exfiltration_counts (logs : list LogAnalyzer.LogEntry) :
  exists evs,
    PatternDetector.detect_data_exfiltration_with new_event logs = Ok evs /\
    forall ip,
      length (events_from ip_of ip evs)
      = if data_exfiltration_fires ip logs then 1%nat else 0%nat.
Proof.
  destruct (data_exfiltration_normal_form logs)
    as (d & mk & Hnd & Hkeys & Hget & Hmk & ->).
  destruct (emit_loop_total d
              (fun data => 100 * (1024 * 1024) <=? t_bytes data) mk)
    as (evs & Hrun).
  { intros ip v Hin. destruct (Hmk ip v Hin) as (kw & -> & Hkw & _).
    by apply accepts. }
  exists evs. split; [exact Hrun |]. intros ip.
  rewrite (emit_loop_counts d
             (fun data => 100 * (1024 * 1024) <=? t_bytes data)
             mk ip_of {| t_bytes := 0; t_files := 0; t_timestamps := [] |}
             evs Hnd); [| | exact Hrun].
  - rewrite Hget. cbn [t_bytes]. unfold data_exfiltration_fires.
    destruct (100 * (1024 * 1024) <=? estimated_bytes ip logs) eqn:Hfires;
      [| by rewrite andb_false_r].
    rewrite bool_decide_eq_true_2; [done |].
    destruct (decide (ip ∈ d.*1)) as [|Hnin]; [done |].
    pose proof (Hget ip) as Hd. rewrite (dict_get_absent d ip _ Hnin) in Hd.
    injection Hd as Hbytes _ _. rewrite <- Hbytes in Hfires. done.
  - intros ip0 v e Hin He.
    destruct (Hmk ip0 v Hin) as (kw & Hkw & _ & Hsrc).
    rewrite Hkw in He. apply stores_ip in He. congruence.
Qed.

End keeps_source_ip.

End exfiltration.

Lemma data_exfiltration_as_wired (logs : list LogAnalyzer.LogEntry) :
  PatternDetector.detect_data_exfiltration logs
  = if existsb (fun log =>
                  data_exfiltration_fires (LogAnalyzer.l_ip log) logs) logs
    then Raise TypeError else Ok [].
Proof.
  unfold PatternDetector.detect_data_exfiltration.
  destruct (data_exfiltration_normal_form SecurityEvent_init logs)
    as (d & mk & Hnd & Hkeys & Hget & Hmk & ->).
  rewrite (emit_loop_raises d
             (fun data => 100 * (1024 * 1024) <=? PatternDetector.t_bytes data)
             mk TypeError).
  - rewrite (some_key_passes d
               {| PatternDetector.t_bytes := 0; PatternDetector.t_files := 0;
                  PatternDetector.t_timestamps := [] |}
               (fun data => 100 * (1024 * 1024)
                            <=? PatternDetector.t_bytes data)
               logs LogAnalyzer.l_ip
               (fun ip =>
                  {| PatternDetector.t_bytes := estimated_bytes ip logs;
                     PatternDetector.t_files :=
                       Z.of_nat (length (downloads_of ip logs));
                     PatternDetector.t_timestamps :=
                       map LogAnalyzer.l_timestamp (downloads_of ip logs) |}));
      [reflexivity | done | done | done | done].
  - intros ip v Hin _. destruct (Hmk ip v Hin) as (kw & -> & _ & Hsrc).
    by apply (SecurityEvent_init_rejects_source_ip kw (of_opt ip)).
Qed.

(** X3.  The condition of [detect_data_exfiltration].  The detector estimates
    one mebibyte for each successful GET (method GET, status 200) and makes
    one test per source IP: at least 100 mebibytes estimated, that is at
    least 100 successful GETs.  With the name [SecurityEvent] bound to a
    class that accepts the keywords of the call and keeps the [source_ip]
    it is given, it returns one event for each source IP that passes the
    test and none for the others.  As the module is wired (the dataclass of
    [cloudwatch_analyzer.py]), it returns the empty list when no source IP
    passes and raises [TypeError] when one does. *)
Theorem data_exfiltration_condition :
  (forall (E : Type) (new_event : Kwargs -> Res E) (ip_of : E -> Value),
     (forall kw, kw.*1 = event_keywords -> exists e, new_event kw = Ok e) ->
     (forall kw e, new_event kw = Ok e ->
                   kwarg kw "source_ip" = Some (ip_of e)) ->
     forall logs : list LogAnalyzer.LogEntry,
       exists evs,
         PatternDetector.detect_data_exfiltration_with new_event logs
         = Ok evs /\
         forall ip,
           length (events_from ip_of ip evs)
           = if data_exfiltration_fires ip logs then 1%nat else 0%nat) /\
  (forall logs : list LogAnalyzer.LogEntry,
     PatternDetector.detect_data_exfiltration logs
     = if existsb (fun log => data_exfiltration_fires
                                (LogAnalyzer.l_ip log) logs) logs
       then Raise TypeError else Ok []) /\
  (forall (ip : option string) (logs : list LogAnalyzer.LogEntry),
     data_exfiltration_fires ip logs
     = (100 <=? Z.of_nat (length (downloads_of ip logs)))).
Proof.
  split_and!.
  - intros E new_event ip_of Haccepts Hkeeps logs.
    by apply (data_exfiltration_counts new_event ip_of).
  - apply data_exfiltration_as_wired.
  - intros ip logs. unfold data_exfiltration_fires, estimated_bytes.
    apply eq_true_iff_eq. rewrite !Z.leb_le. lia.
Qed.

Lemma data_exfiltration_condition_witness :
  exists evs,
    PatternDetector.detect_data_exfiltration_with
      LogAnalyzer.SecurityEvent_init
      (replicate 100 (gcp_entry 0 "credentials.csv" 200)) = Ok evs /\
    forall ip,
      length (events_from LogAnalyzer.source_ip ip evs)
      = if data_exfiltration_fires ip
             (replicate 100 (gcp_entry 0 "credentials.csv" 200))
        then 1%nat else 0%nat.
Proof.
  exact (proj1 data_exfiltration_condition
           _ LogAnalyzer.SecurityEvent_init LogAnalyzer.source_ip
           log_analyzer_event_accepts log_analyzer_event_keeps_source_ip
           (replicate 100 (gcp_entry 0 "credentials.csv" 200))).
Defined.

(** ** What a pass leaves as it was *)

Section preserving.
Variable I : World -> Prop.

Lemma preserves_ret {A : Type} (a : A) : preserves I (mret a).
Proof. by intros w. Qed.

Lemma preserves_lift {A : Type} (r : Res A) : preserves I (lift r).
Proof. by intros w. Qed.

Lemma preserves_bind {A B : Type} (m : M A) (f : A -> M B) :
  preserves I m -> (forall a, preserves I (f a)) -> preserves I (m ≫= f).
Proof.
  intros Hm Hf w Hw. specialize (Hm w Hw). unfold mbind, M_bind.
  destruct (m w) as [[a|e] w1]; cbn [snd] in *; [| done].
  by apply Hf.
Qed.

Lemma preserves_try_except {A : Type} (body : M A) (handler : PyExn -> M A) :
  preserves I body -> (forall e, preserves I (handler e)) ->
  preserves I (try_except body handler).
Proof.
  intros Hm Hh w Hw. specialize (Hm w Hw). unfold try_except.
  destruct (body w) as [[a|e] w1]; cbn [snd] in *; [done |].
  by apply Hh.
Qed.

Lemma preserves_for_each {A S : Type} (xs : list A) (body : S -> A -> M S)
    (s : S) :
  (forall s x, x ∈ xs -> preserves I (body s x)) ->
  preserves I (for_each xs body s).
Proof.
  revert s. induction xs as [|x xs IH]; intros s Hbody.
  - apply preserves_ret.
  - cbn [for_each]. apply preserves_bind; [apply Hbody; by left |].
    intros s'. apply IH. intros s0 y Hy. apply Hbody. by right.
Qed.

End preserving.

Lemma keeps_preserves {A X : Type} (component : World -> X) (m : M A) :
  (forall x, preserves (fun w => component w = x) m) -> keeps component m.
Proof. intros Hm w. by apply (Hm (component w) w). Qed.

Lemma put_item_preserves_outbox (item : Item) (o : list Delivery) :
  preserves (fun w => outbox w = o) (put_item item).
Proof. intros w Hw. unfold put_item. by destruct (table_up w). Qed.

Lemma put_item_preserves_unreachable (item : Item) (t : gmap string Item) :
  preserves (fun w => table_up w = false /\ table w = t) (put_item item).
Proof. intros w [Hup Ht]. unfold put_item. by rewrite Hup. Qed.

Section analysis_keeps.
Context {text : PyText} {hash : PyHash}.
Variable I : World -> Prop.
Hypothesis I_clock_free : clock_free I.

Lemma cloudwatch_scan_preserves self ip times indices events :
  preserves I (CloudWatchAnalyzer.scan_windows self ip times indices events).
Proof.
  induction indices as [|i rest IH]; cbn [CloudWatchAnalyzer.scan_windows].
  - apply preserves_ret.
  - apply preserves_bind; [apply preserves_lift |]. intros a.
    apply preserves_bind; [apply preserves_lift |]. intros b.
    destruct (Qle_bool _ _); [| exact IH].
    apply preserves_bind; [exact I_clock_free |]. intros now.
    apply preserves_ret.
Qed.

Lemma lambda_scan_preserves self ip times indices events :
  preserves I (LambdaFunction.scan_windows self ip times indices events).
Proof.
  induction indices as [|i rest IH]; cbn [LambdaFunction.scan_windows].
  - apply preserves_ret.
  - apply preserves_bind; [apply preserves_lift |]. intros a.
    apply preserves_bind; [apply preserves_lift |]. intros b.
    destruct (Qle_bool _ _); [| exact IH].
    apply preserves_bind; [exact I_clock_free |]. intros now.
    apply preserves_ret.
Qed.

(** The detectors touch nothing but the clock. *)
Lemma cloudwatch_detectors_preserve self logs :
  preserves I (CloudWatchAnalyzer.detect_bulk_downloads self logs) /\
  preserves I (CloudWatchAnalyzer.detect_rapid_access self logs) /\
  preserves I (CloudWatchAnalyzer.detect_abnormal_hours_access self logs) /\
  preserves I (CloudWatchAnalyzer.detect_geolocation_anomaly self logs).
Proof.
  split_and!.
  - unfold CloudWatchAnalyzer.detect_bulk_downloads.
    apply preserves_for_each. intros evs [ip downloads] _.
    destruct (_ >=? _); [| apply preserves_ret].
    apply preserves_bind; [exact I_clock_free |]. intros now.
    apply preserves_bind; [apply preserves_lift |]. intros first.
    apply preserves_ret.
  - unfold CloudWatchAnalyzer.detect_rapid_access.
    apply preserves_for_each. intros evs [ip times] _. cbv zeta.
    apply cloudwatch_scan_preserves.
  - unfold CloudWatchAnalyzer.detect_abnormal_hours_access.
    apply preserves_for_each. intros evs log _.
    destruct (CloudWatchAnalyzer.l_timestamp log); [| apply preserves_ret].
    destruct (_ && _); apply preserves_ret.
  - unfold CloudWatchAnalyzer.detect_geolocation_anomaly.
    apply preserves_for_each. intros evs log _.
    apply preserves_bind; [apply preserves_lift |]. intros ua.
    destruct (existsb _ _); [| apply preserves_ret].
    apply preserves_bind; [exact I_clock_free |]. intros now.
    apply preserves_ret.
Qed.

Lemma lambda_detectors_preserve self logs :
  preserves I (LambdaFunction.detect_bulk_downloads self logs) /\
  preserves I (LambdaFunction.detect_rapid_access self logs) /\
  preserves I (LambdaFunction.detect_abnormal_hours self logs) /\
  preserves I (LambdaFunction.detect_suspicious_user_agents self logs) /\
  preserves I (LambdaFunction.detect_failed_access_attempts self logs).
Proof.
  split_and!.
  - unfold LambdaFunction.detect_bulk_downloads.
    apply preserves_for_each. intros evs [ip files] _.
    destruct (_ >=? _); [| apply preserves_ret].
    apply preserves_bind; [exact I_clock_free |]. intros now.
    apply preserves_ret.
  - unfold LambdaFunction.detect_rapid_access.
    apply preserves_for_each. intros evs [ip times] _. cbv zeta.
    apply lambda_scan_preserves.
  - unfold LambdaFunction.detect_abnormal_hours.
    apply preserves_for_each. intros evs [ip access_logs] _.
    destruct (_ >=? _); [| apply preserves_ret].
    apply preserves_bind; [exact I_clock_free |]. intros now.
    apply preserves_ret.
  - unfold LambdaFunction.detect_suspicious_user_agents.
    apply preserves_for_each. intros evs [ip sus_logs] _.
    apply preserves_bind; [exact I_clock_free |]. intros now.
    apply preserves_bind; [apply preserves_lift |]. intros first.
    apply preserves_ret.
  - unfold LambdaFunction.detect_failed_access_attempts.
    apply preserves_for_each. intros evs [ip failure_logs] _.
    destruct (_ >=? _); [| apply preserves_ret].
    apply preserves_bind; [exact I_clock_free |]. intros now.
    apply preserves_ret.
Qed.

(** A pass keeps what its detectors and every [put_item] keep. *)
Hypothesis I_put_item : forall item, preserves I (put_item item).

Lemma cloudwatch_store_preserves event :
  preserves I (CloudWatchAnalyzer.store_event_in_dynamodb event).
Proof.
  unfold CloudWatchAnalyzer.store_event_in_dynamodb.
  apply preserves_try_except; [| intros e; apply preserves_ret].
  apply preserves_bind; [apply preserves_lift |]. intros item.
  apply I_put_item.
Qed.

Lemma lambda_store_preserves event :
  preserves I (LambdaFunction.store_event_in_dynamodb event).
Proof.
  unfold LambdaFunction.store_event_in_dynamodb.
  apply preserves_try_except; [| intros e; apply preserves_ret].
  apply preserves_bind; [exact I_clock_free |]. intros now.
  apply preserves_bind; [apply preserves_lift |]. intros item.
  apply preserves_bind; [apply I_put_item |]. intros _.
  apply preserves_ret.
Qed.

Lemma cloudwatch_analysis_preserves self logs :
  preserves I (CloudWatchAnalyzer.analyze_logs self logs).
Proof.
  unfold CloudWatchAnalyzer.analyze_logs.
  destruct logs as [|log logs]; [apply preserves_ret |].
  destruct (cloudwatch_detectors_preserve self (log :: logs))
    as (Hb & Hr & Ha & Hg).
  apply preserves_bind; [exact Hb |]. intros bulk.
  apply preserves_bind; [exact Hr |]. intros rapid.
  apply preserves_bind; [exact Ha |]. intros abnormal.
  apply preserves_bind; [exact Hg |]. intros agents.
  apply preserves_bind; [| intros _; apply preserves_ret].
  apply preserves_for_each. intros _ [name events] _.
  apply preserves_for_each. intros _ event _.
  apply cloudwatch_store_preserves.
Qed.

Lemma lambda_analysis_preserves self logs :
  preserves I (LambdaFunction.analyze_logs self logs).
Proof.
  unfold LambdaFunction.analyze_logs.
  destruct logs as [|log logs]; [apply preserves_ret |].
  destruct (lambda_detectors_preserve self (log :: logs))
    as (Hb & Hr & Ha & Hg & Hf).
  apply preserves_bind; [exact Hb |]. intros bulk.
  apply preserves_bind; [exact Hr |]. intros rapid.
  apply preserves_bind; [exact Ha |]. intros abnormal.
  apply preserves_bind; [exact Hg |]. intros agents.
  apply preserves_bind; [exact Hf |]. intros failed.
  apply preserves_bind; [| intros _; apply preserves_ret].
  apply preserves_for_each. intros total [name events] _.
  apply preserves_for_each. intros total' event _.
  apply preserves_bind; [apply lambda_store_preserves |]. intros stored.
  apply preserves_ret.
Qed.

End analysis_keeps.

Lemma outbox_clock_free (o : list Delivery) :
  clock_free (fun w => outbox w = o).
Proof. by intros w. Qed.

Lemma table_clock_free (t : gmap string Item) :
  clock_free (fun w => table w = t).
Proof. by intros w. Qed.

Lemma unreachable_clock_free (t : gmap string Item) :
  clock_free (fun w => table_up w = false /\ table w = t).
Proof. by intros w. Qed.

Section alerts_keep.
Context {text : PyText} {hash : PyHash}.

(** The alert systems read [event.source_ip], which an event of the
    CloudWatch analyzer does not have: whatever the event holds, the
    e-mail and the Slack alert for it hand nothing over. *)
Lemma email_alert_keeps_outbox (self : EmailAlertSystem.Self)
    (event : SecurityEvent) (w : World) :
  outbox (EmailAlertSystem.send_alert self event w).2 = outbox w.
Proof.
  unfold EmailAlertSystem.send_alert.
  destruct (negb _).
  { unfold mbind, M_bind, lift. by destruct (getattr event "event_type"). }
  unfold try_except.
  unfold mbind at 1. unfold M_bind at 1. unfold lift at 1.
  match goal with
  | |- context [match ?r with Ok _ => _ | Raise _ => _ end] =>
      destruct r as [subject|]; [| done]
  end.
  unfold EmailAlertSystem.format_event_html.
  unfold mbind at 1. unfold M_bind at 1.
  unfold mbind at 1. unfold M_bind at 1. unfold lift at 1.
  destruct (getattr event "severity") as [sev|]; [| done].
  unfold mbind at 1. unfold M_bind at 1. unfold lift at 1.
  unfold mbind at 1. unfold Res_bind at 1.
  destruct (event_title event) as [ttl|]; done.
Qed.

Lemma slack_alert_keeps_outbox (self : SlackAlertSystem.Self)
    (event : SecurityEvent) (w : World) :
  outbox (SlackAlertSystem.send_alert self event w).2 = outbox w.
Proof.
  unfold SlackAlertSystem.send_alert.
  destruct (negb _).
  { unfold mbind, M_bind, lift. by destruct (getattr event "event_type"). }
  unfold try_except. unfold SlackAlertSystem.format_event_slack.
  unfold mbind at 1. unfold M_bind at 1.
  unfold mbind at 1. unfold M_bind at 1. unfold lift at 1.
  change (getattr event "severity") with (Ok (A := Value) (severity event)).
  unfold mbind at 1 2 3. unfold Res_bind at 1 2 3.
  destruct (str_method upper (severity event)) as [up|]; [| done].
  unfold mbind at 1. unfold Res_bind at 1.
  destruct (event_title event) as [ttl|]; done.
Qed.

(** A summary of events of the CloudWatch analyzer is never handed over
    either. *)
Lemma email_batch_keeps_outbox (self : EmailAlertSystem.Self)
    (events : list SecurityEvent) (w : World) :
  outbox (EmailAlertSystem.send_batch_alert self events w).2 = outbox w.
Proof.
  unfold EmailAlertSystem.send_batch_alert.
  destruct (_ || _) eqn:Hoff; [done |].
  destruct events as [|event events].
  { apply orb_false_iff in Hoff as [_ Hlen]. by vm_compute in Hlen. }
  unfold mbind at 1. unfold M_bind at 1. unfold lift at 1.
  match goal with
  | |- context [match ?r with Ok _ => _ | Raise _ => _ end] =>
      destruct r as [by_severity|]; [| done]
  end.
  unfold mbind at 1. unfold M_bind at 1. unfold lift at 1.
  cbn [take for_each_pure].
  unfold mbind at 1 2. unfold Res_bind at 1 2.
  destruct (event_title event) as [ttl|]; done.
Qed.

Lemma slack_batch_keeps_outbox (self : SlackAlertSystem.Self)
    (events : list SecurityEvent) (w : World) :
  outbox (SlackAlertSystem.send_batch_alert self events w).2 = outbox w.
Proof.
  unfold SlackAlertSystem.send_batch_alert.
  destruct (_ || _) eqn:Hoff; [done |].
  destruct events as [|event events].
  { apply orb_false_iff in Hoff as [_ Hlen]. by vm_compute in Hlen. }
  unfold mbind at 1. unfold M_bind at 1. unfold lift at 1.
  match goal with
  | |- context [match ?r with Ok _ => _ | Raise _ => _ end] =>
      destruct r as [severity_counts|]; [| done]
  end.
  unfold mbind at 1. unfold M_bind at 1. unfold lift at 1.
  cbn [take for_each_pure].
  change (getattr event "severity") with (Ok (A := Value) (severity event)).
  unfold mbind at 1 2 3. unfold Res_bind at 1 2 3.
  destruct (event_title event) as [ttl|]; done.
Qed.

Lemma dispatch_preserves_outbox (email_system : EmailAlertSystem.Self)
    (slack_system : SlackAlertSystem.Self) (events : list SecurityEvent)
    (o : list Delivery) :
  preserves (fun w => outbox w = o)
    (Main.dispatch email_system slack_system events).
Proof.
  unfold Main.dispatch.
  apply preserves_bind; [apply preserves_lift |]. intros immediate_alerts.
  apply preserves_bind.
  - apply preserves_for_each. intros _ event _.
    apply preserves_bind.
    { intros w <-. apply email_alert_keeps_outbox. } intros _.
    apply preserves_bind.
    { intros w <-. apply slack_alert_keeps_outbox. } intros _.
    apply preserves_ret.
  - intros _. destruct (_ >? _); [| apply preserves_ret].
    apply preserves_bind.
    { intros w <-. apply email_batch_keeps_outbox. } intros _.
    apply preserves_bind.
    { intros w <-. apply slack_batch_keeps_outbox. } intros _.
    apply preserves_ret.
Qed.

End alerts_keep.

(** ** No alert for the events of the CloudWatch analyzer *)

Lemma try_except_returns {A : Type} (body : M A) (a : A) (w : World) :
  exists b w', try_except body (fun _ => mret a) w = (Ok b, w').
Proof.
  unfold try_except. destruct (body w) as [[b|e] w']; by eexists _, _.
Qed.

Section never_alerts.
Context {text : PyText} {hash : PyHash}.

Lemma email_alert_returns (self : EmailAlertSystem.Self)
    (event : SecurityEvent) (w : World) :
  exists b w', EmailAlertSystem.send_alert self event w = (Ok b, w').
Proof.
  unfold EmailAlertSystem.send_alert.
  destruct (negb _); [by eexists _, _ | apply try_except_returns].
Qed.

Lemma slack_alert_returns (self : SlackAlertSystem.Self)
    (event : SecurityEvent) (w : World) :
  exists b w', SlackAlertSystem.send_alert self event w = (Ok b, w').
Proof.
  unfold SlackAlertSystem.send_alert.
  destruct (negb _); [by eexists _, _ | apply try_except_returns].
Qed.

Lemma email_batch_raises (self : EmailAlertSystem.Self)
    (events : list SecurityEvent) (w : World) :
  EmailAlertSystem.self_enabled self = true -> events <> [] ->
  EmailAlertSystem.send_batch_alert self events w = (Raise AttributeError, w).
Proof.
  intros Hon Hne. unfold EmailAlertSystem.send_batch_alert.
  rewrite Hon. destruct events as [|event events]; [done |].
  cbn [negb orb length]. rewrite bool_decide_eq_false_2 by done.
  assert (forall (evs : list SecurityEvent) d, exists d',
    for_each_pure evs (fun d event =>
      sev ← getattr event "severity";
      Ok (dict_update (py_str sev) 0 Z.succ d)) d = Ok d') as Hcounts.
  { induction evs as [|e evs IH]; intros d; [by eexists |].
    cbn [for_each_pure]. apply IH. }
  destruct (Hcounts (event :: events) []) as (d' & ->).
  unfold mbind at 1. unfold M_bind at 1. unfold lift at 1.
  unfold mbind at 1. unfold M_bind at 1. unfold lift at 1.
  cbn [take for_each_pure].
  unfold mbind at 1 2. unfold Res_bind at 1 2.
  unfold event_title, str_method.
  change (getattr event "event_type") with (Ok (A := Value) (event_type event)).
  unfold mbind at 1. unfold Res_bind at 1.
  destruct (event_type event); done.
Qed.

(** X4.  [main.analyze_logs] never hands a message to a transport: the
    events of the CloudWatch analyzer have no attribute [source_ip], which
    every alert reads before it sends.  With alerts requested and the
    e-mail system configured, a pass that detects two events or more ends
    in the [AttributeError] of the e-mail summary. *)
Theorem main_never_alerts (analyzer : CloudWatchAnalyzer.Self)
    (email_system : EmailAlertSystem.Self)
    (slack_system : SlackAlertSystem.Self)
    (logs : list CloudWatchAnalyzer.LogEntry) (send_alerts : bool) :
  keeps outbox
    (Main.analyze_logs analyzer email_system slack_system logs send_alerts) /\
  (forall (w w1 : World) (events : list (string * list SecurityEvent)),
     CloudWatchAnalyzer.analyze_logs analyzer logs w = (Ok events, w1) ->
     (2 <= length (flat_map snd events))%nat ->
     EmailAlertSystem.self_enabled email_system = true ->
     send_alerts = true ->
     exists w2,
       Main.analyze_logs analyzer email_system slack_system logs send_alerts w
       = (Raise AttributeError, w2)).
Proof.
  split.
  - apply keeps_preserves. intros o. unfold Main.analyze_logs.
    apply preserves_bind.
    { apply cloudwatch_analysis_preserves;
        [apply outbox_clock_free | intros item; apply put_item_preserves_outbox]. }
    intros events. destruct (flat_map snd events); [apply preserves_ret |].
    destruct send_alerts; [apply dispatch_preserves_outbox | apply preserves_ret].
  - intros w w1 events Hrun Hlen Hon ->. unfold Main.analyze_logs.
    unfold mbind at 1. unfold M_bind at 1. rewrite Hrun.
    destruct (flat_map snd events) as [|e1 rest] eqn:Hall;
      [cbn in Hlen; lia |].
    unfold Main.dispatch.
    assert (forall (evs acc : list SecurityEvent), exists immediate,
      for_each_pure evs
        (fun acc e =>
           sev ← getattr e "severity";
           Ok (if py_in sev [VStr "critical"; VStr "high"]
               then acc ++ [e] else acc)) acc = Ok immediate) as Himm.
    { induction evs as [|e evs IH]; intros acc; [by eexists |].
      cbn [for_each_pure]. apply IH. }
    destruct (Himm (e1 :: rest) []) as (immediate & ->).
    unfold mbind at 1. unfold M_bind at 1. unfold lift at 1.
    destruct (for_each_total
                (fun (_ : unit) event =>
                   EmailAlertSystem.send_alert email_system event;;
                   SlackAlertSystem.send_alert slack_system event;;
                   mret tt) immediate tt w1) as ([] & w2 & Hsent).
    { intros [] event w0.
      destruct (email_alert_returns email_system event w0) as (b1 & w3 & H1).
      destruct (slack_alert_returns slack_system event w3) as (b2 & w4 & H2).
      exists tt, w4. unfold mbind, M_bind. by rewrite H1, H2. }
    unfold mbind at 1. unfold M_bind at 1. rewrite Hsent.
    rewrite (proj2 (Z.gtb_gt _ 1)) by lia.
    unfold mbind at 1. unfold M_bind at 1.
    rewrite email_batch_raises by done. by exists w2.
Qed.

(** X5.  Detection touches nothing but the clock: no detector of either
    analyzer writes to the table or hands anything to a transport, whatever
    it returns or raises.  A pass of either analyzer (detection, then
    storage) hands nothing to a transport. *)
Theorem analysis_sends_nothing :
  (forall (self : CloudWatchAnalyzer.Self)
          (logs : list CloudWatchAnalyzer.LogEntry),
     keeps beyond_clock (CloudWatchAnalyzer.detect_bulk_downloads self logs) /\
     keeps beyond_clock (CloudWatchAnalyzer.detect_rapid_access self logs) /\
     keeps beyond_clock
       (CloudWatchAnalyzer.detect_abnormal_hours_access self logs) /\
     keeps beyond_clock
       (CloudWatchAnalyzer.detect_geolocation_anomaly self logs) /\
     keeps outbox (CloudWatchAnalyzer.analyze_logs self logs)) /\
  (forall (self : LambdaFunction.Self) (logs : list LambdaFunction.LogEntry),
     keeps beyond_clock (LambdaFunction.detect_bulk_downloads self logs) /\
     keeps beyond_clock (LambdaFunction.detect_rapid_access self logs) /\
     keeps beyond_clock (LambdaFunction.detect_abnormal_hours self logs) /\
     keeps beyond_clock
       (LambdaFunction.detect_suspicious_user_agents self logs) /\
     keeps beyond_clock
       (LambdaFunction.detect_failed_access_attempts self logs) /\
     keeps outbox (LambdaFunction.analyze_logs self logs)).
Proof.
  assert (forall x, clock_free (fun w => beyond_clock w = x)) as Hfree
    by (by intros x w).
  split; intros self logs.
  - split_and!;
      [apply keeps_preserves; intros x;
       apply (cloudwatch_detectors_preserve _ (Hfree x) self logs) .. |].
    apply keeps_preserves. intros o.
    apply cloudwatch_analysis_preserves;
      [apply outbox_clock_free | intros item; apply put_item_preserves_outbox].
  - split_and!;
      [apply keeps_preserves; intros x;
       apply (lambda_detectors_preserve _ (Hfree x) self logs) .. |].
    apply keeps_preserves. intros o.
    apply lambda_analysis_preserves;
      [apply outbox_clock_free | intros item; apply put_item_preserves_outbox].
Qed.

End never_alerts.

Lemma main_never_alerts_witness :
  exists w2,
    Main.analyze_logs (text := plain_text) CloudWatchAnalyzer.defaults
      email_on slack_on twelve_gets true fresh_world
    = (Raise AttributeError, w2).
Proof.
  refine (proj2 (main_never_alerts (text := plain_text)
                   CloudWatchAnalyzer.defaults email_on slack_on twelve_gets
                   true) fresh_world _ _ _ _ eq_refl eq_refl).
  - vm_compute. reflexivity.
  - vm_compute. lia.
Defined.

(** ** Loops that stamp one event per group *)

Lemma appended_keyed {K X : Type} `{EqDecision K} (p : X -> bool)
    (key : X -> K) (k : K) (l : list X) :
  appended (keyed p key) k l
  = List.filter (fun x => p x && bool_decide (key x = k)) l.
Proof.
  unfold appended, keyed. induction l as [|x l IH]; [done |].
  cbn [omap list_omap List.filter]. rewrite <- IH.
  destruct (p x); cbn [andb]; [| done].
  case_decide; case_bool_decide; done.
Qed.

Section stamped_groups.
Context {K V : Type} `{EqDecision K}.
Variable key_value : K -> Value.
Hypothesis key_value_eq : forall k k',
  py_eq (key_value k) (key_value k') = bool_decide (k = k').
Variable test : V -> bool.
Variable mk : K -> V -> Z -> SecurityEvent.
Hypothesis mk_ip : forall k v now, ip_address (mk k v now) = key_value k.

(** The events of such a loop are those of the groups that pass the test,
    in the order of the groups. *)
Lemma stamped_groups_events (d : list (K * V))
    (body : list SecurityEvent -> K * V -> M (list SecurityEvent))
    (w : World) :
  (forall evs k v w, (k, v) ∈ d ->
     body evs (k, v) w
     = if test v then (Ok (evs ++ [mk k v (clock w (reads w))]), ticked w)
       else (Ok evs, w)) ->
  exists evs w',
    for_each d body [] w = (Ok evs, w') /\
    Forall2 (fun e kv => exists now, e = mk kv.1 kv.2 now)
            evs (List.filter (fun kv => test kv.2) d).
Proof.
  intros Hbody.
  destruct (for_each_invariant
              (fun done evs _ =>
                 Forall2 (fun e kv => exists now, e = mk kv.1 kv.2 now)
                         evs (List.filter (fun kv => test kv.2) done))
              body [] d [] w) as (evs & w' & Hrun & Hall);
    [constructor | | by exists evs, w'].
  intros done [k v] evs w0 Hin Hall. rewrite (Hbody evs k v w0 Hin).
  rewrite List.filter_app. cbn [List.filter snd].
  destruct (test v).
  - eexists _, _. split; [reflexivity |].
    apply Forall2_app; [done |]. constructor; [by eexists | constructor].
  - eexists _, _. split; [reflexivity |]. by rewrite app_nil_r.
Qed.

(** Per key, one event or none. *)
Lemma stamped_groups_counts (d : list (K * V)) (evs : list SecurityEvent)
    (dflt : V) (k : K) :
  NoDup d.*1 ->
  Forall2 (fun e kv => exists now, e = mk kv.1 kv.2 now)
          evs (List.filter (fun kv => test kv.2) d) ->
  length (List.filter (fun e => py_eq (ip_address e) (key_value k)) evs)
  = if bool_decide (k ∈ d.*1) && test (dict_get k dflt d)
    then 1%nat else 0%nat.
Proof.
  intros Hnd Hall. rewrite <- (dict_count_key d k test dflt Hnd).
  transitivity (length (List.filter (fun kv : K * V => bool_decide (kv.1 = k))
                          (List.filter (fun kv => test kv.2) d))).
  - induction Hall as [|e [k0 v0] evs0 kvs (now & ->) _ IH]; [done |].
    cbn [List.filter fst snd]. rewrite mk_ip, key_value_eq.
    destruct (bool_decide (k0 = k)); cbn [length]; by rewrite IH.
  - clear Hall Hnd. induction d as [|[k0 v0] d IH]; [done |].
    cbn [List.filter fst snd].
    destruct (test v0), (bool_decide (k0 = k)) eqn:Hk;
      cbn [List.filter andb fst length]; rewrite ?Hk; cbn [length];
      by rewrite IH.
Qed.

End stamped_groups.

Lemma py_eq_VStr (a b : string) : py_eq (VStr a) (VStr b) = bool_decide (a = b).
Proof.
  cbn [py_eq]. case_bool_decide; destruct (String.eqb_spec a b); congruence.
Qed.

(** ** The Lambda function: detectors that count entries per source IP *)

Section lambda_groups.
Context {text : PyText} {hash : PyHash}.
Import LambdaFunction.
Variable self : Self.

(** A loop over the groups a first loop builds, one event for each group
    that passes [test]. *)
Lemma lambda_grouping_detector {Y : Type} (f : LogEntry -> option (string * Y))
    (test : list Y -> bool)
    (mk : string -> list Y -> Z -> SecurityEvent)
    (step : list (string * list Y) -> LogEntry -> list (string * list Y))
    (body : list SecurityEvent -> string * list Y -> M (list SecurityEvent))
    (logs : list LogEntry) (w : World) :
  (forall d log, step d log
                 = match f log with
                   | Some (k, v) => setdefault_append k v d
                   | None => d
                   end) ->
  (forall evs ip v w, v <> [] ->
     body evs (ip, v) w
     = if test v then (Ok (evs ++ [mk ip v (clock w (reads w))]), ticked w)
       else (Ok evs, w)) ->
  (forall ip v now, ip_address (mk ip v now) = VStr ip) ->
  test [] = false ->
  exists evs w',
    for_each (fold_left step logs []) body [] w = (Ok evs, w') /\
    (forall ip,
       length (events_of (Some ip) evs)
       = if test (appended f ip logs) then 1%nat else 0%nat) /\
    Forall (fun e => exists ip now,
              test (appended f ip logs) = true /\
              e = mk ip (appended f ip logs) now) evs.
Proof.
  intros Hstep Hbody Hip Hnil.
  set (d := fold_left step logs []).
  assert (Hnd : NoDup d.*1)
    by (apply (grouped_keys_NoDup f step Hstep); constructor).
  assert (Hne : Forall (fun kv => kv.2 <> []) d)
    by (apply (grouped_nonempty f step Hstep); constructor).
  assert (Hget : forall ip, dict_get ip [] d = appended f ip logs).
  { intros ip. unfold d. by rewrite (grouped_values f step Hstep). }
  destruct (stamped_groups_events test mk d body w) as (evs & w' & Hrun & Hall).
  { intros evs ip v w0 Hin. apply Hbody.
    rewrite Forall_forall in Hne. exact (Hne _ Hin). }
  exists evs, w'. split; [exact Hrun |]. split.
  - intros ip. unfold events_of. cbn [of_opt].
    rewrite (stamped_groups_counts VStr py_eq_VStr test mk Hip d evs [] ip
               Hnd Hall).
    rewrite Hget. destruct (test (appended f ip logs)) eqn:Htest;
      [| by rewrite andb_false_r].
    rewrite bool_decide_eq_true_2; [done |].
    destruct (decide (ip ∈ d.*1)) as [|Hnin]; [done |].
    rewrite <- Hget, (dict_get_absent d ip [] Hnin) in Htest. congruence.
  - clear Hrun. revert Hall.
    assert (Forall (fun kv : string * list Y =>
                      test kv.2 = true /\ kv.2 = appended f kv.1 logs)
                   (List.filter (fun kv => test kv.2) d)) as Hd.
    { apply Forall_forall. intros [ip v] Hin.
      apply list_elem_of_In, filter_In in Hin as [Hin Htest].
      apply list_elem_of_In in Hin. cbn [fst snd] in *. split; [done |].
      by rewrite <- Hget, (dict_get_item d ip v [] Hnd Hin). }
    generalize dependent (List.filter (fun kv : string * list Y => test kv.2) d).
    intros kvs Hd Hall.
    induction Hall as [|e [ip v] evs0 kvs0 (now & ->) _ IH]; [constructor |].
    apply Forall_cons in Hd as [[Htest Hv] Hd]. cbn [fst snd] in *.
    constructor; [| by apply IH].
    exists ip, now. by rewrite <- Hv.
Qed.

(** The same when the first loop groups the entries that pass [p]. *)
Lemma lambda_grouped_detector (p : LogEntry -> bool)
    (test : list LogEntry -> bool)
    (mk : string -> list LogEntry -> Z -> SecurityEvent)
    (step : list (string * list LogEntry) -> LogEntry
            -> list (string * list LogEntry))
    (body : list SecurityEvent -> string * list LogEntry
            -> M (list SecurityEvent))
    (logs : list LogEntry) (w : World) :
  (forall d log, step d log
                 = if p log then setdefault_append (l_remote_ip log) log d
                   else d) ->
  (forall evs ip v w, v <> [] ->
     body evs (ip, v) w
     = if test v then (Ok (evs ++ [mk ip v (clock w (reads w))]), ticked w)
       else (Ok evs, w)) ->
  (forall ip v now, ip_address (mk ip v now) = VStr ip) ->
  test [] = false ->
  exists evs w',
    for_each (fold_left step logs []) body [] w = (Ok evs, w') /\
    (forall ip,
       length (events_of (Some ip) evs)
       = if test (lambda_entries p ip logs) then 1%nat else 0%nat) /\
    Forall (fun e => exists ip now,
              test (lambda_entries p ip logs) = true /\
              e = mk ip (lambda_entries p ip logs) now) evs.
Proof.
  intros Hstep0 Hbody Hip Hnil.
  destruct (lambda_grouping_detector (keyed p l_remote_ip) test mk step body
              logs w) as (evs & w' & Hrun & Hcount & Hall);
    [| done | done | done |].
  { intros d x. rewrite Hstep0. unfold keyed. by destruct (p x). }
  exists evs, w'. split; [exact Hrun |]. split.
  - intros ip. rewrite Hcount. by rewrite appended_keyed.
  - eapply Forall_impl; [exact Hall |]. cbn beta.
    intros e (ip & now & Htest & ->). rewrite appended_keyed in *.
    by exists ip, now.
Qed.

Lemma lambda_failed_access (logs : list LogEntry) (w : World) :
  exists evs w',
    detect_failed_access_attempts self logs w = (Ok evs, w') /\
    (forall ip,
       length (events_of (Some ip) evs)
       = if 5 <=? Z.of_nat (length (lambda_entries failed_status ip logs))
         then 1%nat else 0%nat) /\
    Forall (fun e => exists ip now,
              (5 <=? Z.of_nat (length (lambda_entries failed_status ip logs)))
              = true /\
              e = failed_access_event self ip
                    (lambda_entries failed_status ip logs) now) evs.
Proof.
  unfold detect_failed_access_attempts.
  apply (lambda_grouped_detector failed_status
           (fun v => 5 <=? Z.of_nat (length v))
           (failed_access_event self)); [done | | done | done].
  intros evs ip v w0 _. rewrite Z.geb_leb.
  by destruct (5 <=? Z.of_nat (length v)).
Qed.

Lemma lambda_abnormal_hours (logs : list LogEntry) (w : World) :
  exists evs w',
    detect_abnormal_hours self logs w = (Ok evs, w') /\
    (forall ip,
       length (events_of (Some ip) evs)
       = if 3 <=? Z.of_nat (length (lambda_entries off_hours ip logs))
         then 1%nat else 0%nat) /\
    Forall (fun e => exists ip now,
              (3 <=? Z.of_nat (length (lambda_entries off_hours ip logs)))
              = true /\
              e = abnormal_hours_event self ip
                    (lambda_entries off_hours ip logs) now) evs.
Proof.
  unfold detect_abnormal_hours.
  apply (lambda_grouped_detector off_hours
           (fun v => 3 <=? Z.of_nat (length v))
           (abnormal_hours_event self)); [| | done | done].
  - intros d log. unfold off_hours. by destruct (l_timestamp log).
  - intros evs ip v w0 _. rewrite Z.geb_leb.
    by destruct (3 <=? Z.of_nat (length v)).
Qed.

Lemma lambda_suspicious_agents (logs : list LogEntry) (w : World) :
  exists evs w',
    detect_suspicious_user_agents self logs w = (Ok evs, w') /\
    (forall ip,
       length (events_of (Some ip) evs)
       = match lambda_entries suspicious_agent ip logs with
         | [] => 0%nat
         | _ => 1%nat
         end) /\
    Forall (fun e => exists ip first rest now,
              lambda_entries suspicious_agent ip logs = first :: rest /\
              e = suspicious_user_agent_event self ip (first :: rest) first now)
           evs.
Proof.
  unfold detect_suspicious_user_agents.
  destruct (lambda_grouped_detector suspicious_agent
              (fun v => match v with [] => false | _ => true end)
              (fun ip v now =>
                 suspicious_user_agent_event self ip v
                   (default {| l_timestamp := None; l_remote_ip := "";
                               l_object_name := ""; l_user_agent := "";
                               l_http_status := ""; l_operation := "" |}
                            (head v)) now)
              (fun d log =>
                 if existsb (fun pattern =>
                               contains pattern (lower (l_user_agent log)))
                            suspicious_patterns
                 then setdefault_append (l_remote_ip log) log d else d)
              (fun events '(ip, sus_logs) =>
                 now ← datetime_now;
                 first ← lift (py_index sus_logs 0);
                 mret (events ++ [suspicious_user_agent_event self ip sus_logs
                                    first now]))
              logs w) as (evs & w' & Hrun & Hcount & Hall);
    [done | | done | done |].
  - intros evs ip [|first rest] w0 Hne; [done |]. reflexivity.
  - exists evs, w'. split; [exact Hrun |]. split.
    + intros ip. rewrite Hcount.
      by destruct (lambda_entries suspicious_agent ip logs).
    + eapply Forall_impl; [exact Hall |]. cbn beta.
      intros e (ip & now & Htest & ->).
      destruct (lambda_entries suspicious_agent ip logs) as [|first rest]
        eqn:Hentries; [done |].
      by exists ip, first, rest, now.
Qed.

Lemma lambda_scan_windows_take (ip : string) (times : list Z)
    (n i0 : nat) (events : list SecurityEvent) (w : World) :
  (n = 0 \/ i0 + n + 9 <= length times)%nat ->
  scan_windows self ip times (map Z.of_nat (seq i0 n)) events w
  = match List.find (within 300) (take n (windows 9 (drop i0 times))) with
    | Some (a, b) =>
        (Ok (events ++ [rapid_access_event self ip a b (clock w (reads w))]),
         ticked w)
    | None => (Ok events, w)
    end.
Proof.
  revert i0. induction n as [|n IH]; intros i0 Hrange; [done |].
  destruct Hrange as [|Hrange]; [done |].
  destruct (lookup_lt_is_Some_2 times i0) as [a Ha]; [lia |].
  destruct (lookup_lt_is_Some_2 times (i0 + 9)) as [b Hb]; [lia |].
  cbn [seq map scan_windows]. unfold mbind, M_bind, lift.
  rewrite (py_index_lookup _ _ _ Ha).
  replace (Z.of_nat i0 + 9) with (Z.of_nat (i0 + 9)) by lia.
  rewrite (py_index_lookup _ _ _ Hb), within_total_seconds.
  rewrite (windows_cons 9 times i0 a b Ha Hb). cbn [take List.find].
  destruct (within _ (a, b)); [done |].
  apply IH. destruct n; [by left | right; lia].
Qed.

Lemma lambda_scan_windows_first (ip : string) (times : list Z)
    (events : list SecurityEvent) (w : World) :
  scan_windows self ip times (py_range (Z.of_nat (length times) - 9)) events w
  = match first_window 10 300 times with
    | Some (a, b) =>
        (Ok (events ++ [rapid_access_event self ip a b (clock w (reads w))]),
         ticked w)
    | None => (Ok events, w)
    end.
Proof.
  unfold py_range, first_window.
  change (Z.to_nat (10 - 1)) with 9%nat.
  set (n := Z.to_nat (Z.of_nat (length times) - 9)).
  rewrite lambda_scan_windows_take.
  - rewrite drop_0, take_ge; [done |].
    unfold windows. rewrite length_zip_with, length_drop. lia.
  - destruct n eqn:Hn; [by left | right]. lia.
Qed.

Lemma appended_lambda_rapid_key (ip : string) (logs : list LogEntry) :
  sort_by id (appended lambda_rapid_key ip logs) = lambda_access_times ip logs.
Proof.
  unfold lambda_access_times. f_equal. unfold appended, lambda_rapid_key.
  induction logs as [|log logs IH]; [done |].
  cbn [omap list_omap List.filter]. rewrite IH.
  destruct (l_timestamp log) as [t|] eqn:Ht.
  - case_decide; case_bool_decide; try done.
    cbn [omap list_omap]. by rewrite Ht.
  - case_bool_decide; [| done]. cbn [omap list_omap]. by rewrite Ht.
Qed.

Lemma filter_one {A : Type} (q : A -> bool) (P : A -> Prop) (l : list A) :
  length (List.filter q l) = 1%nat -> Forall P l ->
  exists x, List.filter q l = [x] /\ P x /\ q x = true.
Proof.
  intros Hlen Hall. destruct (List.filter q l) as [|x [|y r]] eqn:Hf;
    try done.
  exists x. split; [done |].
  assert (In x (List.filter q l)) as Hx by (rewrite Hf; by left).
  apply filter_In in Hx as [Hx Hq]. split; [| done].
  rewrite Forall_forall in Hall. by apply Hall, list_elem_of_In.
Qed.

Lemma lambda_rapid_access (logs : list LogEntry) (w : World) :
  exists evs w',
    detect_rapid_access self logs w = (Ok evs, w') /\
    forall ip,
      match first_window 10 300 (lambda_access_times ip logs) with
      | Some (a, b) =>
          exists now,
            events_of (Some ip) evs = [rapid_access_event self ip a b now]
      | None => events_of (Some ip) evs = []
      end.
Proof.
  unfold detect_rapid_access.
  pose (test := fun times : list Z =>
    bool_decide (is_Some (first_window 10 300 (sort_by id times)))).
  pose (mk := fun (ip : string) (times : list Z) (now : Z) =>
    let ab := default (0, 0) (first_window 10 300 (sort_by id times)) in
    rapid_access_event self ip ab.1 ab.2 now).
  destruct (lambda_grouping_detector lambda_rapid_key test mk
              (fun d log =>
                 match l_timestamp log with
                 | Some t => setdefault_append (l_remote_ip log) t d
                 | None => d
                 end)
              (fun events '(ip, times) =>
                 let times := sort_by id times in
                 scan_windows self ip times
                   (py_range (Z.of_nat (length times) - 9)) events)
              logs w) as (evs & w' & Hrun & Hcount & Hall);
    [| | done | done |].
  - intros d log. unfold lambda_rapid_key. by destruct (l_timestamp log).
  - intros evs ip v w0 _. cbv zeta.
    rewrite lambda_scan_windows_first. unfold test, mk.
    destruct (first_window 10 300 (sort_by id v)) as [[a b]|]; [done |].
    by rewrite bool_decide_eq_false_2 by (by intros [? ?]).
  - exists evs, w'. split; [exact Hrun |]. intros ip. specialize (Hcount ip).
    unfold test in Hcount. rewrite appended_lambda_rapid_key in Hcount.
    destruct (first_window 10 300 (lambda_access_times ip logs))
      as [[a b]|] eqn:Hfw.
    + rewrite bool_decide_eq_true_2 in Hcount by done.
      destruct (filter_one _ _ _ Hcount Hall)
        as (e & He & (ip' & now & _ & ->) & Hip).
      exists now. unfold events_of. rewrite He. unfold mk in *.
      cbn [ip_address rapid_access_event of_opt] in Hip.
      rewrite py_eq_VStr in Hip. apply bool_decide_eq_true_1 in Hip.
      subst ip'. by rewrite appended_lambda_rapid_key, Hfw.
    + rewrite bool_decide_eq_false_2 in Hcount by (by intros [? ?]).
      by destruct (events_of (Some ip) evs).
Qed.

End lambda_groups.

(** X6.  [detect_failed_access_attempts] of the Lambda function never
    raises; it returns exactly one event, of severity high, for each source
    IP with at least five entries whose status is 403, 404 or 401, built
    from all such entries of the IP, and none for the other IPs. *)
Theorem lambda_failed_access_per_ip {text : PyText}
    (self : LambdaFunction.Self) (logs : list LambdaFunction.LogEntry)
    (w : World) :
  exists evs w',
    LambdaFunction.detect_failed_access_attempts self logs w = (Ok evs, w') /\
    (forall ip,
       length (events_of (Some ip) evs)
       = if 5 <=? Z.of_nat (length (lambda_entries failed_status ip logs))
         then 1%nat else 0%nat) /\
    Forall (fun e => exists ip now,
              (5 <=? Z.of_nat (length (lambda_entries failed_status ip logs)))
              = true /\
              e = LambdaFunction.failed_access_event self ip
                    (lambda_entries failed_status ip logs) now) evs /\
    Forall (fun e => severity e = VStr "high") evs.
Proof.
  destruct (lambda_failed_access self logs w)
    as (evs & w' & Hrun & Hcount & Hall).
  exists evs, w'. split_and!; [done | done | done |].
  eapply Forall_impl; [exact Hall |]. by intros e (ip & now & _ & ->).
Qed.

(** X7.  [detect_suspicious_user_agents] of the Lambda function never
    raises; it returns one event per source IP (not per entry) that has at
    least one entry whose lower-cased user agent contains one of the seven
    patterns curl, wget, python, bot, crawler, scanner, script: the event
    counts all such entries of the IP and names the user agent of the first
    of them. *)
Theorem lambda_suspicious_agents_per_ip {text : PyText}
    (self : LambdaFunction.Self) (logs : list LambdaFunction.LogEntry)
    (w : World) :
  exists evs w',
    LambdaFunction.detect_suspicious_user_agents self logs w = (Ok evs, w') /\
    (forall ip,
       length (events_of (Some ip) evs)
       = match lambda_entries suspicious_agent ip logs with
         | [] => 0%nat
         | _ => 1%nat
         end) /\
    Forall (fun e => exists ip first rest now,
              lambda_entries suspicious_agent ip logs = first :: rest /\
              e = LambdaFunction.suspicious_user_agent_event self ip
                    (first :: rest) first now) evs /\
    LambdaFunction.suspicious_patterns
    = ["curl"; "wget"; "python"; "bot"; "crawler"; "scanner"; "script"].
Proof.
  destruct (lambda_suspicious_agents self logs w)
    as (evs & w' & Hrun & Hcount & Hall).
  by exists evs, w'.
Qed.

(** X8.  [detect_abnormal_hours] of the Lambda function never raises; it
    returns exactly one event for each source IP with at least three
    entries whose timestamp parses and falls in the hours 0 to 5, built
    from all such entries of the IP, and none for the other IPs. *)
Theorem lambda_abnormal_hours_per_ip {text : PyText}
    (self : LambdaFunction.Self) (logs : list LambdaFunction.LogEntry)
    (w : World) :
  exists evs w',
    LambdaFunction.detect_abnormal_hours self logs w = (Ok evs, w') /\
    (forall ip,
       length (events_of (Some ip) evs)
       = if 3 <=? Z.of_nat (length (lambda_entries off_hours ip logs))
         then 1%nat else 0%nat) /\
    Forall (fun e => exists ip now,
              (3 <=? Z.of_nat (length (lambda_entries off_hours ip logs)))
              = true /\
              e = LambdaFunction.abnormal_hours_event self ip
                    (lambda_entries off_hours ip logs) now) evs.
Proof. apply lambda_abnormal_hours. Qed.

(** X9.  [detect_rapid_access] of the Lambda function never raises.  For
    each source IP it sorts the timestamps that parse, scans the windows of
    ten consecutive accesses in time order and returns exactly one event
    for the first window that spans at most 300 seconds, none when no
    window does (in particular for an IP with fewer than ten timed
    entries). *)
Theorem lambda_rapid_access_first_window {text : PyText}
    (self : LambdaFunction.Self) (logs : list LambdaFunction.LogEntry)
    (w : World) :
  exists evs w',
    LambdaFunction.detect_rapid_access self logs w = (Ok evs, w') /\
    forall ip,
      Sorted Z.le (lambda_access_times ip logs) /\
      match first_window 10 300 (lambda_access_times ip logs) with
      | Some (a, b) =>
          exists now,
            events_of (Some ip) evs
            = [LambdaFunction.rapid_access_event self ip a b now]
      | None => events_of (Some ip) evs = []
      end /\
      ((length (lambda_access_times ip logs) < 10)%nat ->
       events_of (Some ip) evs = []).
Proof.
  destruct (lambda_rapid_access self logs w) as (evs & w' & Hrun & Hfirst).
  exists evs, w'. split; [exact Hrun |]. intros ip.
  split; [exact (sort_by_Sorted id _) |]. split; [apply Hfirst |].
  intros Hfew. specialize (Hfirst ip).
  assert (first_window 10 300 (lambda_access_times ip logs) = None) as Hnone.
  { unfold first_window, windows. change (Z.to_nat (10 - 1)) with 9%nat.
    rewrite drop_ge by lia. by destruct (lambda_access_times ip logs). }
  by rewrite Hnone in Hfirst.
Qed.

(** ** [PatternDetector] as it is wired *)

Lemma time_based_pattern_as_wired (logs : list LogAnalyzer.LogEntry)
    (evs : list SecurityEvent) :
  PatternDetector.detect_time_based_pattern logs = Ok evs -> evs = [].
Proof.
  unfold PatternDetector.detect_time_based_pattern,
    PatternDetector.detect_time_based_pattern_with.
  intros Hrun.
  match type of Hrun with
  | for_each_pure ?d ?b _ = _ =>
      apply (for_each_pure_partial (fun _ acc => acc = []) b [] d [] evs);
        [done | | exact Hrun]
  end.
  intros done [ip timestamps] acc acc' _ -> Hstep. cbv beta iota zeta in Hstep.
  destruct (_ <? 5); [by injection Hstep |].
  destruct (map double _); [by injection Hstep |].
  unfold mbind, Res_bind, fmap, Res_fmap in Hstep.
  do 3 (match type of Hstep with
        | context [py_div ?a ?b] => destruct (py_div a b); [| done]
        end; cbv beta iota in Hstep).
  destruct (Qlt_bool _ _); [| by injection Hstep].
  destruct (py_index _ _); [| done].
  by rewrite (SecurityEvent_init_rejects_source_ip _ (of_opt ip)) in Hstep.
Qed.

(** X14.  As [pattern_detector.py] imports the dataclass of
    [cloudwatch_analyzer.py], none of its five methods ever returns an
    event: each returns the empty list or raises. *)
Theorem pattern_detector_never_emits (logs : list LogAnalyzer.LogEntry)
    (evs : list SecurityEvent) :
  PatternDetector.detect_credential_stuffing logs = Ok evs \/
  PatternDetector.detect_data_exfiltration logs = Ok evs \/
  PatternDetector.detect_port_scanning logs = Ok evs \/
  PatternDetector.detect_time_based_pattern logs = Ok evs \/
  PatternDetector.detect_impossible_travel logs = Ok evs ->
  evs = [].
Proof.
  intros [Hrun|[Hrun|[Hrun|[Hrun|Hrun]]]].
  - rewrite credential_stuffing_as_wired in Hrun.
    destruct (existsb _ _); [done | by injection Hrun].
  - rewrite data_exfiltration_as_wired in Hrun.
    destruct (existsb _ _); [done | by injection Hrun].
  - rewrite port_scanning_as_wired in Hrun.
    destruct (existsb _ _); [done | by injection Hrun].
  - by apply (time_based_pattern_as_wired logs).
  - by injection Hrun.
Qed.

Lemma pattern_detector_never_emits_witness :
  exists evs,
    PatternDetector.detect_port_scanning five_failures = Ok evs /\ evs = [].
Proof.
  destruct (PatternDetector.detect_port_scanning five_failures)
    as [evs|err] eqn:Hrun; [| by vm_compute in Hrun].
  exists evs. split; [reflexivity |].
  apply (pattern_detector_never_emits five_failures evs).
  right. right. by left.
Defined.

(** ** A lone event of low or medium severity *)

(** X15.  The block under [if send_alerts:] of [main.analyze_logs] sends
    nothing at all for a pass with exactly one event whose severity is
    neither critical nor high: no immediate alert, and the summary needs
    more than one event. *)
Theorem dispatch_skips_lone_low_event {text : PyText} {E : Type}
    {object : PyObject E} (email_system : EmailAlertSystem.Self)
    (slack_system : SlackAlertSystem.Self) (e : E) (sev : Value) (w : World) :
  getattr e "severity" = Ok sev ->
  py_in sev [VStr "critical"; VStr "high"] = false ->
  Main.dispatch email_system slack_system [e] w = (Ok tt, w).
Proof.
  intros Hsev Hin. unfold Main.dispatch.
  match goal with
  | |- context [lift ?r] => assert (r = Ok []) as ->
  end.
  { cbn [for_each_pure]. rewrite Hsev. unfold mbind, Res_bind.
    by rewrite Hin. }
  reflexivity.
Qed.

Lemma dispatch_skips_lone_low_event_witness :
  Main.dispatch (text := plain_text) email_on slack_on
    [gcp_event "medium" 0] fresh_world = (Ok tt, fresh_world).
Proof.
  exact (dispatch_skips_lone_low_event (text := plain_text) email_on slack_on
           (gcp_event "medium" 0) (VStr "medium") fresh_world
           eq_refl eq_refl).
Defined.

(** ** The CloudWatch analyzer: abnormal hours *)

Lemma cloudwatch_abnormal_hours_events {text : PyText}
    (self : CloudWatchAnalyzer.Self)
    (logs : list CloudWatchAnalyzer.LogEntry) (w : World) :
  CloudWatchAnalyzer.detect_abnormal_hours_access self logs w
  = (Ok (omap (fun log =>
                 t ← after_hours log;
                 Some (CloudWatchAnalyzer.abnormal_hours_event self log t))
              logs), w).
Proof.
  unfold CloudWatchAnalyzer.detect_abnormal_hours_access.
  assert (forall acc,
    for_each logs (fun events log =>
      match CloudWatchAnalyzer.l_timestamp log with
      | Some t =>
          if (0 <=? hour t) && (hour t <? 6)
          then mret (events ++ [CloudWatchAnalyzer.abnormal_hours_event
                                  self log t])
          else mret events
      | None => mret events
      end) acc w
    = (Ok (acc ++ omap (fun log =>
               t ← after_hours log;
               Some (CloudWatchAnalyzer.abnormal_hours_event self log t))
            logs), w)) as Hgen; [| apply (Hgen [])].
  induction logs as [|log logs IH]; intros acc.
  { cbn [for_each omap list_omap]. by rewrite app_nil_r. }
  cbn [for_each omap list_omap]. unfold mbind at 1. unfold M_bind at 1.
  unfold after_hours at 1.
  destruct (CloudWatchAnalyzer.l_timestamp log) as [t|]; [| apply IH].
  destruct (_ && _); [| apply IH].
  unfold mret at 1. unfold M_ret at 1. rewrite IH.
  by rewrite <- app_assoc.
Qed.

Lemma cloudwatch_abnormal_hours_total {text : PyText}
    (self : CloudWatchAnalyzer.Self)
    (logs : list CloudWatchAnalyzer.LogEntry) (w : World) :
  exists evs,
    CloudWatchAnalyzer.detect_abnormal_hours_access self logs w = (Ok evs, w).
Proof. eexists. apply cloudwatch_abnormal_hours_events. Qed.

(** X16.  [detect_abnormal_hours_access] of the CloudWatch analyzer never
    raises and reads no clock: it returns, in batch order, one event for
    each entry whose timestamp parses and falls in the hours 0 to 5 (no
    threshold), stamped with the entry's own timestamp; so a source IP gets
    as many events as it has such entries. *)
Theorem cloudwatch_abnormal_hours_per_entry {text : PyText}
    (self : CloudWatchAnalyzer.Self)
    (logs : list CloudWatchAnalyzer.LogEntry) (w : World) :
  CloudWatchAnalyzer.detect_abnormal_hours_access self logs w
  = (Ok (omap (fun log =>
                 t ← after_hours log;
                 Some (CloudWatchAnalyzer.abnormal_hours_event self log t))
              logs), w)
  /\ forall ip,
       length (events_of ip
                 (omap (fun log =>
                          t ← after_hours log;
                          Some (CloudWatchAnalyzer.abnormal_hours_event
                                  self log t)) logs))
       = length (List.filter
                   (fun log =>
                      bool_decide (CloudWatchAnalyzer.l_remote_ip log = ip)
                      && bool_decide (is_Some (after_hours log))) logs).
Proof.
  split; [apply cloudwatch_abnormal_hours_events |].
  intros ip. induction logs as [|log logs IH]; [done |].
  cbn [omap list_omap List.filter].
  destruct (after_hours log) as [t|] eqn:Ht.
  + cbn [mbind option_bind events_of List.filter
         CloudWatchAnalyzer.abnormal_hours_event ip_address].
    rewrite py_eq_of_opt.
    rewrite (bool_decide_eq_true_2 (is_Some (Some t))) by done.
    rewrite andb_true_r.
    destruct (bool_decide _); cbn [length]; [f_equal |]; apply IH.
  + cbn [mbind option_bind].
    rewrite (bool_decide_eq_false_2 (is_Some None)) by (by intros [? ?]).
    rewrite andb_false_r. apply IH.
Qed.

(** ** Storage that fails, and the handler *)

Section storage_failure.
Context {text : PyText} {hash : PyHash}.

Lemma lambda_analysis_returns (self : LambdaFunction.Self)
    (logs : list LambdaFunction.LogEntry) (w : World) :
  exists events w', LambdaFunction.analyze_logs self logs w = (Ok events, w').
Proof.
  unfold LambdaFunction.analyze_logs.
  destruct logs as [|log logs]; [by eexists _, _ |].
  set (batch := log :: logs).
  destruct (lambda_bulk_downloads_counts self batch w)
    as (bulk & w1 & H1 & _).
  destruct (lambda_rapid_access self batch w1) as (rapid & w2 & H2 & _).
  destruct (lambda_abnormal_hours self batch w2) as (abnormal & w3 & H3 & _).
  destruct (lambda_suspicious_agents self batch w3) as (agents & w4 & H4 & _).
  destruct (lambda_failed_access self batch w4) as (failed & w5 & H5 & _).
  unfold mbind at 1. unfold M_bind at 1. rewrite H1.
  unfold mbind at 1. unfold M_bind at 1. rewrite H2.
  unfold mbind at 1. unfold M_bind at 1. rewrite H3.
  unfold mbind at 1. unfold M_bind at 1. rewrite H4.
  unfold mbind at 1. unfold M_bind at 1. rewrite H5.
  cbv zeta.
  match goal with
  | |- context [for_each ?xs ?b ?s] =>
      destruct (for_each_total b xs s w5) as (total & w6 & Hstore)
  end.
  { intros total [name events] w0.
    apply for_each_total. intros total' event w0'.
    destruct (lambda_store_total event w0') as (stored & w0'' & Hs).
    unfold mbind, M_bind. rewrite Hs. by eexists _, _. }
  unfold mbind at 1. unfold M_bind at 1. rewrite Hstore. by eexists _, _.
Qed.

(** X11.  A write that fails is swallowed.  When the table cannot be
    reached, [store_event_in_dynamodb] of the CloudWatch analyzer returns
    [None] and that of the Lambda function returns [False], neither raises,
    and the table is as it was; so a pass over an unreachable table leaves
    the table as it was, and the Lambda function still returns its events. *)
Theorem storage_failure_is_silent :
  (forall (event : SecurityEvent) (w : World),
     table_up w = false ->
     CloudWatchAnalyzer.store_event_in_dynamodb event w = (Ok tt, w) /\
     LambdaFunction.store_event_in_dynamodb event w = (Ok false, ticked w)) /\
  (forall (self : CloudWatchAnalyzer.Self)
          (logs : list CloudWatchAnalyzer.LogEntry) (w : World),
     table_up w = false ->
     table (CloudWatchAnalyzer.analyze_logs self logs w).2 = table w) /\
  (forall (self : LambdaFunction.Self) (logs : list LambdaFunction.LogEntry)
          (w : World),
     table_up w = false ->
     exists events w',
       LambdaFunction.analyze_logs self logs w = (Ok events, w') /\
       table w' = table w).
Proof.
  split_and!.
  - intros event w Hup. split.
    + unfold CloudWatchAnalyzer.store_event_in_dynamodb, try_except, mbind,
        M_bind, lift, put_item.
      destruct (CloudWatchAnalyzer.make_item event); [| done].
      by rewrite Hup.
    + unfold LambdaFunction.store_event_in_dynamodb, try_except, mbind,
        M_bind, lift, put_item, datetime_now, ticked, datetime_now.
      cbn [fst snd clock reads table_up].
      destruct (LambdaFunction.make_item event _); [| done].
      cbn [table_up]. by rewrite Hup.
  - intros self logs w Hup.
    apply (cloudwatch_analysis_preserves
             (fun w' => table_up w' = false /\ table w' = table w)
             (unreachable_clock_free (table w))
             (fun item => put_item_preserves_unreachable item (table w))
             self logs w).
    by split.
  - intros self logs w Hup.
    destruct (lambda_analysis_returns self logs w) as (events & w' & Hrun).
    exists events, w'. split; [exact Hrun |].
    pose proof (lambda_analysis_preserves
                  (fun w' => table_up w' = false /\ table w' = table w)
                  (unreachable_clock_free (table w))
                  (fun item => put_item_preserves_unreachable item (table w))
                  self logs w (conj Hup eq_refl)) as Hkeep.
    rewrite Hrun in Hkeep. apply Hkeep.
Qed.

Lemma sum_lengths {A B : Type} (l : list (A * list B)) (n : Z) :
  fold_left (fun acc kv => acc + Z.of_nat (length kv.2)) l n
  = n + Z.of_nat (length (flat_map snd l)).
Proof.
  revert n. induction l as [|[a bs] l IH]; intros n; cbn [fold_left flat_map].
  - cbn. lia.
  - rewrite IH, length_app. cbn [snd]. lia.
Qed.

(** X10.  [lambda_handler] answers with status code 200 for every batch
    its query returns, with the number of events of the pass in its body,
    also when no event could be stored: the statement list under its
    [except] is never reached. *)
Theorem lambda_handler_answers_200 (analyzer : LambdaFunction.Self)
    (logs : list LambdaFunction.LogEntry) (w : World) :
  exists events w1 w',
    LambdaFunction.analyze_logs analyzer logs (ticked w) = (Ok events, w1) /\
    lambda_handler analyzer logs w
    = (Ok (Completed (Z.of_nat (length (flat_map snd events)))
                     (clock w1 (reads w1))), w') /\
    statusCode (Completed (Z.of_nat (length (flat_map snd events)))
                          (clock w1 (reads w1))) = 200.
Proof.
  destruct (lambda_analysis_returns analyzer logs (ticked w))
    as (events & w1 & Hrun).
  exists events, w1, (ticked w1). split; [exact Hrun |]. split; [| done].
  unfold lambda_handler, try_except.
  unfold mbind at 1. unfold M_bind at 1.
  change (datetime_now w) with (Ok (clock w (reads w)), ticked w).
  unfold mbind at 1. unfold M_bind at 1. rewrite Hrun.
  cbv zeta. rewrite sum_lengths, Z.add_0_l. reflexivity.
Qed.

End storage_failure.

Lemma storage_failure_is_silent_witness :
  (CloudWatchAnalyzer.store_event_in_dynamodb (text := plain_text)
     (cw_event "high" 0) unreachable_world = (Ok tt, unreachable_world) /\
   LambdaFunction.store_event_in_dynamodb (text := plain_text)
     (cw_event "high" 0) unreachable_world
   = (Ok false, ticked unreachable_world)) /\
  table (CloudWatchAnalyzer.analyze_logs (text := plain_text)
           CloudWatchAnalyzer.defaults twelve_gets unreachable_world).2
  = table unreachable_world /\
  (exists events w',
     LambdaFunction.analyze_logs (text := plain_text) (hash := insertion_order) LambdaFunction.defaults
       five_objects unreachable_world = (Ok events, w') /\
     table w' = table unreachable_world).
Proof.
  pose proof (storage_failure_is_silent (text := plain_text) (hash := insertion_order))
    as (Hstore & Hcw & Hlambda).
  split; [| split].
  - apply Hstore. reflexivity.
  - apply Hcw. reflexivity.
  - apply Hlambda. reflexivity.
Defined.

(** ** One alert *)

Section one_alert.
Context {text : PyText} {hash : PyHash} {E : Type} {object : PyObject E}.

Lemma format_event_html_cases (event : E) (w : World) :
  (exists e, EmailAlertSystem.format_event_html event w = (Raise e, w)) \/
  (exists html,
     EmailAlertSystem.format_event_html event w = (Ok html, w)).
Proof.
  unfold EmailAlertSystem.format_event_html, mbind, M_bind, lift.
  destruct (getattr event "severity"); [| left; by eexists].
  match goal with
  | |- context [match ?r with Ok _ => _ | Raise _ => _ end] =>
      destruct r; [| left; by eexists]
  end.
  match goal with
  | |- context [match ?r with Ok _ => _ | Raise _ => _ end] =>
      destruct r; [| left; by eexists]
  end.
  right. by eexists.
Qed.

Lemma format_event_slack_cases (event : E) (w : World) :
  (exists e, SlackAlertSystem.format_event_slack event w = (Raise e, w)) \/
  (exists payload,
     SlackAlertSystem.format_event_slack event w = (Ok payload, ticked w)).
Proof.
  unfold SlackAlertSystem.format_event_slack, mbind, M_bind, lift.
  match goal with
  | |- context [match ?r with Ok _ => _ | Raise _ => _ end] =>
      destruct r; [| left; by eexists]
  end.
  match goal with
  | |- context [match ?r with Ok _ => _ | Raise _ => _ end] =>
      destruct r; [| left; by eexists]
  end.
  destruct (event_title event); [| left; by eexists].
  right. by eexists.
Qed.

(** X12.  One alert, whatever the event object is.  On a system that is
    not configured, [send_alert] returns [False] and hands nothing over.
    On a configured system it never raises (a failure of the formatting or
    of the transport is caught), hands at most one message to the
    transport, and returns [True] only if it handed one over and the
    transport answered 202 (SendGrid), respectively 200 (Slack). *)
Theorem send_alert_never_raises (event : E) (w : World) :
  (forall self : EmailAlertSystem.Self,
     (EmailAlertSystem.self_enabled self = false ->
      forall ty, getattr event "event_type" = Ok ty ->
      EmailAlertSystem.send_alert self event w = (Ok false, w)) /\
     (EmailAlertSystem.self_enabled self = true ->
      exists b w',
        EmailAlertSystem.send_alert self event w = (Ok b, w') /\
        (outbox w' = outbox w \/
         exists subject html, outbox w' = outbox w ++ [Mail subject html]) /\
        (b = true ->
         sendgrid_reply w = Ok 202 /\
         exists subject html, outbox w' = outbox w ++ [Mail subject html]))) /\
  (forall self : SlackAlertSystem.Self,
     (SlackAlertSystem.self_enabled self = false ->
      forall ty, getattr event "event_type" = Ok ty ->
      SlackAlertSystem.send_alert self event w = (Ok false, w)) /\
     (SlackAlertSystem.self_enabled self = true ->
      exists b w',
        SlackAlertSystem.send_alert self event w = (Ok b, w') /\
        (outbox w' = outbox w \/
         exists payload, outbox w' = outbox w ++ [SlackPost payload]) /\
        (b = true ->
         slack_reply w = Ok 200 /\
         exists payload, outbox w' = outbox w ++ [SlackPost payload]))).
Proof.
  split; intros self; split.
  - intros Hoff ty Hty. unfold EmailAlertSystem.send_alert.
    rewrite Hoff. cbn [negb]. unfold mbind, M_bind, lift. by rewrite Hty.
  - intros Hon. unfold EmailAlertSystem.send_alert. rewrite Hon. cbn [negb].
    unfold try_except.
    unfold mbind at 1. unfold M_bind at 1. unfold lift at 1.
    match goal with
    | |- context [match ?r with Ok _ => _ | Raise _ => _ end] =>
        destruct r as [subject|]
    end; [| eexists _, _; split; [reflexivity |]; split; [by left | done]].
    unfold mbind at 1. unfold M_bind at 1.
    destruct (format_event_html_cases event w) as [(e & ->)|(html & ->)];
      [eexists _, _; split; [reflexivity |]; split; [by left | done] |].
    unfold mbind at 1. unfold M_bind at 1. unfold deliver at 1.
    destruct (sendgrid_reply w) as [status|] eqn:Hreply;
      [| eexists _, _; split; [reflexivity |]; split; [| done];
         right; by eexists _, _].
    destruct (status =? 202) eqn:Hstatus.
    + apply Z.eqb_eq in Hstatus. subst status.
      unfold mbind, M_bind, lift.
      destruct (getattr event "event_type");
        [| eexists _, _; split; [reflexivity |]; split; [| done];
           right; by eexists _, _].
      destruct (getattr event "source_ip");
        eexists _, _; (split; [reflexivity |]); split;
        try (right; by eexists _, _); try done.
      intros _. split; [done |]. by eexists _, _.
    + eexists _, _. split; [reflexivity |]. split; [| done].
      right. by eexists _, _.
  - intros Hoff ty Hty. unfold SlackAlertSystem.send_alert.
    rewrite Hoff. cbn [negb]. unfold mbind, M_bind, lift. by rewrite Hty.
  - intros Hon. unfold SlackAlertSystem.send_alert. rewrite Hon. cbn [negb].
    unfold try_except.
    unfold mbind at 1. unfold M_bind at 1.
    destruct (format_event_slack_cases event w) as [(e & ->)|(payload & ->)];
      [eexists _, _; split; [reflexivity |]; split; [by left | done] |].
    unfold mbind at 1. unfold M_bind at 1. unfold deliver at 1.
    change (slack_reply (ticked w)) with (slack_reply w).
    destruct (slack_reply w) as [status|] eqn:Hreply;
      [| eexists _, _; split; [reflexivity |]; split; [| done];
         right; by eexists _].
    destruct (status =? 200) eqn:Hstatus.
    + apply Z.eqb_eq in Hstatus. subst status.
      unfold mbind, M_bind, lift.
      destruct (getattr event "event_type");
        [| eexists _, _; split; [reflexivity |]; split; [| done];
           right; by eexists _].
      destruct (getattr event "source_ip");
        eexists _, _; (split; [reflexivity |]); split;
        try (right; by eexists _); try done.
      intros _. split; [done |]. by eexists _.
    + eexists _, _. split; [reflexivity |]. split; [| done].
      right. by eexists _.
Qed.

End one_alert.

Lemma send_alert_never_raises_witness :
  (exists b w',
     EmailAlertSystem.send_alert (text := plain_text) email_on
       (gcp_event "critical" 0) fresh_world = (Ok b, w') /\
     (outbox w' = outbox fresh_world \/
      exists subject html,
        outbox w' = outbox fresh_world ++ [Mail subject html]) /\
     (b = true ->
      sendgrid_reply fresh_world = Ok 202 /\
      exists subject html,
        outbox w' = outbox fresh_world ++ [Mail subject html])) /\
  SlackAlertSystem.send_alert (text := plain_text)
    (SlackAlertSystem.init None) (gcp_event "critical" 0) fresh_world
  = (Ok false, fresh_world).
Proof.
  pose proof (send_alert_never_raises (text := plain_text)
                (gcp_event "critical" 0) fresh_world) as [Hemail Hslack].
  split.
  - apply (proj2 (Hemail email_on)). reflexivity.
  - apply (proj1 (Hslack (SlackAlertSystem.init None)) eq_refl
             (VStr "user_agent_anomaly")). reflexivity.
Defined.

(** ** One summary *)

Section one_summary.
Context {text : PyText} {hash : PyHash} {E : Type} {object : PyObject E}.

Lemma severity_counts_return (body : list (string * Z) -> E -> Res (list (string * Z)))
    (events : list E) (d : list (string * Z)) :
  (forall d e, returns (getattr e "severity") -> returns (body d e)) ->
  Forall (fun e => returns (getattr e "severity")) events ->
  returns (for_each_pure events body d).
Proof.
  intros Hbody Hall. revert d.
  induction Hall as [|e events He _ IH]; intros d; [by eexists |].
  cbn [for_each_pure]. destruct (Hbody d e He) as (d' & ->). apply IH.
Qed.

Lemma summary_lines_return (line : E -> Res (list Value))
    (body : list Value -> E -> Res (list Value))
    (events : list E) (acc : list Value) :
  (forall acc e, body acc e = (l ← line e; Ok (acc ++ l))) ->
  Forall (fun e => returns (line e)) events ->
  returns (for_each_pure events body acc).
Proof.
  intros Hbody Hall. revert acc.
  induction Hall as [|e events (l & He) _ IH]; intros acc; [by eexists |].
  cbn [for_each_pure]. rewrite Hbody, He. apply IH.
Qed.

(** X13.  One summary.  [send_batch_alert] on a configured system with at
    least one event reads the severity of every event, but the type, the
    source IP and the time of the first ten only: when these reads succeed
    it hands exactly one message to the transport, whatever the later
    events hold, and returns whether the transport answered 202 (SendGrid),
    respectively 200 (Slack); a failure of the transport is caught. *)
Theorem batch_summary_reads_first_ten (events : list E) (w : World) :
  events <> [] ->
  Forall (fun e => returns (getattr e "severity")) events ->
  (forall self : EmailAlertSystem.Self,
     EmailAlertSystem.self_enabled self = true ->
     Forall (fun e => returns (summary_line_email e)) (take 10 events) ->
     exists html w',
       EmailAlertSystem.send_batch_alert self events w
       = (Ok (answered 202 (sendgrid_reply w)), w') /\
       outbox w'
       = outbox w
         ++ [Mail (" Security Alert Summary: " +:+ pretty (length events)
                   +:+ " Events Detected") html]) /\
  (forall self : SlackAlertSystem.Self,
     SlackAlertSystem.self_enabled self = true ->
     Forall (fun e => returns (summary_line_slack e)) (take 10 events) ->
     exists payload w',
       SlackAlertSystem.send_batch_alert self events w
       = (Ok (answered 200 (slack_reply w)), w') /\
       outbox w' = outbox w ++ [SlackPost payload]).
Proof.
  intros Hne Hsev. split; intros self Hon Hlines.
  - unfold EmailAlertSystem.send_batch_alert. rewrite Hon. cbn [negb orb].
    rewrite bool_decide_eq_false_2 by (by destruct events).
    match goal with
    | |- context [lift (for_each_pure events ?b ?d)] =>
        destruct (severity_counts_return b events d) as (counts & ->);
          [| exact Hsev |]
    end.
    { intros d e (sev & ->). by eexists. }
    unfold mbind at 1. unfold M_bind at 1. unfold lift at 1.
    match goal with
    | |- context [lift (for_each_pure (take 10 events) ?b ?acc)] =>
        destruct (summary_lines_return summary_line_email b (take 10 events)
                    acc) as (lines & ->); [| exact Hlines |]
    end.
    { intros acc e. unfold summary_line_email, mbind, Res_bind.
      destruct (event_title e); [| done].
      destruct (getattr e "source_ip"); [| done].
      by destruct (getattr e "timestamp"). }
    unfold mbind at 1. unfold M_bind at 1. unfold lift at 1.
    unfold mbind at 1. unfold M_bind at 1.
    change (datetime_now w) with (Ok (clock w (reads w)), ticked w).
    unfold try_except, mbind, M_bind, deliver.
    change (sendgrid_reply (ticked w)) with (sendgrid_reply w).
    destruct (sendgrid_reply w) as [status|err].
    + eexists _, _. split; reflexivity.
    + eexists _, _. split; reflexivity.
  - unfold SlackAlertSystem.send_batch_alert. rewrite Hon. cbn [negb orb].
    rewrite bool_decide_eq_false_2 by (by destruct events).
    match goal with
    | |- context [lift (for_each_pure events ?b ?d)] =>
        destruct (severity_counts_return b events d) as (counts & ->);
          [| exact Hsev |]
    end.
    { intros d e (sev & ->). by eexists. }
    unfold mbind at 1. unfold M_bind at 1. unfold lift at 1.
    match goal with
    | |- context [lift (for_each_pure (take 10 events) ?b ?acc)] =>
        destruct (summary_lines_return summary_line_slack b (take 10 events)
                    acc) as (lines & ->); [| exact Hlines |]
    end.
    { intros acc e. unfold summary_line_slack, mbind, Res_bind.
      destruct (getattr e "severity"); [| done].
      destruct (event_title e); [| done].
      destruct (getattr e "source_ip"); [| done].
      destruct (getattr e "timestamp"); [| done].
      by destruct (strftime_method _ _). }
    unfold mbind at 1. unfold M_bind at 1. unfold lift at 1.
    unfold try_except, mbind, M_bind, deliver.
    destruct (slack_reply w) as [status|err].
    + eexists _, _. split; reflexivity.
    + eexists _, _. split; reflexivity.
Qed.

End one_summary.

Lemma batch_summary_reads_first_ten_witness :
  exists html w',
    EmailAlertSystem.send_batch_alert (text := plain_text) email_on
      (map (fun k => gcp_event "medium" (Z.of_nat k)) (seq 0 12)) fresh_world
    = (Ok (answered 202 (sendgrid_reply fresh_world)), w') /\
    outbox w'
    = outbox fresh_world
      ++ [Mail (" Security Alert Summary: "
                +:+ pretty (length (map (fun k => gcp_event "medium"
                                                    (Z.of_nat k)) (seq 0 12)))
                +:+ " Events Detected") html].
Proof.
  apply (proj1 (batch_summary_reads_first_ten (text := plain_text)
                  (map (fun k => gcp_event "medium" (Z.of_nat k)) (seq 0 12))
                  fresh_world ltac:(done)
                  ltac:(cbn [map seq]; repeat (constructor; [by eexists |]);
                        constructor))
           email_on eq_refl).
  cbn [map seq take]. repeat (constructor; [by eexists |]). constructor.
Defined.

(** ** [LogAnalyzer]: the geolocation detector *)

Lemma prefix_chars (pat s : string) (c : ascii) :
  String.prefix pat s = true -> c ∈ chars pat -> c ∈ chars s.
Proof.
  revert s. induction pat as [|a pat IH]; intros s Hp Hc;
    [by apply elem_of_nil in Hc |].
  destruct s as [|b s]; [done |]. cbn [String.prefix] in Hp.
  destruct (Ascii.ascii_dec a b) as [->|]; [| done].
  cbn [chars] in *. apply elem_of_cons in Hc as [->|Hc]; [by left |].
  right. by apply IH.
Qed.

Lemma contains_chars (pat s : string) (c : ascii) :
  contains pat s = true -> c ∈ chars pat -> c ∈ chars s.
Proof.
  induction s as [|b s IH]; cbn [contains]; intros Hp Hc.
  - rewrite orb_false_r in Hp. by apply (prefix_chars pat).
  - apply orb_true_iff in Hp as [Hp|Hp]; [by apply (prefix_chars pat) |].
    cbn [chars]. right. by apply IH.
Qed.

Lemma is_address_chars (s : string) (c : ascii) :
  is_address s = true -> c ∈ chars s -> address_char c = true.
Proof.
  induction s as [|b s IH]; cbn [is_address chars]; intros Hs Hc;
    [by apply elem_of_nil in Hc |].
  apply andb_true_iff in Hs as [Hb Hs].
  apply elem_of_cons in Hc as [->|Hc]; [done | by apply IH].
Qed.

(** X19.  The geolocation detector of [LogAnalyzer] looks for the country
    codes RU, CN, KP, IR, SY in the text of the source IP: on a batch whose
    source IPs are IPv4 or IPv6 addresses (digits, dots, colons and
    hexadecimal letters) or absent, it returns no event. *)
Theorem geolocation_never_fires_on_addresses {text : PyText}
    (self : LogAnalyzer.Self)
    (logs : list LogAnalyzer.LogEntry) :
  LogAnalyzer.self_suspicious_countries self = ["RU"; "CN"; "KP"; "IR"; "SY"] ->
  Forall (fun log => match LogAnalyzer.l_ip log with
                     | Some ip => is_address ip = true
                     | None => True
                     end) logs ->
  LogAnalyzer.detect_geolocation_anomaly self logs = Ok [].
Proof.
  intros Hcodes Hall. unfold LogAnalyzer.detect_geolocation_anomaly.
  rewrite Hcodes.
  match goal with
  | |- for_each_pure _ ?b _ = _ =>
      enough (forall acc, for_each_pure logs b acc = Ok acc) as Hgen
        by apply Hgen
  end.
  induction Hall as [|log logs Hlog _ IH]; intros acc; [done |].
  cbn [for_each_pure].
  assert (existsb (fun country =>
            contains country (py_str (of_opt (LogAnalyzer.l_ip log))))
            ["RU"; "CN"; "KP"; "IR"; "SY"] = false) as ->.
  { destruct (LogAnalyzer.l_ip log) as [ip|]; [| by vm_compute].
    cbn [of_opt py_str existsb].
    assert (forall code c, c ∈ chars code -> address_char c = false ->
                           contains code ip = false) as Hno.
    { intros code c Hc Hbad. destruct (contains code ip) eqn:Hin; [| done].
      pose proof (is_address_chars ip c Hlog (contains_chars _ _ _ Hin Hc)).
      congruence. }
    rewrite (Hno "RU" "R"%char), (Hno "CN" "N"%char), (Hno "KP" "K"%char),
      (Hno "IR" "I"%char), (Hno "SY" "S"%char);
      try done; cbn [chars]; set_solver. }
  unfold mbind, Res_bind. apply IH.
Qed.

Lemma geolocation_never_fires_on_addresses_witness :
  LogAnalyzer.detect_geolocation_anomaly (text := plain_text)
    LogAnalyzer.defaults
    [gcp_entry_from "10.0.0.1" "curl/7.68";
     gcp_entry_from "2001:db8::ff00:42:8329" "curl/7.68"] = Ok [].
Proof.
  apply (geolocation_never_fires_on_addresses (text := plain_text));
    [reflexivity |].
  repeat (constructor; [reflexivity |]). constructor.
Defined.

(** ** An entry without user agent *)

Section missing_user_agent.
Context {text : PyText} {hash : PyHash}.
Import CloudWatchAnalyzer.
Variable self : Self.

(** X17.  One entry without user agent aborts the pass of the CloudWatch
    analyzer (for a rapid-access threshold of at least 1): the user-agent
    detector raises [AttributeError] on [None.lower()], [analyze_logs]
    propagates it, and no event of the other detectors is stored. *)
Theorem missing_user_agent_aborts_pass (logs : list LogEntry) (w : World) :
  1 <= self_rapid_access_threshold self ->
  Exists (fun log => l_user_agent log = None) logs ->
  exists w',
    analyze_logs self logs w = (Raise AttributeError, w') /\
    table w' = table w.
Proof.
  intros Hthr Hex. unfold analyze_logs.
  destruct logs as [|log logs]; [by apply Exists_nil in Hex |].
  set (batch := log :: logs) in *.
  assert (forall x, clock_free (fun w => table w = x)) as Hfree
    by (by intros x w0).
  destruct (cloudwatch_detectors_preserve _ (Hfree (table w)) self batch)
    as (Kb & Kr & Ka & _).
  destruct (bulk_downloads_counts self batch w) as (bulk & w1 & H1 & _).
  destruct (rapid_access_first_window self Hthr batch w1)
    as (rapid & w2 & H2 & _).
  destruct (cloudwatch_abnormal_hours_total self batch w2)
    as (abnormal & H3).
  destruct (geolocation_raises self batch [] w2 Hex) as (w4 & H4).
  exists w4. split.
  - unfold mbind at 1. unfold M_bind at 1. rewrite H1.
    unfold mbind at 1. unfold M_bind at 1. rewrite H2.
    unfold mbind at 1. unfold M_bind at 1. rewrite H3.
    unfold mbind at 1. unfold M_bind at 1.
    unfold detect_geolocation_anomaly. by rewrite H4.
  - assert (forall x, clock_free (fun w => table w = x)) as Hfree'
      by (by intros x w0).
    destruct (cloudwatch_detectors_preserve _ (Hfree' (table w)) self batch)
      as (_ & _ & _ & Kg).
    specialize (Kb w eq_refl). rewrite H1 in Kb.
    specialize (Kr w1 Kb). rewrite H2 in Kr.
    specialize (Kg w2 Kr). unfold detect_geolocation_anomaly in Kg.
    rewrite H4 in Kg. exact Kg.
Qed.

End missing_user_agent.

Lemma missing_user_agent_aborts_pass_witness :
  exists w',
    CloudWatchAnalyzer.analyze_logs (text := plain_text)
      CloudWatchAnalyzer.defaults (twelve_gets ++ [cw_entry_without_agent])
      fresh_world = (Raise AttributeError, w') /\
    table w' = table fresh_world.
Proof.
  apply (missing_user_agent_aborts_pass (text := plain_text)
           CloudWatchAnalyzer.defaults
           (twelve_gets ++ [cw_entry_without_agent]) fresh_world).
  - by vm_compute.
  - apply Exists_app. right. by left.
Defined.

(** ** What a pass of the CloudWatch analyzer stores *)

Lemma for_each_partial {A S : Type} (I : S -> World -> Prop)
    (body : S -> A -> M S) (xs : list A) (s s' : S) (w w' : World) :
  I s w ->
  (forall x s w s' w', x ∈ xs -> I s w -> body s x w = (Ok s', w') ->
     I s' w') ->
  for_each xs body s w = (Ok s', w') ->
  I s' w'.
Proof.
  revert s w. induction xs as [|x xs IH]; intros s w Hinit Hstep Hrun;
    cbn [for_each] in Hrun.
  - by injection Hrun as <- <-.
  - unfold mbind, M_bind in Hrun.
    destruct (body s x w) as [[s1|e] w1] eqn:Hbody; [| done].
    apply (IH s1 w1); [| | done].
    + apply (Hstep x s w s1 w1); [by left | done | done].
    + intros y s2 w2 s3 w3 Hy. apply Hstep. by right.
Qed.

Lemma size_list_to_set_le (l : list string) :
  (size (list_to_set l : gset string) <= length l)%nat.
Proof.
  induction l as [|x l IH]; [done |]. cbn [list_to_set length].
  rewrite size_union_alt, size_singleton.
  assert (size (list_to_set l ∖ {[x]} : gset string)
          <= size (list_to_set l : gset string))%nat
    by (apply subseteq_size; set_solver).
  lia.
Qed.

Section stored.
Context {text : PyText} {hash : PyHash}.
Import CloudWatchAnalyzer.
Variable self : Self.

(** Every event a detector of the CloudWatch analyzer returns carries a
    datetime. *)
Lemma cloudwatch_events_timed (logs : list LogEntry) :
  (forall w evs w', detect_bulk_downloads self logs w = (Ok evs, w') ->
     Forall (fun e => is_Some (cloudwatch_identity e)) evs) /\
  (forall w evs w', detect_rapid_access self logs w = (Ok evs, w') ->
     Forall (fun e => is_Some (cloudwatch_identity e)) evs) /\
  (forall w evs w', detect_abnormal_hours_access self logs w = (Ok evs, w') ->
     Forall (fun e => is_Some (cloudwatch_identity e)) evs) /\
  (forall w evs w', detect_geolocation_anomaly self logs w = (Ok evs, w') ->
     Forall (fun e => is_Some (cloudwatch_identity e)) evs).
Proof.
  split_and!; intros w evs w' Hrun.
  - unfold detect_bulk_downloads in Hrun.
    match type of Hrun with
    | for_each ?d ?b _ _ = _ =>
        apply (for_each_partial
                 (fun evs _ => Forall (fun e => is_Some (cloudwatch_identity e))
                                      evs) b d [] evs w w');
          [constructor | | exact Hrun]
    end.
    intros [ip downloads] acc w0 acc' w0' _ Hacc Hstep.
    destruct (_ >=? _); [| by injection Hstep as <- _].
    unfold mbind, M_bind, lift, datetime_now in Hstep.
    destruct (py_index downloads 0); [| done]. injection Hstep as <- _.
    apply Forall_app. split; [done |]. by repeat constructor.
  - unfold detect_rapid_access in Hrun.
    match type of Hrun with
    | for_each ?d ?b _ _ = _ =>
        apply (for_each_partial
                 (fun evs _ => Forall (fun e => is_Some (cloudwatch_identity e))
                                      evs) b d [] evs w w');
          [constructor | | exact Hrun]
    end.
    intros [ip times] acc w0 acc' w0' _ Hacc Hstep. cbv zeta in Hstep.
    revert Hstep. generalize (py_range (Z.of_nat (length (sort_by id times))
                                - self_rapid_access_threshold self + 1)).
    intros indices. induction indices as [|i rest IH];
      cbn [scan_windows]; [by intros [= <- _] |].
    unfold mbind at 1. unfold M_bind at 1. unfold lift at 1.
    destruct (py_index _ i); [| done].
    unfold mbind at 1. unfold M_bind at 1. unfold lift at 1.
    destruct (py_index _ _); [| done].
    destruct (Qle_bool _ _); [| exact IH].
    intros [= <- _]. apply Forall_app. split; [done |].
    by repeat constructor.
  - rewrite cloudwatch_abnormal_hours_events in Hrun. injection Hrun as <- _.
    induction logs as [|log logs IH]; [constructor |].
    cbn [omap list_omap]. destruct (after_hours log); [| exact IH].
    constructor; [done | exact IH].
  - unfold detect_geolocation_anomaly in Hrun.
    match type of Hrun with
    | for_each ?d ?b _ _ = _ =>
        apply (for_each_partial
                 (fun evs _ => Forall (fun e => is_Some (cloudwatch_identity e))
                                      evs) b d [] evs w w');
          [constructor | | exact Hrun]
    end.
    intros log acc w0 acc' w0' _ Hacc Hstep.
    unfold mbind at 1 in Hstep. unfold M_bind at 1 in Hstep.
    unfold lift at 1 in Hstep.
    destruct (l_user_agent log); [| done].
    destruct (existsb _ _); [| by injection Hstep as <- _].
    injection Hstep as <- _. apply Forall_app. split; [done |].
    by repeat constructor.
Qed.

(** Storing a list of events on a reachable table adds their identities to
    the keys of the table. *)
Lemma cloudwatch_store_all (events : list SecurityEvent) (w : World) :
  table_up w = true ->
  exists w',
    for_each events (fun _ event => store_event_in_dynamodb event) tt w
    = (Ok tt, w') /\
    table_up w' = true /\
    dom (table w')
    = dom (table w) ∪ list_to_set (omap cloudwatch_identity events).
Proof.
  revert w. induction events as [|e events IH]; intros w Hup.
  - exists w. split; [done |]. split; [done |].
    cbn [omap list_omap list_to_set]. set_solver.
  - cbn [for_each omap list_omap]. unfold cloudwatch_identity at 1.
    destruct (make_item e) as [item|err] eqn:Hitem.
    + destruct (cloudwatch_store_ok e item w Hitem Hup)
        as (w1 & Hrun & Ht & Hup1 & _).
      destruct (IH w1 Hup1) as (w' & Hrest & Hup' & Hdom).
      exists w'. unfold mbind, M_bind. rewrite Hrun, Hrest.
      split; [done |]. split; [done |].
      rewrite Hdom, Ht, dom_insert_L. cbn [list_to_set]. set_solver.
    + destruct (IH w Hup) as (w' & Hrest & Hup' & Hdom).
      exists w'. unfold mbind, M_bind.
      unfold store_event_in_dynamodb at 1. unfold try_except, mbind, M_bind,
        lift. rewrite Hitem. unfold mret at 1. unfold M_ret at 1.
      by rewrite Hrest.
Qed.

(** X18.  What a pass stores.  When [analyze_logs] of the CloudWatch
    analyzer returns on a reachable table, every event it returns has been
    written under its identity (type, timestamp, IP address), and the keys
    of the table are the keys it had and these identities: events that
    share an identity share one record, so the pass adds at most as many
    records as it returns events. *)
Theorem pass_stores_every_event (logs : list LogEntry) (w w' : World)
    (events : list (string * list SecurityEvent)) :
  table_up w = true ->
  analyze_logs self logs w = (Ok events, w') ->
  Forall (fun e => exists identity,
            cloudwatch_identity e = Some identity
            /\ identity ∈ dom (table w'))
         (flat_map snd events) /\
  dom (table w')
  = dom (table w)
    ∪ list_to_set (omap cloudwatch_identity (flat_map snd events)) /\
  (size (table w') <= size (table w) + length (flat_map snd events))%nat.
Proof.
  intros Hup Hrun.
  assert (Forall (fun e => is_Some (cloudwatch_identity e))
                 (flat_map snd events)
          /\ dom (table w')
             = dom (table w)
               ∪ list_to_set (omap cloudwatch_identity (flat_map snd events)))
    as [Htimed Hdom].
  { unfold analyze_logs in Hrun. destruct logs as [|log logs'] eqn:Hlogs.
    { injection Hrun as <- <-. split; [constructor |].
      cbn [flat_map omap list_omap list_to_set]. set_solver. }
    rewrite <- Hlogs in *. clear Hlogs.
    assert (forall x, clock_free (fun w => beyond_clock w = x)) as Hfree
      by (by intros x w0).
    destruct (cloudwatch_detectors_preserve _ (Hfree (beyond_clock w)) self
                logs) as (Kb & Kr & Ka & Kg).
    destruct (cloudwatch_events_timed logs) as (Tb & Tr & Ta & Tg).
    unfold mbind at 1 in Hrun. unfold M_bind at 1 in Hrun.
    destruct (detect_bulk_downloads self logs w) as [[bulk|] w1] eqn:H1;
      [| done].
    specialize (Kb w eq_refl). rewrite H1 in Kb. cbn [snd] in Kb.
    unfold mbind at 1 in Hrun. unfold M_bind at 1 in Hrun.
    destruct (detect_rapid_access self logs w1) as [[rapid|] w2] eqn:H2;
      [| done].
    specialize (Kr w1 Kb). rewrite H2 in Kr. cbn [snd] in Kr.
    unfold mbind at 1 in Hrun. unfold M_bind at 1 in Hrun.
    destruct (detect_abnormal_hours_access self logs w2)
      as [[abnormal|] w3] eqn:H3; [| done].
    specialize (Ka w2 Kr). rewrite H3 in Ka. cbn [snd] in Ka.
    unfold mbind at 1 in Hrun. unfold M_bind at 1 in Hrun.
    destruct (detect_geolocation_anomaly self logs w3)
      as [[agents|] w4] eqn:H4; [| done].
    specialize (Kg w3 Ka). rewrite H4 in Kg. cbn [snd] in Kg.
    cbv zeta in Hrun. cbn [for_each] in Hrun.
    assert (table_up w4 = true /\ table w4 = table w) as [Hup4 Ht4].
    { unfold beyond_clock in Kg. injection Kg as -> -> _. done. }
    destruct (cloudwatch_store_all bulk w4 Hup4) as (w5 & S1 & Hup5 & D1).
    destruct (cloudwatch_store_all rapid w5 Hup5) as (w6 & S2 & Hup6 & D2).
    destruct (cloudwatch_store_all abnormal w6 Hup6) as (w7 & S3 & Hup7 & D3).
    destruct (cloudwatch_store_all agents w7 Hup7) as (w8 & S4 & Hup8 & D4).
    unfold mbind, M_bind in Hrun. rewrite S1, S2, S3, S4 in Hrun.
    unfold mret, M_ret in Hrun. injection Hrun as <- <-.
    cbn [flat_map snd]. rewrite app_nil_r. split.
    - rewrite !Forall_app. split_and!;
        [by eapply Tb | by eapply Tr | by eapply Ta | by eapply Tg].
    - rewrite D4, D3, D2, D1, Ht4, !omap_app, !list_to_set_app_L.
      set_solver. }
  split_and!; [| exact Hdom |].
  - rewrite Forall_forall in Htimed. apply Forall_forall. intros e He.
    destruct (Htimed e He) as (identity & Hid). exists identity.
    split; [done |]. rewrite Hdom. apply elem_of_union_r.
    apply elem_of_list_to_set, list_elem_of_omap. by exists e.
  - rewrite <- !size_dom, Hdom, size_union_alt.
    apply Nat.add_le_mono_l.
    etransitivity; [apply subseteq_size, subseteq_difference_l; reflexivity |].
    etransitivity; [apply size_list_to_set_le |].
    clear. induction (flat_map snd events) as [|e l IH]; [done |].
    cbn [omap list_omap]. destruct (cloudwatch_identity e); cbn [length]; lia.
Qed.

End stored.

Lemma pass_stores_every_event_witness :
  exists events w',
    CloudWatchAnalyzer.analyze_logs (text := plain_text)
      CloudWatchAnalyzer.defaults twelve_gets fresh_world = (Ok events, w') /\
    Forall (fun e => exists identity,
              cloudwatch_identity (text := plain_text) e = Some identity
              /\ identity ∈ dom (table w'))
           (flat_map snd events) /\
    dom (table w')
    = dom (table fresh_world)
      ∪ list_to_set (omap (cloudwatch_identity (text := plain_text))
                          (flat_map snd events)) /\
    (size (table w')
     <= size (table fresh_world) + length (flat_map snd events))%nat.
Proof.
  destruct (CloudWatchAnalyzer.analyze_logs (text := plain_text)
              CloudWatchAnalyzer.defaults twelve_gets fresh_world)
    as [[events|err] w'] eqn:Hrun; [| by vm_compute in Hrun].
  exists events, w'. split; [reflexivity |].
  exact (pass_stores_every_event (text := plain_text)
           CloudWatchAnalyzer.defaults twelve_gets fresh_world w' events
           eq_refl Hrun).
Defined.

(** ** [LogAnalyzer]: the user agent of a bulk-download event *)

Lemma log_analyzer_event_keeps_user_agent (kw : Kwargs)
    (e : LogAnalyzer.SecurityEvent) :
  LogAnalyzer.SecurityEvent_init kw = Ok e ->
  kwarg kw "user_agent" = Some (LogAnalyzer.user_agent e).
Proof.
  unfold LogAnalyzer.SecurityEvent_init, dataclass_init.
  destruct (forallb _ kw); [| done].
  unfold LogAnalyzer.SecurityEvent_fields.
  cbn [mapM mbind Res_bind mret Res_ret fst snd].
  unfold mbind, Res_bind.
  destruct (kwarg kw "timestamp"); [| done].
  destruct (kwarg kw "event_type"); [| done].
  destruct (kwarg kw "severity"); [| done].
  destruct (kwarg kw "source_ip"); [| done].
  destruct (kwarg kw "user_agent"); [| done].
  destruct (kwarg kw "resource"); [| done].
  destruct (kwarg kw "details"); [| done].
  destruct (kwarg kw "region"); intros [= <-]; done.
Qed.

Lemma py_index_0_head {A : Type} (l : list A) (x : A) :
  py_index l 0 = Ok x -> head l = Some x.
Proof.
  destruct l as [|y l]; [done |]. unfold py_index.
  cbn [Z.ltb Z.compare length]. 
  rewrite (proj2 (Z.leb_le 0 0)) by lia.
  rewrite (proj2 (Z.ltb_lt 0 (Z.of_nat (S (length l))))) by lia.
  cbn. by intros [= ->].
Qed.

(** X20.  Every bulk-download event [LogAnalyzer.detect_bulk_downloads]
    returns carries the user agent of the first entry of the batch
    ([logs[0]]), whichever source IP the event is about. *)
Theorem bulk_download_names_first_agent {hash : PyHash}
    (self : LogAnalyzer.Self) (logs : list LogAnalyzer.LogEntry)
    (evs : list LogAnalyzer.SecurityEvent) :
  LogAnalyzer.detect_bulk_downloads self logs = Ok evs ->
  Forall (fun e => exists first,
            head logs = Some first /\
            LogAnalyzer.user_agent e
            = of_opt (LogAnalyzer.l_user_agent first)) evs.
Proof.
  unfold LogAnalyzer.detect_bulk_downloads.
  destruct (fold_left _ logs ([], [], [])) as [[ip_downloads ip_resources]
                                                ip_timestamps].
  intros Hrun.
  match type of Hrun with
  | for_each_pure ?d ?b _ = _ =>
      apply (for_each_pure_partial
               (fun _ acc =>
                  Forall (fun e => exists first,
                            head logs = Some first /\
                            LogAnalyzer.user_agent e
                            = of_opt (LogAnalyzer.l_user_agent first)) acc)
               b [] d [] evs); [constructor | | exact Hrun]
  end.
  intros done [ip count] acc acc' _ Hacc Hstep. cbv beta iota in Hstep.
  destruct (_ >=? _); [| by injection Hstep as <-].
  unfold mbind, Res_bind in Hstep.
  destruct (py_max _) as [last|]; [| done].
  destruct (py_index logs 0) as [first_log|] eqn:Hfirst; [| done].
  destruct (py_join _ _) as [joined|]; [| done].
  destruct (py_min _) as [first|]; [| done].
  destruct (LogAnalyzer.SecurityEvent_init _) as [event|] eqn:Hevent;
    [| done].
  injection Hstep as <-. apply Forall_app. split; [done |].
  constructor; [| constructor]. exists first_log.
  split; [by apply py_index_0_head |].
  apply log_analyzer_event_keeps_user_agent in Hevent. cbn in Hevent.
  by injection Hevent.
Qed.

Lemma bulk_download_names_first_agent_witness :
  exists evs,
    LogAnalyzer.detect_bulk_downloads (hash := insertion_order)
      two_downloads_suffice
      [gcp_entry_from "10.0.0.9" "Mozilla/5.0";
       gcp_entry_from "10.0.0.1" "curl/7.68";
       gcp_entry_from "10.0.0.1" "curl/7.68"] = Ok evs /\
    map LogAnalyzer.source_ip evs = [VStr "10.0.0.1"] /\
    Forall (fun e => exists first,
              head [gcp_entry_from "10.0.0.9" "Mozilla/5.0";
                    gcp_entry_from "10.0.0.1" "curl/7.68";
                    gcp_entry_from "10.0.0.1" "curl/7.68"] = Some first /\
              LogAnalyzer.user_agent e
              = of_opt (LogAnalyzer.l_user_agent first)) evs.
Proof.
  eexists. split; [by vm_compute |]. split; [by vm_compute |].
  apply (bulk_download_names_first_agent (hash := insertion_order)
           two_downloads_suffice).
  by vm_compute.
Defined.

(** ** [LogAnalyzer]: rapid access *)

Lemma StronglySorted_drop {A : Type} (R : A -> A -> Prop) (l : list A)
    (i : nat) :
  StronglySorted R l -> StronglySorted R (drop i l).
Proof.
  revert l. induction i as [|i IH]; intros l Hs; [by rewrite drop_0 |].
  destruct l as [|x l]; [done |]. cbn [drop].
  apply IH. by apply StronglySorted_inv in Hs as [? _].
Qed.

(** In a list sorted by [key], the elements up to a bound are a prefix. *)
Lemma sorted_count {A : Type} (key : A -> Z) (l : list A) (bound : Z)
    (n : nat) :
  StronglySorted (fun a b => key a <= key b) l ->
  (n < length (filter (fun a => (key a <= bound)%Z) l))%nat
  <-> exists x, l !! n = Some x /\ key x <= bound.
Proof.
  intros Hs. revert n. induction Hs as [|x l Hs IH Hall]; intros n.
  - simpl. split; [lia | by intros (x & Hx & _)].
  - rewrite Forall_forall in Hall.
    destruct (decide (key x <= bound)) as [Hle|Hgt].
    + rewrite filter_cons_True by done. destruct n as [|n]; simpl.
      * split; [by exists x | lia].
      * rewrite <- IH. lia.
    + rewrite filter_cons_False by done. split.
      * intros Hlt. apply IH in Hlt as (y & Hy & Hle).
        apply list_elem_of_lookup_2, Hall in Hy. lia.
      * intros (y & Hy & Hle). exfalso. destruct n as [|n].
        -- injection Hy as ->. lia.
        -- cbn [lookup list_lookup] in Hy.
           apply list_elem_of_lookup_2, Hall in Hy. lia.
Qed.

Lemma windows_short (k : nat) (times : list Z) (i : nat) :
  (length times <= i + k)%nat -> windows k (drop i times) = [].
Proof.
  intros Hlen. unfold windows. rewrite drop_drop, (drop_ge times (i + k)) by lia.
  by destruct (drop i times).
Qed.

Section log_analyzer_rapid.
Import LogAnalyzer.
Variable self : Self.
Hypothesis threshold_positive : 1 <= self_rapid_access_threshold self.
Hypothesis window_nonzero : self_rapid_access_window self <> 0.

(** The accesses from an index on that fall within the window are at least
    [threshold] exactly when the access [threshold - 1] places later does. *)
Lemma gcp_window_fires (accesses : list LogEntry) (i : nat)
    (start : LogEntry) :
  StronglySorted (fun a b => l_timestamp a <= l_timestamp b) accesses ->
  accesses !! i = Some start ->
  (Z.of_nat (length (filter
      (fun a => l_timestamp a
                <= l_timestamp start + self_rapid_access_window self * 1000000)
      (drop i accesses)))
   >=? self_rapid_access_threshold self)
  = match accesses !! (i + Z.to_nat (self_rapid_access_threshold self - 1))%nat
    with
    | Some last =>
        within (self_rapid_access_window self)
               (l_timestamp start, l_timestamp last)
    | None => false
    end.
Proof.
  intros Hs Hstart.
  set (k := Z.to_nat (self_rapid_access_threshold self - 1)).
  pose proof (sorted_count l_timestamp (drop i accesses)
                (l_timestamp start + self_rapid_access_window self * 1000000)
                k (StronglySorted_drop _ _ i Hs)) as Hcount.
  rewrite lookup_drop in Hcount.
  apply eq_iff_eq_true. rewrite Z.geb_le.
  transitivity (k < length (filter
      (fun a => (l_timestamp a
                 <= l_timestamp start
                    + self_rapid_access_window self * 1000000)%Z)
      (drop i accesses)))%nat; [unfold k; lia |].
  rewrite Hcount. destruct (accesses !! (i + k)%nat) as [last|].
  - unfold within. cbn [fst snd]. rewrite Z.leb_le. split.
    + intros (x & [= <-] & Hle). lia.
    + intros Hle. exists last. split; [done | lia].
  - split; [by intros (x & Hx & _) | done].
Qed.

Lemma gcp_scan_windows (ip : option string) (accesses : list LogEntry)
    (n i0 : nat) (events : list SecurityEvent) :
  StronglySorted (fun a b => l_timestamp a <= l_timestamp b) accesses ->
  (i0 + n <= length accesses)%nat ->
  exists res,
    scan_windows self ip accesses (map Z.of_nat (seq i0 n)) events = Ok res /\
    match List.find (within (self_rapid_access_window self))
            (take n (windows (Z.to_nat (self_rapid_access_threshold self - 1))
                             (drop i0 (map l_timestamp accesses)))) with
    | Some (a, b) =>
        exists e, res = events ++ [e] /\ timestamp e = VDatetime a
                  /\ source_ip e = of_opt ip
    | None => res = events
    end.
Proof.
  intros Hs. set (k := Z.to_nat (self_rapid_access_threshold self - 1)).
  revert i0. induction n as [|n IH]; intros i0 Hrange.
  { exists events. by rewrite take_0. }
  destruct (lookup_lt_is_Some_2 accesses i0) as [start Hstart]; [lia |].
  cbn [seq map scan_windows]. rewrite (py_index_lookup _ _ _ Hstart).
  unfold mbind at 1. unfold Res_bind at 1. cbv zeta.
  rewrite Nat2Z.id, (gcp_window_fires accesses i0 start Hs Hstart). fold k.
  destruct (IH (S i0)) as (res & Hrest & Hres); [lia |].
  destruct (accesses !! (i0 + k)%nat) as [last|] eqn:Hlast.
  - rewrite (windows_cons k (map l_timestamp accesses) i0
               (l_timestamp start) (l_timestamp last))
      by (by rewrite list_lookup_fmap, ?Hstart, ?Hlast).
    cbn [take List.find].
    destruct (within (self_rapid_access_window self)
                     (l_timestamp start, l_timestamp last)) eqn:Hwithin.
    + pose proof (gcp_window_fires accesses i0 start Hs Hstart) as Hfires.
      fold k in Hfires. rewrite Hlast, Hwithin in Hfires.
      destruct (filter _ (drop i0 accesses)) as [|first others] eqn:Hwa.
      { apply Z.geb_le in Hfires. cbn [length] in Hfires. lia. }
      change (py_index (first :: others) 0) with (Ok first).
      unfold mbind at 1. unfold Res_bind at 1.
      unfold py_div.
      destruct (Qeq_bool (inject_Z (self_rapid_access_window self)) 0) eqn:Hz.
      { exfalso. apply Qeq_bool_eq in Hz. apply window_nonzero.
        unfold Qeq, inject_Z in Hz. cbn [Qnum Qden] in Hz. lia. }
      unfold mbind at 1. unfold Res_bind at 1.
      eexists. split; [reflexivity |]. by eexists.
    + exists res. by split.
  - rewrite (windows_short k (map l_timestamp accesses) i0) in *
      by (rewrite length_map; apply lookup_ge_None in Hlast; lia).
    rewrite (windows_short k (map l_timestamp accesses) (S i0)) in Hres
      by (rewrite length_map; apply lookup_ge_None in Hlast; lia).
    rewrite take_nil in *. exists res. by split.
Qed.

Lemma gcp_scan_first (ip : option string) (accesses : list LogEntry)
    (events : list SecurityEvent) :
  exists res,
    scan_windows self ip (sort_by l_timestamp accesses)
      (py_range (Z.of_nat (length (sort_by l_timestamp accesses)))) events
    = Ok res /\
    match first_window (self_rapid_access_threshold self)
                       (self_rapid_access_window self)
                       (map l_timestamp (sort_by l_timestamp accesses)) with
    | Some (a, b) =>
        exists e, res = events ++ [e] /\ timestamp e = VDatetime a
                  /\ source_ip e = of_opt ip
    | None => res = events
    end.
Proof.
  unfold py_range, first_window. rewrite Nat2Z.id.
  destruct (gcp_scan_windows ip (sort_by l_timestamp accesses)
              (length (sort_by l_timestamp accesses)) 0 events)
    as (res & Hrun & Hres); [| lia |].
  { apply Sorted_StronglySorted; [| apply sort_by_Sorted].
    intros a b c. lia. }
  exists res. split; [exact Hrun |].
  rewrite drop_0, take_ge in Hres; [exact Hres |].
  unfold windows. rewrite length_zip_with, length_drop, length_map. lia.
Qed.

(** X21.  [LogAnalyzer.detect_rapid_access] (threshold at least 1, window
    not 0) never raises.  It counts, from each access of a source IP on, the
    accesses that fall within the window; for each IP this selects the
    first window of [threshold] consecutive accesses, in time order, that
    spans at most the configured seconds, as the detectors of the
    CloudWatch analyzer and of the Lambda function do: exactly one event
    for that window, stamped with its first access, and none when no window
    qualifies. *)
Theorem log_analyzer_rapid_access_first_window (logs : list LogEntry) :
  exists evs,
    detect_rapid_access self logs = Ok evs /\
    forall ip,
      match first_window (self_rapid_access_threshold self)
                         (self_rapid_access_window self)
                         (gcp_access_times ip logs) with
      | Some (a, b) =>
          exists e, events_from source_ip ip evs = [e]
                    /\ timestamp e = VDatetime a
      | None => events_from source_ip ip evs = []
      end.
Proof.
  unfold detect_rapid_access.
  set (step := fun d log => setdefault_append (l_ip log) log d).
  assert (Hstep : forall d x,
    step d x = match port_scanning_key x with
               | Some (k, v) => setdefault_append k v d
               | None => d
               end) by done.
  set (d := fold_left step logs []).
  assert (Hnd : NoDup d.*1)
    by (apply (grouped_keys_NoDup port_scanning_key step Hstep); constructor).
  assert (Hget : forall ip, dict_get ip [] d = accesses_of ip logs).
  { intros ip. unfold d.
    rewrite (grouped_values port_scanning_key step Hstep).
    apply appended_port_scanning_key. }
  pose (fw := fun accesses : list LogEntry =>
    first_window (self_rapid_access_threshold self)
      (self_rapid_access_window self)
      (map l_timestamp (sort_by l_timestamp accesses))).
  pose (has := fun accesses => bool_decide (is_Some (fw accesses))).
  pose (I := fun (done : list (option string * list LogEntry))
                 (evs : list SecurityEvent) =>
    (forall ip,
       length (events_from source_ip ip evs)
       = length (List.filter
                   (fun kv => bool_decide (kv.1 = ip) && has kv.2) done)) /\
    Forall (fun e => exists ip accesses a b,
              (ip, accesses) ∈ d /\ fw accesses = Some (a, b) /\
              timestamp e = VDatetime a /\ source_ip e = of_opt ip) evs).
  destruct (for_each_pure_invariant I
    (fun events '(ip, accesses) =>
       let accesses := sort_by l_timestamp accesses in
       scan_windows self ip accesses
         (py_range (Z.of_nat (length accesses))) events)
    [] d []) as (evs & Hrun & Hcount & Hall).
  - split; [done | constructor].
  - intros done [ip0 accesses0] evs Hx [Hcount Hall]. cbv zeta.
    destruct (gcp_scan_first ip0 accesses0 evs) as (res & Hrun & Hres).
    exists res. split; [exact Hrun |]. fold (fw accesses0) in Hres.
    destruct (fw accesses0) as [[a b]|] eqn:Hfw.
    + destruct Hres as (e & -> & Htime & Hip). split.
      * intros ip. unfold events_from in *.
        rewrite !filter_length_app, Hcount. f_equal.
        cbn [List.filter fst snd]. rewrite Hip, py_eq_of_opt.
        unfold has. rewrite Hfw.
        rewrite (bool_decide_eq_true_2 (is_Some (Some (a, b)))) by done.
        by destruct (bool_decide (ip0 = ip)).
      * apply Forall_app. split; [done |]. constructor; [| constructor].
        by exists ip0, accesses0, a, b.
    + subst res. split; [| done].
      intros ip. rewrite filter_length_app, Hcount.
      cbn [List.filter fst snd]. unfold has. rewrite Hfw.
      rewrite (bool_decide_eq_false_2 (is_Some None)) by (by intros [? ?]).
      rewrite andb_false_r. simpl. lia.
  - exists evs. split; [exact Hrun |]. intros ip.
    specialize (Hcount ip).
    rewrite (dict_count_key d ip has [] Hnd) in Hcount.
    unfold has in Hcount. rewrite Hget in Hcount.
    change (fw (accesses_of ip logs))
      with (first_window (self_rapid_access_threshold self)
              (self_rapid_access_window self) (gcp_access_times ip logs))
      in Hcount.
    destruct (first_window (self_rapid_access_threshold self)
      (self_rapid_access_window self) (gcp_access_times ip logs))
      as [[a b]|] eqn:Hfw.
    + rewrite (bool_decide_eq_true_2 (is_Some (Some (a, b)))) in Hcount by done.
      rewrite andb_true_r in Hcount.
      destruct (decide (ip ∈ d.*1)) as [Hin|Hnin].
      * rewrite bool_decide_eq_true_2 in Hcount by done.
        destruct (events_from source_ip ip evs) as [|e [|e' rest]] eqn:Hev;
          try done.
        exists e. split; [done |].
        assert (In e (events_from source_ip ip evs)) as He
          by (rewrite Hev; by left).
        unfold events_from in He. apply filter_In in He as [He Hip].
        rewrite Forall_forall in Hall.
        destruct (Hall e) as (ip' & accesses' & a' & b' & Hitem & Hfw' & Htime & Hip');
          [by apply list_elem_of_In |].
        rewrite Hip', py_eq_of_opt in Hip. apply bool_decide_eq_true_1 in Hip.
        subst ip'. rewrite <- (dict_get_item d ip accesses' [] Hnd Hitem) in Hfw'.
        rewrite Hget in Hfw'. unfold fw in Hfw'.
        change (map l_timestamp (sort_by l_timestamp (accesses_of ip logs)))
          with (gcp_access_times ip logs) in Hfw'.
        rewrite Hfw in Hfw'. by injection Hfw' as <- <-.
      * exfalso. rewrite bool_decide_eq_false_2 in Hcount by done.
        apply Hnin. unfold d.
        apply (grouped_keys port_scanning_key step Hstep).
        right. rewrite appended_port_scanning_key.
        intros Hnone. unfold gcp_access_times in Hfw.
        rewrite Hnone in Hfw. done.
    + rewrite (bool_decide_eq_false_2 (is_Some None)) in Hcount
        by (by intros [? ?]).
      rewrite andb_false_r in Hcount.
      by destruct (events_from source_ip ip evs).
Qed.

End log_analyzer_rapid.

Lemma log_analyzer_rapid_access_first_window_witness :
  exists evs,
    LogAnalyzer.detect_rapid_access LogAnalyzer.defaults
      (replicate 10 (gcp_entry_from "10.0.0.1" "curl/7.68")
       ++ [gcp_entry_from "10.0.0.9" "Mozilla/5.0"]) = Ok evs /\
    (exists e,
       events_from LogAnalyzer.source_ip (Some "10.0.0.1") evs = [e]
       /\ LogAnalyzer.timestamp e = VDatetime 0) /\
    events_from LogAnalyzer.source_ip (Some "10.0.0.9") evs = [].
Proof.
  destruct (log_analyzer_rapid_access_first_window
              LogAnalyzer.defaults ltac:(by vm_compute) ltac:(by vm_compute)
              (replicate 10 (gcp_entry_from "10.0.0.1" "curl/7.68")
               ++ [gcp_entry_from "10.0.0.9" "Mozilla/5.0"]))
    as (evs & Hrun & Hfirst).
  exists evs. split; [exact Hrun |]. split.
  - exact (Hfirst (Some "10.0.0.1")).
  - exact (Hfirst (Some "10.0.0.9")).
Defined.

(** ** [LogAnalyzer]: abnormal hours *)

Lemma appended_abnormal_hours_key (self : LogAnalyzer.Self)
    (ip : option string) (logs : list LogAnalyzer.LogEntry) :
  appended (abnormal_hours_key self) ip logs = abnormal_accesses self ip logs.
Proof.
  unfold appended, abnormal_accesses, abnormal_hours_key.
  induction logs as [|log logs IH]; [done |].
  cbn [omap list_omap List.filter]. rewrite <- IH.
  destruct (in_abnormal_hours self log); cbn [andb]; [| done].
  case_decide; case_bool_decide; done.
Qed.

(** X22.  [LogAnalyzer.detect_abnormal_hours_access] never raises.  It
    returns exactly one event, of severity medium, for each source IP with
    at least five entries whose hour lies in the configured abnormal hours
    (start inclusive, end exclusive), and none for the other IPs; the event
    is stamped with the latest of these entries. *)
Theorem log_analyzer_abnormal_hours_per_ip
    (self : LogAnalyzer.Self) (logs : list LogAnalyzer.LogEntry) :
  exists evs,
    LogAnalyzer.detect_abnormal_hours_access self logs = Ok evs /\
    (forall ip,
       length (events_from LogAnalyzer.source_ip ip evs)
       = if 5 <=? Z.of_nat (length (abnormal_accesses self ip logs))
         then 1%nat else 0%nat) /\
    Forall (fun e => exists ip latest,
              LogAnalyzer.source_ip e = of_opt ip /\
              py_max (map LogAnalyzer.l_timestamp
                          (abnormal_accesses self ip logs)) = Ok latest /\
              Forall (fun log => LogAnalyzer.l_timestamp log <= latest)
                     (abnormal_accesses self ip logs) /\
              LogAnalyzer.timestamp e = VDatetime latest /\
              LogAnalyzer.severity e = VStr "medium") evs.
Proof.
  unfold LogAnalyzer.detect_abnormal_hours_access.
  set (step := fun d log =>
    if (LogAnalyzer.self_abnormal_hours_start self
        <=? hour (LogAnalyzer.l_timestamp log))
       && (hour (LogAnalyzer.l_timestamp log)
           <? LogAnalyzer.self_abnormal_hours_end self)
    then setdefault_append (LogAnalyzer.l_ip log) log d
    else d).
  assert (Hstep : forall d x,
    step d x = match abnormal_hours_key self x with
               | Some (k, v) => setdefault_append k v d
               | None => d
               end).
  { intros d x. unfold step, abnormal_hours_key, in_abnormal_hours.
    by destruct (_ && _). }
  set (d := fold_left step logs []).
  assert (Hnd : NoDup d.*1)
    by (apply (grouped_keys_NoDup (abnormal_hours_key self) step Hstep);
        constructor).
  assert (Hget : forall ip, dict_get ip [] d = abnormal_accesses self ip logs).
  { intros ip. unfold d.
    rewrite (grouped_values (abnormal_hours_key self) step Hstep).
    apply appended_abnormal_hours_key. }
  pose (test := fun accesses : list LogAnalyzer.LogEntry =>
    5 <=? Z.of_nat (length accesses)).
  pose (I := fun (done : list (option string * list LogAnalyzer.LogEntry))
                 (evs : list LogAnalyzer.SecurityEvent) =>
    (forall ip,
       length (events_from LogAnalyzer.source_ip ip evs)
       = length (List.filter
                   (fun kv => bool_decide (kv.1 = ip) && test kv.2) done)) /\
    Forall (fun e => exists ip accesses latest,
              (ip, accesses) ∈ d /\
              LogAnalyzer.source_ip e = of_opt ip /\
              py_max (map LogAnalyzer.l_timestamp accesses) = Ok latest /\
              LogAnalyzer.timestamp e = VDatetime latest /\
              LogAnalyzer.severity e = VStr "medium") evs).
  match goal with
  | |- exists evs, for_each_pure _ ?b _ = _ /\ _ =>
      destruct (for_each_pure_invariant I b [] d [])
        as (evs & Hrun & Hcount & Hall)
  end.
  - split; [done | constructor].
  - intros done [ip0 accesses0] evs Hx [Hcount Hall].
    rewrite Z.geb_leb. fold (test accesses0).
    destruct (test accesses0) eqn:Htest.
    + destruct accesses0 as [|first rest]; [done |].
      eexists. split; [reflexivity |]. split.
      * intros ip. unfold events_from in *.
        rewrite !filter_length_app, Hcount. f_equal.
        cbn [List.filter fst snd LogAnalyzer.source_ip].
        rewrite py_eq_of_opt, Htest, andb_true_r.
        by destruct (bool_decide (ip0 = ip)).
      * apply Forall_app. split; [done |]. constructor; [| constructor].
        by eexists ip0, (first :: rest), _.
    + exists evs. split; [reflexivity |]. split; [| done].
      intros ip. rewrite filter_length_app, Hcount.
      cbn [List.filter fst snd]. rewrite Htest, andb_false_r. simpl. lia.
  - exists evs. split; [exact Hrun |]. split.
    + intros ip. rewrite Hcount, (dict_count_key d ip test [] Hnd), Hget.
      fold (test (abnormal_accesses self ip logs)).
      destruct (test (abnormal_accesses self ip logs)) eqn:Htest;
        [| by rewrite andb_false_r].
      rewrite andb_true_r, bool_decide_eq_true_2; [done |].
      destruct (decide (ip ∈ d.*1)) as [Hin|Hnin]; [done |].
      by rewrite <- Hget, (dict_get_absent d ip [] Hnin) in Htest.
    + eapply Forall_impl; [exact Hall |].
      intros e (ip & accesses & latest & Hitem & Hip & Hmax & Htime & Hsev).
      rewrite <- (dict_get_item d ip accesses [] Hnd Hitem), Hget in Hmax.
      exists ip, latest. split_and!; try done.
      destruct (abnormal_accesses self ip logs) as [|x l]; [done |].
      injection Hmax as <-. cbn [map].
      assert (forall (l : list Z) (a : Z),
                a <= fold_left Z.max l a
                /\ Forall (fun t => t <= fold_left Z.max l a) l) as Hfold.
      { clear. induction l as [|t l IH]; intros a;
          [split; [cbn; lia | constructor] |].
        cbn [fold_left]. destruct (IH (Z.max a t)) as [Hle Hall].
        split; [lia |]. constructor; [lia | done]. }
      destruct (Hfold (map LogAnalyzer.l_timestamp l)
                      (LogAnalyzer.l_timestamp x)) as [Hx Hl].
      constructor; [done |]. clear -Hl. revert Hl.
      generalize (fold_left Z.max (map LogAnalyzer.l_timestamp l)
                            (LogAnalyzer.l_timestamp x)) as m.
      intros m Hl. induction l as [|y l IH]; [constructor |].
      cbn [map] in Hl. apply Forall_cons in Hl as [Hy Hl].
      constructor; [done | by apply IH].
Qed.
